(** * Content API: ingestion, filtered listing, statistics and the enrichment gate

    A shallow embedding of [contents/views.py] and [contents/tasks.py].
    The relational store is a record of tables (lists of rows, in the order
    the database yields them), ORM calls are functions on those tables, and
    Python exceptions are the [Raise] branch of [result]. *)

From Stdlib Require Import ZArith QArith List Bool Ascii String Lia.
From stdpp Require Import base option list sorting strings pretty gmap.
Import ListNotations.

Set Warnings "-register-all".

Local Open Scope string_scope.
Local Open Scope Z_scope.

(** ** Python values and exceptions *)

Module Py.

(** Exceptions the modelled code can let escape. *)
Inductive exn : Type :=
| ZeroDivisionError
| TypeError
| DoesNotExist
| MultipleObjectsReturned
| NotFound
| RequestException
| JSONDecodeError
| ValueError
| OverflowError.

Inductive result (A : Type) : Type :=
| Ok (a : A)
| Raise (e : exn).
Arguments Ok {A} a.
Arguments Raise {A} e.

Definition bind {A B} (r : result A) (k : A -> result B) : result B :=
  match r with
  | Ok a => k a
  | Raise e => Raise e
  end.

(** A decoded JSON document, as [response.json()] returns it. *)
Inductive json : Type :=
| JNull
| JBool (b : bool)
| JInt (n : Z)
| JFloat (q : Q)
| JStr (s : string)
| JList (l : list json)
| JDict (d : list (string * json)).

(** Python truth value of a decoded document: [None], [False], zero,
    the empty string and empty containers are false. *)
Definition truthy (v : json) : bool :=
  match v with
  | JNull => false
  | JBool b => b
  | JInt n => negb (n =? 0)
  | JFloat q => negb (Qnum q =? 0)
  | JStr s => negb (String.eqb s "")
  | JList l => match l with [] => false | _ => true end
  | JDict d => match d with [] => false | _ => true end
  end.

(** A number as the views hand it to the response: the literal [0] is an
    [int], the outcome of [/] is a [float].  The float is kept as the exact
    quotient. *)
Inductive number : Type :=
| Int (z : Z)
| Float (q : Q).

(** [a / b] on two ints. *)
Definition truediv (a b : Z) : result number :=
  if b =? 0 then Raise ZeroDivisionError
  else Ok (Float (inject_Z a / inject_Z b)).

(** [x + y] where either operand may be [None]. *)
Definition add (x y : option Z) : result (option Z) :=
  match x, y with
  | Some a, Some b => Ok (Some (a + b))
  | _, _ => Raise TypeError
  end.

End Py.

Notation "'let!' x ':=' r 'in' k" := (Py.bind r (fun x => k))
  (at level 10, x pattern, r at level 100, k at level 200).

(** ** Tables *)

Module Author.
Record row : Type := {
  id : Z;
  username : string;
  name : string;
  unique_id : string;
  url : string;
  title : string;
  big_metadata : Py.json;
  secret_value : string;
  followers : Z
}.
End Author.

Module Content.
Record row : Type := {
  id : Z;
  author_id : Z;
  unique_id : string;
  url : string;
  title : string;
  like_count : Z;
  comment_count : Z;
  view_count : Z;
  share_count : Z;
  thumbnail_url : string;
  timestamp : Z;
  big_metadata : Py.json;
  secret_value : string
}.
End Content.

Module Tag.
Record row : Type := {
  id : Z;
  name : string
}.
End Tag.

Module ContentTag.
Record row : Type := {
  id : Z;
  tag_id : Z;
  content_id : Z
}.
End ContentTag.

(** The database: four tables, each with the next primary key its sequence
    hands out.  A table lists its rows in the order an unordered [SELECT]
    yields them; [create] appends. *)
Record Store : Type := {
  authors : list Author.row;
  contents : list Content.row;
  tags : list Tag.row;
  contenttags : list ContentTag.row;
  next_author : Z;
  next_content : Z;
  next_tag : Z;
  next_contenttag : Z
}.

Definition empty_store : Store :=
  {| authors := []; contents := []; tags := []; contenttags := [];
     next_author := 1; next_content := 1; next_tag := 1; next_contenttag := 1 |}.

(** [Model.objects.get(...)]: the single row matching the condition. *)
Definition objects_get {A : Type} (cond : A -> bool) (table : list A) : Py.result A :=
  match List.filter cond table with
  | [] => Py.Raise Py.DoesNotExist
  | [r] => Py.Ok r
  | _ :: _ :: _ => Py.Raise Py.MultipleObjectsReturned
  end.

(** A row of [Content.objects.select_related("author")]: the content joined
    with its author. *)
Definition joined : Type := (Content.row * Author.row)%type.

Definition select_related_author (s : Store) : list joined :=
  flat_map
    (fun c => map (fun a => (c, a))
                (List.filter (fun a => Author.id a =? Content.author_id c) (authors s)))
    (contents s).

(** ** The request *)

Module Request.

(** The [page] query parameter: absent or empty, the text [last], the
    text of an integer, or any other text. *)
Inductive page_param : Type :=
| PageAbsent
| PageLast
| PageNumber (n : Z)
| PageText.

(** The text of a parameter the code converts to an integer: the text of
    an integer, as [int()] reads it, or any other text. *)
Inductive number_text : Type :=
| Integer (n : Z)
| NotInteger.

(** [int(text)] *)
Definition int (text : number_text) : Py.result Z :=
  match text with
  | Integer n => Py.Ok n
  | NotInteger => Py.Raise Py.ValueError
  end.

(** [request.query_params.dict()], one field per key the views read.
    A field is [None] when the key is absent or its text is empty, which
    the views treat alike.  [author_id], [timeframe] and [tag_id] hold
    their text, which need not be that of an integer; [items_per_page]
    holds the integer its text denotes and is also [None] when its text is
    no integer (the paginator suppresses both cases alike). *)
Record t : Type := {
  author_id : option number_text;
  author_username : option string;
  timeframe : option number_text;
  tag_id : option number_text;
  title : option string;
  tag : option string;
  page : page_param;
  items_per_page : option Z
}.

Definition no_params : t :=
  {| author_id := None; author_username := None; timeframe := None;
     tag_id := None; title := None; tag := None;
     page := PageAbsent; items_per_page := None |}.

End Request.

(** ** Field lookups of the ORM *)

Definition lower_ascii (c : ascii) : ascii :=
  let n := N_of_ascii c in
  if ((65 <=? n) && (n <=? 90))%N then ascii_of_N (n + 32) else c.

Fixpoint lower (s : string) : string :=
  match s with
  | EmptyString => EmptyString
  | String c rest => String (lower_ascii c) (lower rest)
  end.

(** [field__icontains=needle] *)
Definition icontains (field needle : string) : bool :=
  match String.index 0 (lower needle) (lower field) with
  | Some _ => true
  | None => false
  end.

(** A [datetime] is the number of microseconds from [datetime.min], the
    start of year 1, to it; [datetime.max] is the last microsecond of year
    9999, day 3652059 of the calendar. *)
Definition datetime_max : Z := 3652059 * 86400000000 - 1.

(** The length of [n] days in microseconds, the resolution of a timestamp. *)
Definition timedelta_days (n : Z) : Z := n * 86400000000.

(** [timedelta(days=n)]: an [OverflowError] beyond 999999999 days either
    way. *)
Definition timedelta (days : Z) : Py.result Z :=
  if (-999999999 <=? days) && (days <=? 999999999)
  then Py.Ok (timedelta_days days)
  else Py.Raise Py.OverflowError.

(** [moment - delta] on a [datetime] and a [timedelta]: an [OverflowError]
    when the difference is no [datetime]. *)
Definition datetime_sub (moment delta : Z) : Py.result Z :=
  let difference := moment - delta in
  if (0 <=? difference) && (difference <=? datetime_max)
  then Py.Ok difference
  else Py.Raise Py.OverflowError.

(** The value an integer column is compared with: the ORM converts the
    text with [int()] when the lookup is built. *)
Definition get_prep_value (text : Request.number_text) : Py.result Z :=
  Request.int text.

(** Python truth value of a string. *)
Definition nonempty (x : string) : bool := negb (String.eqb x "").

(** [queryset.filter(contentag__tag_id=t)]: the join with the link table
    yields one row per matching link. *)
Definition filter_tag_id (s : Store) (t : Z) (queryset : list joined) : list joined :=
  flat_map
    (fun r => map (fun _ => r)
                (List.filter
                   (fun ct => (ContentTag.content_id ct =? Content.id (fst r))
                              && (ContentTag.tag_id ct =? t))
                   (contenttags s)))
    queryset.

(** [queryset.filter(contentag__tag__name=n)]: joins the link table and the
    tag table. *)
Definition filter_tag_name (s : Store) (n : string) (queryset : list joined) : list joined :=
  flat_map
    (fun r =>
       flat_map
         (fun ct => map (fun _ => r)
                      (List.filter
                         (fun t => (Tag.id t =? ContentTag.tag_id ct)
                                   && String.eqb (Tag.name t) n)
                         (tags s)))
         (List.filter (fun ct => ContentTag.content_id ct =? Content.id (fst r))
                      (contenttags s)))
    queryset.

(** ** Pagination

    [CustomPagination] only sets four class attributes; what a page is comes
    from its base class [rest_framework.pagination.PageNumberPagination] and
    from [django.core.paginator.Paginator], embedded here as those libraries
    define them. *)

Module CustomPagination.

Definition page_size : Z := 10.
Definition max_page_size : Z := 100.

(** [_positive_int(integer_string, strict, cutoff)] on the integer the
    text denotes; [None] is its [ValueError]. *)
Definition _positive_int (ret : Z) (strict : bool) (cutoff : Z) : option Z :=
  if (ret <? 0) || ((ret =? 0) && strict) then None
  else if negb (cutoff =? 0) then Some (Z.min ret cutoff)
  else Some ret.

(** [get_page_size]: a missing key and a [ValueError] are both suppressed,
    and the class default is used. *)
Definition get_page_size (request : Request.t) : Z :=
  match Request.items_per_page request with
  | Some n =>
      match _positive_int n true max_page_size with
      | Some size => size
      | None => page_size
      end
  | None => page_size
  end.

(** [Paginator.num_pages], with no orphans and an empty first page
    allowed: [ceil(max(1, count) / per_page)]. *)
Definition num_pages (count per_page : Z) : Z :=
  let hits := Z.max 1 count in
  - ((- hits) / per_page).

(** [get_page_number]: [query_params.get("page") or 1], and [last]. *)
Definition get_page_number (request : Request.t) (count per_page : Z) : option Z :=
  match Request.page request with
  | Request.PageAbsent => Some 1
  | Request.PageLast => Some (num_pages count per_page)
  | Request.PageNumber n => Some n
  | Request.PageText => None
  end.

(** [object_list[bottom:top]] for [0 <= bottom]. *)
Definition slice {A : Type} (object_list : list A) (bottom top : Z) : list A :=
  firstn (Z.to_nat (top - bottom)) (skipn (Z.to_nat bottom) object_list).

(** [Paginator.page(number)] once the number is validated. *)
Definition page {A : Type} (object_list : list A) (per_page number : Z) : list A :=
  let count := Z.of_nat (length object_list) in
  let bottom := (number - 1) * per_page in
  let top := bottom + per_page in
  let top := if top >=? count then count else top in
  slice object_list bottom top.

(** [paginate_queryset]: [None] (no pagination) when the page size is
    zero, [NotFound] when the paginator raises [InvalidPage]. *)
Definition paginate_queryset {A : Type} (queryset : list A) (request : Request.t)
    : Py.result (option (list A)) :=
  let page_size := get_page_size request in
  if page_size =? 0 then Py.Ok None
  else
    let count := Z.of_nat (length queryset) in
    match get_page_number request count page_size with
    | None => Py.Raise Py.NotFound
    | Some number =>
        if number <? 1 then Py.Raise Py.NotFound
        else if number >? num_pages count page_size then Py.Raise Py.NotFound
        else Py.Ok (Some (page queryset page_size number))
    end.

End CustomPagination.

(** ** The ingestion payload

    [serializer.validated_data] of [ContentPostSerializer]. *)

Module Payload.

Record author : Type := {
  unique_external_id : string;
  unique_name : string;
  full_name : string;
  author_url : string;
  author_title : string;
  author_big_metadata : Py.json;
  author_secret_value : string
}.

Record stats : Type := {
  likes : Z;
  comments : Z;
  views : Z;
  shares : Z
}.

Record t : Type := {
  author_of : author;
  unq_external_id : string;
  url : string;
  title : string;
  stats_of : stats;
  thumbnail_url : string;
  big_metadata : Py.json;
  secret_value : string;
  hashtags : list string
}.

End Payload.

(** ** [ContentAPIView]: the listing *)

Module ContentAPIView.

(** [_build_filters]; [now] is what [timezone.now()] returns.  Building a
    lookup on an integer column raises [ValueError] when the text is no
    integer, and so does [int(timeframe)]; [timedelta] and the subtraction
    raise [OverflowError] out of their ranges. *)
Definition _build_filters (s : Store) (now : Z) (queryset : list joined)
    (request : Request.t) : Py.result (list joined) :=
  let! queryset :=
    match Request.author_id request with
    | Some author_id =>
        let! author_id := get_prep_value author_id in
        Py.Ok (List.filter (fun r => Content.author_id (fst r) =? author_id) queryset)
    | None => Py.Ok queryset
    end in
  let queryset :=
    match Request.author_username request with
    | Some author_username =>
        if nonempty author_username
        then List.filter (fun r => String.eqb (Author.username (snd r)) author_username)
                         queryset
        else queryset
    | None => queryset
    end in
  let! queryset :=
    match Request.timeframe request with
    | Some timeframe =>
        let! days := Request.int timeframe in
        let! delta := timedelta days in
        let! since := datetime_sub now delta in
        Py.Ok (List.filter (fun r => since <=? Content.timestamp (fst r)) queryset)
    | None => Py.Ok queryset
    end in
  let! queryset :=
    match Request.tag_id request with
    | Some tag_id =>
        let! tag_id := get_prep_value tag_id in
        Py.Ok (filter_tag_id s tag_id queryset)
    | None => Py.Ok queryset
    end in
  let queryset :=
    match Request.title request with
    | Some title =>
        if nonempty title
        then List.filter (fun r => icontains (Content.title (fst r)) title) queryset
        else queryset
    | None => queryset
    end in
  Py.Ok queryset.


(** One entry of [serialized.data] after the extra keys are set. *)
Record Enriched : Type := {
  content : Content.row;
  author : Author.row;
  engagement_rate : Py.number;
  total_engagement : Z;
  tag_names : list string
}.

(** [ContentTag.objects.filter(content_id=cid).values_list("tag__name", flat=True)] *)
Definition content_tag_names (s : Store) (cid : Z) : list string :=
  flat_map
    (fun ct => map Tag.name
                 (List.filter (fun t => Tag.id t =? ContentTag.tag_id ct) (tags s)))
    (List.filter (fun ct => ContentTag.content_id ct =? cid) (contenttags s)).

(** The body of the loop, for one serialized entry. *)
Definition insert_data_point (s : Store) (serialized_data : joined) : Py.result Enriched :=
  let c := fst serialized_data in
  let view_count := Content.view_count c in
  let total_engagement :=
    Content.like_count c + Content.comment_count c + Content.share_count c in
  let! engagement_rate :=
    (if view_count >? 0 then Py.truediv total_engagement view_count
     else Py.Ok (Py.Int 0)) in
  Py.Ok {| content := c;
           author := snd serialized_data;
           engagement_rate := engagement_rate;
           total_engagement := total_engagement;
           tag_names := content_tag_names s (Content.id c) |}.

Fixpoint _insert_additional_data_point (s : Store) (data : list joined)
    : Py.result (list Enriched) :=
  match data with
  | [] => Py.Ok []
  | serialized_data :: rest =>
      let! e := insert_data_point s serialized_data in
      let! es := _insert_additional_data_point s rest in
      Py.Ok (e :: es)
  end.

(** [get]: filter, paginate, enrich.  Iterating the [None] of a disabled
    pagination is a [TypeError]. *)
Definition get (s : Store) (now : Z) (request : Request.t) : Py.result (list Enriched) :=
  let queryset := select_related_author s in
  let! queryset := _build_filters s now queryset request in
  let! paginated_content := CustomPagination.paginate_queryset queryset request in
  match paginated_content with
  | None => Py.Raise Py.TypeError
  | Some content_data => _insert_additional_data_point s content_data
  end.

(** *** Ingestion *)

Section Ingestion.

(** [contents/models.py] is not among the sources: the follower count of a
    row created without one is the column default, whatever it is. *)
Variable default_followers : Z.

(** [Author.objects.create(...)] *)
Definition create_author (s : Store) (author : Payload.author) : Store :=
  {| authors := authors s ++
       [ {| Author.id := next_author s;
            Author.username := Payload.unique_name author;
            Author.name := Payload.full_name author;
            Author.unique_id := Payload.unique_external_id author;
            Author.url := Payload.author_url author;
            Author.title := Payload.author_title author;
            Author.big_metadata := Payload.author_big_metadata author;
            Author.secret_value := Payload.author_secret_value author;
            Author.followers := default_followers |} ];
     contents := contents s;
     tags := tags s;
     contenttags := contenttags s;
     next_author := next_author s + 1;
     next_content := next_content s;
     next_tag := next_tag s;
     next_contenttag := next_contenttag s |}.

Definition _get_or_create_author (s : Store) (author : Payload.author)
    : Py.result (Store * Author.row) :=
  let by_unique_id :=
    fun a => String.eqb (Author.unique_id a) (Payload.unique_external_id author) in
  match objects_get by_unique_id (authors s) with
  | Py.Ok author_object => Py.Ok (s, author_object)
  | Py.Raise Py.DoesNotExist =>
      let s := create_author s author in
      let! author_object := objects_get by_unique_id (authors s) in
      Py.Ok (s, author_object)
  | Py.Raise e => Py.Raise e
  end.

(** [Content.objects.create(...)], stamped with [timezone.now()]. *)
Definition create_content (s : Store) (now : Z) (content : Payload.t)
    (author_object : Author.row) : Store :=
  {| authors := authors s;
     contents := contents s ++
       [ {| Content.id := next_content s;
            Content.author_id := Author.id author_object;
            Content.unique_id := Payload.unq_external_id content;
            Content.url := Payload.url content;
            Content.title := Payload.title content;
            Content.like_count := Payload.likes (Payload.stats_of content);
            Content.comment_count := Payload.comments (Payload.stats_of content);
            Content.view_count := Payload.views (Payload.stats_of content);
            Content.share_count := Payload.shares (Payload.stats_of content);
            Content.thumbnail_url := Payload.thumbnail_url content;
            Content.timestamp := now;
            Content.big_metadata := Payload.big_metadata content;
            Content.secret_value := Payload.secret_value content |} ];
     tags := tags s;
     contenttags := contenttags s;
     next_author := next_author s;
     next_content := next_content s + 1;
     next_tag := next_tag s;
     next_contenttag := next_contenttag s |}.

Definition _get_or_create_content (s : Store) (now : Z) (content : Payload.t)
    (author_object : Author.row) : Py.result (Store * Content.row) :=
  let by_unique_id :=
    fun c => String.eqb (Content.unique_id c) (Payload.unq_external_id content) in
  match objects_get by_unique_id (contents s) with
  | Py.Ok content_object => Py.Ok (s, content_object)
  | Py.Raise Py.DoesNotExist =>
      let s := create_content s now content author_object in
      let! content_object := objects_get by_unique_id (contents s) in
      Py.Ok (s, content_object)
  | Py.Raise e => Py.Raise e
  end.

(** [Tag.objects.create(name=tag)] *)
Definition create_tag (s : Store) (tag : string) : Store :=
  {| authors := authors s;
     contents := contents s;
     tags := tags s ++ [ {| Tag.id := next_tag s; Tag.name := tag |} ];
     contenttags := contenttags s;
     next_author := next_author s;
     next_content := next_content s;
     next_tag := next_tag s + 1;
     next_contenttag := next_contenttag s |}.

(** [ContentTag.objects.create(tag=tag_object, content=content_object)] *)
Definition create_contenttag (s : Store) (tag_object : Tag.row)
    (content_object : Content.row) : Store :=
  {| authors := authors s;
     contents := contents s;
     tags := tags s;
     contenttags := contenttags s ++
       [ {| ContentTag.id := next_contenttag s;
            ContentTag.tag_id := Tag.id tag_object;
            ContentTag.content_id := Content.id content_object |} ];
     next_author := next_author s;
     next_content := next_content s;
     next_tag := next_tag s;
     next_contenttag := next_contenttag s + 1 |}.

(** The body of the loop of [_update_tags_mapping], for one tag name. *)
Definition update_tag_mapping (s : Store) (tag : string) (content_object : Content.row)
    : Py.result Store :=
  let by_name := fun t => String.eqb (Tag.name t) tag in
  let! (s, tag_object) :=
    match objects_get by_name (tags s) with
    | Py.Ok tag_object => Py.Ok (s, tag_object)
    | Py.Raise Py.DoesNotExist =>
        let s := create_tag s tag in
        let! tag_object := objects_get by_name (tags s) in
        Py.Ok (s, tag_object)
    | Py.Raise e => Py.Raise e
    end in
  let by_pair :=
    fun ct => (ContentTag.tag_id ct =? Tag.id tag_object)
              && (ContentTag.content_id ct =? Content.id content_object) in
  match objects_get by_pair (contenttags s) with
  | Py.Ok _ => Py.Ok s
  | Py.Raise Py.DoesNotExist => Py.Ok (create_contenttag s tag_object content_object)
  | Py.Raise e => Py.Raise e
  end.

Fixpoint _update_tags_mapping (s : Store) (tags : list string)
    (content_object : Content.row) : Py.result Store :=
  match tags with
  | [] => Py.Ok s
  | tag :: rest =>
      let! s := update_tag_mapping s tag content_object in
      _update_tags_mapping s rest content_object
  end.

(** [post]: the store after the request and the envelope it answers with,
    the content and [content_object.author]. *)
Definition post (s : Store) (now : Z) (data : Payload.t) : Py.result (Store * joined) :=
  let author := Payload.author_of data in
  let! (s, author_object) := _get_or_create_author s author in
  let content := data in
  let! (s, content_object) := _get_or_create_content s now content author_object in
  let hashtags := Payload.hashtags data in
  let! s := _update_tags_mapping s hashtags content_object in
  let! content_author :=
    objects_get (fun a => Author.id a =? Content.author_id content_object) (authors s) in
  Py.Ok (s, (content_object, content_author)).

End Ingestion.

End ContentAPIView.

(** ** [ContentStatsAPIView] *)

Module ContentStatsAPIView.

(** [Sum(field)] of an aggregate: SQL's [SUM] is NULL over no rows. *)
Definition Sum (field : joined -> Z) (queryset : list joined) : option Z :=
  match queryset with
  | [] => None
  | _ :: _ => Some (fold_right (fun r acc => field r + acc) 0 queryset)
  end.

(** [Count("id")] *)
Definition Count (queryset : list joined) : Z := Z.of_nat (length queryset).

(** The response dictionary. *)
Record Data : Type := {
  total_likes : option Z;
  total_shares : option Z;
  total_views : option Z;
  total_comments : option Z;
  total_followers : option Z;
  total_contents : Z;
  total_engagement : option Z;
  total_engagement_rate : Py.number
}.

(** The rows the aggregate runs over: only [tag] is read from the request. *)
Definition filtered (s : Store) (request : Request.t) : list joined :=
  match Request.tag request with
  | Some tag =>
      if nonempty tag then filter_tag_name s tag (select_related_author s)
      else select_related_author s
  | None => select_related_author s
  end.

Definition get (s : Store) (request : Request.t) : Py.result Data :=
  let queryset := filtered s request in
  let total_likes := Sum (fun r => Content.like_count (fst r)) queryset in
  let total_shares := Sum (fun r => Content.share_count (fst r)) queryset in
  let total_views := Sum (fun r => Content.view_count (fst r)) queryset in
  let total_comments := Sum (fun r => Content.comment_count (fst r)) queryset in
  let total_followers := Sum (fun r => Author.followers (snd r)) queryset in
  let total_contents := Count queryset in
  let! likes_shares := Py.add total_likes total_shares in
  let! total_engagement := Py.add likes_shares total_comments in
  let! total_engagement_rate :=
    match total_views with
    | Some views =>
        if views =? 0 then Py.Ok (Py.Int 0)
        else
          match total_engagement with
          | Some engagement => Py.truediv engagement views
          | None => Py.Raise Py.TypeError
          end
    | None => Py.Ok (Py.Int 0)
    end in
  Py.Ok {| total_likes := total_likes;
           total_shares := total_shares;
           total_views := total_views;
           total_comments := total_comments;
           total_followers := total_followers;
           total_contents := total_contents;
           total_engagement := total_engagement;
           total_engagement_rate := total_engagement_rate |}.

End ContentStatsAPIView.

(** ** The cache

    [django.core.cache.cache]: a key holds a value until its expiry; a
    missing or expired key reads as [None]. *)

Module Cache.

Record entry : Type := {
  value : Py.json;
  expires : Z
}.

Definition get (cache : gmap string entry) (now : Z) (key : string) : Py.json :=
  match cache !! key with
  | Some e => if now <? expires e then value e else Py.JNull
  | None => Py.JNull
  end.

Definition set (cache : gmap string entry) (now : Z) (key : string) (v : Py.json)
    (timeout : Z) : gmap string entry :=
  <[ key := {| value := v; expires := now + timeout |} ]> cache.

(** The key holds an entry that has not expired. *)
Definition holds (cache : gmap string entry) (now : Z) (key : string) : bool :=
  match cache !! key with
  | Some e => now <? expires e
  | None => false
  end.

End Cache.

(** ** [contents/tasks.py] *)

Module Tasks.

(** The JSON body posted to the comment service. *)
Record Body : Type := {
  content_id : Z;
  title : string;
  url : string;
  author_username : string
}.

(** What [requests.post] comes back with: an exception, or a response with
    its status code and its body decoded as JSON, if it decodes. *)
Inductive reply : Type :=
| ConnectionError
| Response (status_code : Z) (json : option Py.json).

(** The comment service: its answer may depend on the calls made so far. *)
Definition collaborator : Type := list Body -> Body -> reply.

(** The cache and the log of calls made to the service, oldest first. *)
Record state : Type := {
  cache : gmap string Cache.entry;
  calls : list Body
}.

(** How a run of the loop ends: the list is used up, the [return] is taken,
    or an exception escapes. *)
Inductive ending : Type :=
| Exhausted
| Returned
| Crashed (e : Py.exn).

(** [f"comment-{content.id}"] *)
Definition key (id : Z) : string := "comment-" +:+ pretty id.

Definition timeout : Z := 60 * 60 * 24.

(** The [body] built for one content. *)
Definition body_of (content : joined) : Body :=
  {| content_id := Content.id (fst content);
     title := Content.title (fst content);
     url := Content.url (fst content);
     author_username := Author.username (snd content) |}.

(** The times the cache reads, in seconds.  Every [cache.get] and every
    [cache.set] reads the time at its own moment: [at_set log] is the time
    [cache.set] reads when it stores the answer to the last call of the
    log, [at_get log] the time [cache.get] reads when it looks up the next
    content.  [requests.post] blocks until the service has answered, so the
    time read after a call may be any time later than the one read before
    it. *)
Record clock : Type := {
  at_get : list Body -> Z;
  at_set : list Body -> Z
}.

(** Time does not run backwards: after a call the answer is stored, then
    the next content is looked up, then the next call is made. *)
Definition steady (time : clock) : Prop :=
  forall log body,
    at_set time log <= at_get time log
    /\ at_get time log <= at_set time (log ++ [body])%list.

(** A clock that stands still: nothing takes time. *)
Definition at_time (now : Z) : clock :=
  {| at_get := fun _ => now; at_set := fun _ => now |}.

(** A clock on which every call takes [latency] seconds and the rest takes
    no time; it reads [start] when the log holds [made] calls. *)
Definition paced (start : Z) (made : nat) (latency : Z) : clock :=
  let read := fun log : list Body =>
                start + latency * (Z.of_nat (length log) - Z.of_nat made) in
  {| at_get := read; at_set := read |}.

(** The loop of [generate_comment].  [cache.get] reads the time before the
    call and [cache.set] after it, so the 24 hours of an entry run from the
    moment the answer is stored. *)
Fixpoint loop (api : collaborator) (time : clock) (contents : list joined) (st : state)
    : state * ending :=
  match contents with
  | [] => (st, Exhausted)
  | content :: rest =>
      let value :=
        Cache.get (cache st) (at_get time (calls st))
          (key (Content.id (fst content))) in
      if Py.truthy value then (st, Returned)
      else
        let body := body_of content in
        let st' := {| cache := cache st; calls := calls st ++ [body] |} in
        match api (calls st) body with
        | ConnectionError => (st', Crashed Py.RequestException)
        | Response status_code json =>
            if status_code =? 200 then
              match json with
              | None => (st', Crashed Py.JSONDecodeError)
              | Some v =>
                  loop api time rest
                    {| cache := Cache.set (cache st') (at_set time (calls st'))
                                  (key (Content.id (fst content))) v timeout;
                       calls := calls st' |}
              end
            else loop api time rest st'
        end
  end.

(** Insertion into a list sorted by descending timestamp. *)
Fixpoint insert_desc (r : joined) (l : list joined) : list joined :=
  match l with
  | [] => [r]
  | x :: xs =>
      if Content.timestamp (fst x) <=? Content.timestamp (fst r)
      then r :: x :: xs
      else x :: insert_desc r xs
  end.

(** [order_by("-timestamp")] *)
Definition order_by_timestamp_desc (queryset : list joined) : list joined :=
  fold_right insert_desc [] queryset.

(** [generate_comment], one tick. *)
Definition generate_comment (api : collaborator) (s : Store) (time : clock) (st : state)
    : state * ending :=
  let contents := firstn 10 (order_by_timestamp_desc (select_related_author s)) in
  loop api time contents st.

(** The calls in a log that were made for one content id. *)
Definition calls_for (id : Z) (log : list Body) : list Body :=
  List.filter (fun b => content_id b =? id) log.

(** The cache answers [cache.get] for the content with a true value. *)
Definition live (c : gmap string Cache.entry) (now : Z) (id : Z) : bool :=
  Py.truthy (Cache.get c now (key id)).

(** The service answers every call for the content with status 200 and a
    body that decodes to a true value. *)
Definition answers_truthy (api : collaborator) (id : Z) : Prop :=
  forall log body,
    content_id body = id ->
    exists v, api log body = Response 200 (Some v) /\ Py.truthy v = true.

(** A service that always answers with one reply. *)
Definition always (r : reply) : collaborator := fun _ _ => r.

End Tasks.

(** ** Scenarios

    Concrete payloads and stores used to run the code. *)

Module Scenario.

Definition bob : Payload.author :=
  {| Payload.unique_external_id := "a1";
     Payload.unique_name := "bob";
     Payload.full_name := "Bob";
     Payload.author_url := "u";
     Payload.author_title := "t";
     Payload.author_big_metadata := Py.JDict [];
     Payload.author_secret_value := "s" |}.

Definition eve : Payload.author :=
  {| Payload.unique_external_id := "a2";
     Payload.unique_name := "eve";
     Payload.full_name := "Eve";
     Payload.author_url := "u2";
     Payload.author_title := "t2";
     Payload.author_big_metadata := Py.JDict [];
     Payload.author_secret_value := "s2" |}.

Definition payload (who : Payload.author) (ext title : string)
    (likes comments views shares : Z) (hashtags : list string) : Payload.t :=
  {| Payload.author_of := who;
     Payload.unq_external_id := ext;
     Payload.url := "cu";
     Payload.title := title;
     Payload.stats_of :=
       {| Payload.likes := likes; Payload.comments := comments;
          Payload.views := views; Payload.shares := shares |};
     Payload.thumbnail_url := "th";
     Payload.big_metadata := Py.JDict [];
     Payload.secret_value := "s";
     Payload.hashtags := hashtags |}.

(** The payload of the worked example, and the same content with newer
    counters. *)
Definition hello : Payload.t := payload bob "c1" "Hello" 10 5 100 5 ["x"; "x"; "y"].
Definition hello_again : Payload.t := payload bob "c1" "Hello" 20 7 300 9 ["x"; "x"; "y"].

(** A second content, by another author. *)
Definition world : Payload.t := payload eve "c2" "World" 1 2 0 3 ["y"].

(** The store after a request, unchanged if the request raises; new
    authors start with no followers. *)
Definition after (s : Store) (now : Z) (data : Payload.t) : Store :=
  match ContentAPIView.post 0 s now data with
  | Py.Ok (s', _) => s'
  | Py.Raise _ => s
  end.

Definition one_content : Store := after empty_store 100 hello.
Definition two_contents : Store := after one_content 200 world.

Definition by_author (id : Z) : Request.t :=
  {| Request.author_id := Some (Request.Integer id); Request.author_username := None;
     Request.timeframe := None; Request.tag_id := None; Request.title := None;
     Request.tag := None; Request.page := Request.PageAbsent;
     Request.items_per_page := None |}.

Definition page_request (page : Request.page_param) (items_per_page : option Z)
    : Request.t :=
  {| Request.author_id := None; Request.author_username := None;
     Request.timeframe := None; Request.tag_id := None; Request.title := None;
     Request.tag := None; Request.page := page;
     Request.items_per_page := items_per_page |}.

End Scenario.

(** ** Properties as the specification words them *)

(** What a page entry must carry for the content it was built from. *)
Definition enriched_as_specified (serialized_data : joined)
    (e : ContentAPIView.Enriched) : Prop :=
  let c := fst serialized_data in
  let total := Content.like_count c + Content.comment_count c + Content.share_count c in
  ContentAPIView.content e = c
  /\ ContentAPIView.total_engagement e = total
  /\ (Content.view_count c > 0 ->
      ContentAPIView.engagement_rate e
      = Py.Float (inject_Z total / inject_Z (Content.view_count c)))
  /\ (Content.view_count c = 0 -> ContentAPIView.engagement_rate e = Py.Int 0).

(** Requests that carry one filter parameter only. *)
Module Only.

Definition author_id (v : Request.number_text) : Request.t :=
  {| Request.author_id := Some v; Request.author_username := None;
     Request.timeframe := None; Request.tag_id := None; Request.title := None;
     Request.tag := None; Request.page := Request.PageAbsent;
     Request.items_per_page := None |}.

Definition author_username (v : string) : Request.t :=
  {| Request.author_id := None; Request.author_username := Some v;
     Request.timeframe := None; Request.tag_id := None; Request.title := None;
     Request.tag := None; Request.page := Request.PageAbsent;
     Request.items_per_page := None |}.

Definition timeframe (v : Request.number_text) : Request.t :=
  {| Request.author_id := None; Request.author_username := None;
     Request.timeframe := Some v; Request.tag_id := None; Request.title := None;
     Request.tag := None; Request.page := Request.PageAbsent;
     Request.items_per_page := None |}.

Definition tag_id (v : Request.number_text) : Request.t :=
  {| Request.author_id := None; Request.author_username := None;
     Request.timeframe := None; Request.tag_id := Some v; Request.title := None;
     Request.tag := None; Request.page := Request.PageAbsent;
     Request.items_per_page := None |}.

Definition title (v : string) : Request.t :=
  {| Request.author_id := None; Request.author_username := None;
     Request.timeframe := None; Request.tag_id := None; Request.title := Some v;
     Request.tag := None; Request.page := Request.PageAbsent;
     Request.items_per_page := None |}.

End Only.

(** The filtered rows of a request, as a set: the rows the builder
    returns, when it returns. *)
Definition result_set (s : Store) (now : Z) (queryset : list joined)
    (request : Request.t) (r : joined) : Prop :=
  exists rows,
    ContentAPIView._build_filters s now queryset request = Py.Ok rows /\ In r rows.

(** [r] lies in the result set of every filter the request supplies, each
    taken alone. *)
Definition in_each_supplied (s : Store) (now : Z) (queryset : list joined)
    (request : Request.t) (r : joined) : Prop :=
  (forall v, Request.author_id request = Some v ->
             result_set s now queryset (Only.author_id v) r)
  /\ (forall v, Request.author_username request = Some v ->
                result_set s now queryset (Only.author_username v) r)
  /\ (forall v, Request.timeframe request = Some v ->
                result_set s now queryset (Only.timeframe v) r)
  /\ (forall v, Request.tag_id request = Some v ->
                result_set s now queryset (Only.tag_id v) r)
  /\ (forall v, Request.title request = Some v ->
                result_set s now queryset (Only.title v) r).

(** The builder answers the request: the numeric parameters it is given
    are integers, and the timeframe is one [timedelta] takes and leads from
    [now] to a [datetime]. *)
Definition is_integer (text : option Request.number_text) : bool :=
  match text with
  | Some Request.NotInteger => false
  | _ => true
  end.

Definition timeframe_in_range (now : Z) (text : option Request.number_text) : bool :=
  match text with
  | Some (Request.Integer n) =>
      (-999999999 <=? n) && (n <=? 999999999)
      && (0 <=? now - timedelta_days n) && (now - timedelta_days n <=? datetime_max)
  | _ => true
  end.

Definition answerable (now : Z) (request : Request.t) : bool :=
  is_integer (Request.author_id request)
  && is_integer (Request.timeframe request)
  && timeframe_in_range now (Request.timeframe request)
  && is_integer (Request.tag_id request).

(** What each parameter asks of a row, on the columns of the row: the
    author id and the username are equal to the parameter, the timestamp
    is no earlier than [now] less the days of the timeframe, a link row
    attaches the tag to the content, the title contains the parameter
    whatever the case of its letters. *)
Definition admits (s : Store) (now : Z) (request : Request.t) (r : joined) : Prop :=
  match Request.author_id request with
  | Some (Request.Integer v) => Content.author_id (fst r) = v
  | _ => True
  end
  /\ match Request.author_username request with
     | Some v => nonempty v = true -> Author.username (snd r) = v
     | None => True
     end
  /\ match Request.timeframe request with
     | Some (Request.Integer v) => now - timedelta_days v <= Content.timestamp (fst r)
     | _ => True
     end
  /\ match Request.tag_id request with
     | Some (Request.Integer v) =>
         exists ct, In ct (contenttags s)
                    /\ ContentTag.content_id ct = Content.id (fst r)
                    /\ ContentTag.tag_id ct = v
     | _ => True
     end
  /\ match Request.title request with
     | Some v => nonempty v = true -> icontains (Content.title (fst r)) v = true
     | None => True
     end.

(** ** Integrity of the store

    What the database keeps true of its tables: primary keys are distinct
    and below the sequence, a content's author exists, and the columns the
    ingestion looks rows up by hold no value twice. *)

Definition link_pair (ct : ContentTag.row) : Z * Z :=
  (ContentTag.tag_id ct, ContentTag.content_id ct).

Definition wf (s : Store) : Prop :=
  NoDup (Author.id <$> authors s)
  /\ Forall (fun a => Author.id a < next_author s) (authors s)
  /\ NoDup (Tag.id <$> tags s)
  /\ Forall (fun t => Tag.id t < next_tag s) (tags s)
  /\ Forall (fun c => Exists (fun a => Author.id a = Content.author_id c) (authors s))
       (contents s)
  /\ NoDup (Author.unique_id <$> authors s)
  /\ NoDup (Content.unique_id <$> contents s)
  /\ NoDup (Tag.name <$> tags s)
  /\ NoDup (link_pair <$> contenttags s).

#[global] Instance wf_dec (s : Store) : Decision (wf s).
Proof. unfold wf. apply _. Defined.

(** The rows of a table that carry a given value in a column. *)
Definition rows_with {A K : Type} `{EqDecision K} (column : A -> K) (k : K)
    (table : list A) : list A :=
  List.filter (fun r => bool_decide (column r = k)) table.

(** The link rows that attach a tag named [name] to the content [cid]. *)
Definition links_by_name (s : Store) (cid : Z) (name : string) : list ContentTag.row :=
  List.filter
    (fun ct => (ContentTag.content_id ct =? cid)
               && existsb (fun t => (Tag.id t =? ContentTag.tag_id ct)
                                    && String.eqb (Tag.name t) name) (tags s))
    (contenttags s).

(** The store links a tag named [name] to the content [cid]. *)
Definition linked (s : Store) (name : string) (cid : Z) : Prop :=
  exists t ct,
    t ∈ tags s /\ Tag.name t = name
    /\ ct ∈ contenttags s /\ link_pair ct = (Tag.id t, cid).

(** The later store has every tag and link row of the earlier one. *)
Definition grows (s s' : Store) : Prop :=
  (forall t, t ∈ tags s -> t ∈ tags s')
  /\ (forall ct, ct ∈ contenttags s -> ct ∈ contenttags s').

(** ** Ticks of the gate on the scenario stores *)

Module Ticks.

Definition fresh : Tasks.state :=
  {| Tasks.cache := ∅; Tasks.calls := [] |}.

(** Services: one answers 200 with the empty object, one with a comment,
    one with status 500. *)
Definition empty_object : Tasks.collaborator :=
  Tasks.always (Tasks.Response 200 (Some (Py.JDict []))).

Definition comment : Tasks.collaborator :=
  Tasks.always (Tasks.Response 200 (Some (Py.JDict [("comment", Py.JStr "nice")]))).

Definition failing : Tasks.collaborator :=
  Tasks.always (Tasks.Response 500 None).

(** The state a tick leaves when it runs at time [now] and its calls take
    no time. *)
Definition after (api : Tasks.collaborator) (s : Store) (now : Z) (st : Tasks.state)
    : Tasks.state :=
  fst (Tasks.generate_comment api s (Tasks.at_time now) st).

(** A cache that holds, until time 1000, an entry for content 2: a comment,
    or the empty object. *)
Definition warm : Tasks.state :=
  {| Tasks.cache :=
       {[ Tasks.key 2 := {| Cache.value := Py.JStr "nice"; Cache.expires := 1000 |} ]};
     Tasks.calls := [] |}.

Definition stale : Tasks.state :=
  {| Tasks.cache :=
       {[ Tasks.key 2 := {| Cache.value := Py.JDict []; Cache.expires := 1000 |} ]};
     Tasks.calls := [] |}.

End Ticks.

(** ** A week of ingestion

    One content ingested eight days before the query, one an hour before
    it; times are in microseconds from the start of year 1. *)

Module Week.

Definition day : Z := 86400000000.
Definition hour : Z := 3600000000.

(** Midnight of 4 November 2026, day 739924 of the calendar. *)
Definition query_time : Z := 739923 * day.

Definition store : Store :=
  Scenario.after (Scenario.after empty_store (query_time - 8 * day) Scenario.hello)
    (query_time - hour) Scenario.world.

End Week.

(** ** Further notions used to state what the code does *)

(** The content of the row has a link to tag [t]. *)
Definition has_link (s : Store) (t : Z) (r : joined) : bool :=
  existsb
    (fun ct => (ContentTag.content_id ct =? Content.id (fst r))
               && (ContentTag.tag_id ct =? t))
    (contenttags s).

(** The content of the row has a link to a tag named [name]. *)
Definition tagged (s : Store) (name : string) (r : joined) : bool :=
  match links_by_name s (Content.id (fst r)) name with
  | [] => false
  | _ :: _ => true
  end.

(** The request with another [timeframe], and with another [page]. *)
Definition with_timeframe (request : Request.t) (n : Request.number_text) : Request.t :=
  {| Request.author_id := Request.author_id request;
     Request.author_username := Request.author_username request;
     Request.timeframe := Some n;
     Request.tag_id := Request.tag_id request;
     Request.title := Request.title request;
     Request.tag := Request.tag request;
     Request.page := Request.page request;
     Request.items_per_page := Request.items_per_page request |}.

(** The content and author an entry of the response was built from. *)
Definition envelope (e : ContentAPIView.Enriched) : joined :=
  (ContentAPIView.content e, ContentAPIView.author e).

(** Every table of the later store starts with the table of the earlier. *)
Definition extends (s s' : Store) : Prop :=
  (exists more, authors s' = (authors s ++ more)%list)
  /\ (exists more, contents s' = (contents s ++ more)%list)
  /\ (exists more, tags s' = (tags s ++ more)%list)
  /\ (exists more, contenttags s' = (contenttags s ++ more)%list).

(** A run of requests to [post], each at its own time, on the store the
    one before left. *)
Fixpoint post_all (default_followers : Z) (s : Store) (requests : list (Z * Payload.t))
    : Py.result Store :=
  match requests with
  | [] => Py.Ok s
  | (now, data) :: rest =>
      let! (s', _) := ContentAPIView.post default_followers s now data in
      post_all default_followers s' rest
  end.

(** Newest first: no row is older than a row after it. *)
Definition newest_first (l : list joined) : Prop :=
  StronglySorted
    (fun x y => Content.timestamp (fst y) <= Content.timestamp (fst x)) l.

(** The service never answers with status 200. *)
Definition never_ok (api : Tasks.collaborator) : Prop :=
  forall log body,
    match api log body with
    | Tasks.Response code _ => code <> 200
    | Tasks.ConnectionError => True
    end.

(** ** [contentapi/celery.py] *)

Module Celery.

(** An entry of the beat schedule: the task and its period in seconds. *)
Record entry : Type := {
  task : string;
  schedule : Z
}.

(** A dict display [{k1: v1, k2: v2, ...}]: the items are stored left to
    right, a repeated key keeps the last value. *)
Definition dict_display {V : Type} (items : list (string * V)) : gmap string V :=
  fold_left (fun d item => <[ fst item := snd item ]> d) items ∅.

Definition beat_schedule : gmap string entry :=
  dict_display
    [ ("task1", {| task := "contents.tasks.pull_and_store_content"; schedule := 5 |});
      ("task2", {| task := "contents.tasks.generate_comment"; schedule := 5 |});
      ("task2", {| task := "contents.tasks.post_comment"; schedule := 30 |}) ].

End Celery.

(** Requests of the scenarios that name a tag, and a page. *)
Module Asking.

Definition tag (name : string) : Request.t :=
  {| Request.author_id := None; Request.author_username := None;
     Request.timeframe := None; Request.tag_id := None; Request.title := None;
     Request.tag := Some name; Request.page := Request.PageAbsent;
     Request.items_per_page := None |}.

End Asking.

(** Further payloads and rows of the scenarios. *)
Module More.

(** Content [c1] again, sent under another author. *)
Definition hello_by_eve : Payload.t :=
  Scenario.payload Scenario.eve "c1" "Hello" 20 7 300 9 ["z"].

(** The row the first scenario stores for [c1]. *)
Definition hello_row : Content.row :=
  {| Content.id := 1; Content.author_id := 1; Content.unique_id := "c1";
     Content.url := "cu"; Content.title := "Hello";
     Content.like_count := 10; Content.comment_count := 5;
     Content.view_count := 100; Content.share_count := 5;
     Content.thumbnail_url := "th"; Content.timestamp := 100;
     Content.big_metadata := Py.JDict []; Content.secret_value := "s" |}.

(** The author row the first scenario stores for [a1]. *)
Definition bob_row : Author.row :=
  {| Author.id := 1; Author.username := "bob"; Author.name := "Bob";
     Author.unique_id := "a1"; Author.url := "u"; Author.title := "t";
     Author.big_metadata := Py.JDict []; Author.secret_value := "s";
     Author.followers := 0 |}.

(** Bob under a new name. *)
Definition bob_renamed : Payload.author :=
  {| Payload.unique_external_id := "a1";
     Payload.unique_name := "robert";
     Payload.full_name := "Robert";
     Payload.author_url := "u9";
     Payload.author_title := "t9";
     Payload.author_big_metadata := Py.JDict [];
     Payload.author_secret_value := "s9" |}.

Definition third_by_renamed_bob : Payload.t :=
  Scenario.payload bob_renamed "c3" "Third" 1 1 1 1 [].

End More.

(** ** A slow comment service

    Two ticks of the gate on a service that answers with a comment: every
    call of the first tick, begun at time 0, takes ten seconds; a third
    content arrives, and every call of the second tick, begun at time
    86399, takes twenty. *)

Module Slow.

Definition three_contents : Store :=
  Scenario.after Scenario.two_contents 250 More.third_by_renamed_bob.

Definition first_tick : Tasks.state :=
  fst (Tasks.generate_comment Ticks.comment Scenario.two_contents
         (Tasks.paced 0 0 10) Ticks.fresh).

Definition second_tick : Tasks.state :=
  fst (Tasks.generate_comment Ticks.comment three_contents
         (Tasks.paced 86399 2 20) first_tick).

End Slow.

(** The filters of a request, read as one test on a row. *)
Definition accepts (s : Store) (now : Z) (request : Request.t) (r : joined) : bool :=
  match Request.author_id request with
  | Some (Request.Integer v) => Content.author_id (fst r) =? v
  | _ => true
  end
  && match Request.author_username request with
     | Some v => if nonempty v then String.eqb (Author.username (snd r)) v else true
     | None => true
     end
  && match Request.timeframe request with
     | Some (Request.Integer v) => now - timedelta_days v <=? Content.timestamp (fst r)
     | _ => true
     end
  && match Request.tag_id request with
     | Some (Request.Integer v) => has_link s v r
     | _ => true
     end
  && match Request.title request with
     | Some v => if nonempty v then icontains (Content.title (fst r)) v else true
     | None => true
     end.

(** * Theorems *)

(** ** Metrics of a page *)

Lemma insert_data_point_ok (s : Store) (d : joined) :
  exists e, ContentAPIView.insert_data_point s d = Py.Ok e /\ enriched_as_specified d e.
Proof.
  unfold ContentAPIView.insert_data_point, enriched_as_specified.
  destruct (Content.view_count (fst d) >? 0) eqn:Hv.
  - unfold Py.truediv.
    assert (Hnz : (Content.view_count (fst d) =? 0) = false) by lia.
    rewrite Hnz. cbn. eexists. split; [reflexivity|]. cbn.
    repeat split; try reflexivity. lia.
  - cbn. eexists. split; [reflexivity|]. cbn.
    repeat split; try reflexivity. lia.
Qed.

(** Enriching a page never raises, and each entry is as specified. *)
Lemma enrich_page_ok (s : Store) (data : list joined) :
  exists out,
    ContentAPIView._insert_additional_data_point s data = Py.Ok out
    /\ Forall2 enriched_as_specified data out.
Proof.
  induction data as [|d rest IH]; cbn [ContentAPIView._insert_additional_data_point].
  - exists []. split; [reflexivity | constructor].
  - destruct (insert_data_point_ok s d) as (e & He & Hspec).
    destruct IH as (es & Hes & Hall).
    rewrite He, Hes. cbn. exists (e :: es). split; [reflexivity|].
    constructor; assumption.
Qed.


(** The listing answers with entries that carry the metrics of their own
    content. *)
Lemma get_page_metrics (s : Store) (now : Z) (request : Request.t)
    (page : list ContentAPIView.Enriched) :
  ContentAPIView.get s now request = Py.Ok page ->
  Forall (fun e => enriched_as_specified
                     (ContentAPIView.content e, ContentAPIView.author e) e) page.
Proof.
  unfold ContentAPIView.get.
  destruct (ContentAPIView._build_filters s now _ request) as [rows|]; cbn;
    try discriminate.
  destruct (CustomPagination.paginate_queryset rows request) as [[data|]|]; cbn;
    try discriminate.
  destruct (enrich_page_ok s data) as (out & -> & Hall).
  intros [= <-]. clear -Hall.
  induction Hall as [|d e ds es (Hc & Ht & Hpos & Hzero) _ IH]; constructor; [|exact IH].
  unfold enriched_as_specified in *. cbn [fst]. rewrite Hc.
  repeat split; assumption.
Qed.

(** The worked example: the payload with tags [x, x, y] and counters
    10/5/100/5 is listed with two tags, engagement 20 and rate 20/100. *)
Example worked_example :
  exists e,
    ContentAPIView.get Scenario.one_content 300 Request.no_params = Py.Ok [e]
    /\ ContentAPIView.tag_names e = ["x"; "y"]
    /\ ContentAPIView.total_engagement e = 20
    /\ ContentAPIView.engagement_rate e = Py.Float (20 # 100).
Proof. eexists. split; [vm_compute; reflexivity|]. repeat split. Qed.

(** ** Filters *)

Lemma filter_tag_id_In (s : Store) (t : Z) (qs : list joined) (r : joined) :
  In r (filter_tag_id s t qs) <->
  In r qs /\ exists ct, In ct (contenttags s)
                        /\ ContentTag.content_id ct = Content.id (fst r)
                        /\ ContentTag.tag_id ct = t.
Proof.
  unfold filter_tag_id. rewrite in_flat_map. split.
  - intros (x & Hx & Hin). apply in_map_iff in Hin as (ct & <- & Hct).
    apply filter_In in Hct as (Hct & Hb).
    apply andb_true_iff in Hb as (H1 & H2).
    split; [assumption|]. exists ct. repeat split; [assumption | lia | lia].
  - intros (Hr & ct & Hct & H1 & H2). exists r. split; [assumption|].
    apply in_map_iff. exists ct. split; [reflexivity|].
    apply filter_In. split; [assumption|]. apply andb_true_iff. lia.
Qed.

(** The timeframe stage of an integer in range computes the instant
    [now] less that many days. *)
Lemma timeframe_since (now n : Z) :
  timeframe_in_range now (Some (Request.Integer n)) = true ->
  timedelta n = Py.Ok (timedelta_days n)
  /\ datetime_sub now (timedelta_days n) = Py.Ok (now - timedelta_days n).
Proof.
  unfold timeframe_in_range, timedelta, datetime_sub. intros H.
  apply andb_true_iff in H as [H H4]. apply andb_true_iff in H as [H H3].
  rewrite H. cbv zeta. rewrite H3, H4. split; reflexivity.
Qed.

(** Out of range, the timeframe stage raises [OverflowError]. *)
Lemma timeframe_overflow {B : Type} (now n : Z) (k : Z -> Py.result B) :
  timeframe_in_range now (Some (Request.Integer n)) = false ->
  (let! delta := timedelta n in let! since := datetime_sub now delta in k since)
  = Py.Raise Py.OverflowError.
Proof.
  unfold timeframe_in_range, timedelta, datetime_sub. intros H.
  destruct ((-999999999 <=? n) && (n <=? 999999999)); [|reflexivity].
  cbn [Py.bind]. cbv zeta. cbn [andb] in H.
  destruct (0 <=? now - timedelta_days n); [|reflexivity].
  cbn [andb] in *. rewrite H. reflexivity.
Qed.

(** A request the builder answers yields the rows of the queryset that
    meet what each of its parameters asks. *)
Lemma build_filters_answered (s : Store) (now : Z) (qs : list joined)
    (request : Request.t) :
  answerable now request = true ->
  exists rows,
    ContentAPIView._build_filters s now qs request = Py.Ok rows
    /\ forall r, In r rows <-> In r qs /\ admits s now request r.
Proof.
  unfold answerable, ContentAPIView._build_filters, admits.
  destruct request as [aid uname tf tid ttl tg pg ipp];
    cbn [Request.author_id Request.author_username Request.timeframe
         Request.tag_id Request.title].
  intros H.
  apply andb_true_iff in H as [H Htid]. apply andb_true_iff in H as [H Hrange].
  apply andb_true_iff in H as [Haid Htf].
  destruct aid as [[aid|]|]; try discriminate Haid;
    destruct tf as [[tf|]|]; try discriminate Htf;
    destruct tid as [[tid|]|]; try discriminate Htid;
    cbn [get_prep_value Request.int Py.bind];
    try (destruct (timeframe_since now tf Hrange) as [-> Hsub];
         cbn [Py.bind]; rewrite Hsub; cbn [Py.bind]);
    (eexists; split; [reflexivity|]); intros r;
    (destruct ttl as [ttl|]; [destruct (nonempty ttl) eqn:Ettl|]);
    rewrite ?filter_In, ?filter_tag_id_In, ?filter_In;
    (destruct uname as [uname|]; [destruct (nonempty uname) eqn:Eun|]);
    rewrite ?filter_In, ?String.eqb_eq, ?Z.eqb_eq, ?Z.leb_le;
    intuition (try congruence; try lia).
Qed.

(** A request the builder does not answer raises [ValueError] or
    [OverflowError]. *)
Lemma build_filters_refused (s : Store) (now : Z) (qs : list joined)
    (request : Request.t) :
  answerable now request = false ->
  exists e,
    ContentAPIView._build_filters s now qs request = Py.Raise e
    /\ (e = Py.ValueError \/ e = Py.OverflowError).
Proof.
  unfold answerable, ContentAPIView._build_filters.
  destruct request as [aid uname tf tid ttl tg pg ipp];
    cbn [Request.author_id Request.author_username Request.timeframe
         Request.tag_id Request.title].
  intros H.
  destruct aid as [[aid|]|]; cbn [get_prep_value Request.int Py.bind];
    try (eexists; split; [reflexivity | left; reflexivity]);
    (destruct tf as [[tf|]|]; cbn [get_prep_value Request.int Py.bind];
     try (eexists; split; [reflexivity | left; reflexivity]));
    cbn [is_integer andb] in H;
    try (destruct (timeframe_in_range now (Some (Request.Integer tf))) eqn:Hrange;
         [destruct (timeframe_since now tf Hrange) as [-> Hsub];
          cbn [Py.bind]; rewrite Hsub; cbn [Py.bind]
         |rewrite (timeframe_overflow now tf _ Hrange);
          eexists; split; [reflexivity | right; reflexivity]]);
    cbn [timeframe_in_range andb] in H;
    (destruct tid as [[tid|]|]; cbn [get_prep_value Request.int Py.bind];
     try discriminate H;
     eexists; split; [reflexivity | left; reflexivity]).
Qed.

(** The builder returns rows exactly for the requests it answers. *)
Lemma build_filters_Ok_answerable (s : Store) (now : Z) (qs : list joined)
    (request : Request.t) (rows : list joined) :
  ContentAPIView._build_filters s now qs request = Py.Ok rows ->
  answerable now request = true.
Proof.
  intros H. destruct (answerable now request) eqn:E; [reflexivity|].
  destruct (build_filters_refused s now qs request E) as (e & He & _). congruence.
Qed.

(** Membership in the result set of a request. *)
Lemma result_set_iff (s : Store) (now : Z) (qs : list joined)
    (request : Request.t) (r : joined) :
  result_set s now qs request r <->
  answerable now request = true /\ In r qs /\ admits s now request r.
Proof.
  unfold result_set. split.
  - intros (rows & Hrows & Hr).
    pose proof (build_filters_Ok_answerable _ _ _ _ _ Hrows) as Ha.
    destruct (build_filters_answered s now qs request Ha) as (rows' & Hrows' & Hin).
    split; [assumption|]. apply Hin. congruence.
  - intros (Ha & Hr).
    destruct (build_filters_answered s now qs request Ha) as (rows & Hrows & Hin).
    exists rows. split; [assumption|]. apply Hin. assumption.
Qed.

(** The rows every supplied filter selects on its own are the rows that
    meet what each parameter asks, when the request is answered. *)
Lemma in_each_supplied_iff (s : Store) (now : Z) (qs : list joined)
    (request : Request.t) (r : joined) :
  In r qs ->
  (in_each_supplied s now qs request r <->
   answerable now request = true /\ admits s now request r).
Proof.
  intros Hin. unfold in_each_supplied.
  setoid_rewrite result_set_iff.
  unfold answerable, admits.
  destruct request as [aid uname tf tid ttl tg pg ipp];
    cbn [Request.author_id Request.author_username Request.timeframe
         Request.tag_id Request.title].
  split.
  - intros (Ha & Hu & Ht & Hg & Hl).
    assert (Haid : is_integer aid = true /\
                   match aid with
                   | Some (Request.Integer v) => Content.author_id (fst r) = v
                   | _ => True
                   end).
    { destruct aid as [v|]; [|split; [reflexivity | exact I]].
      destruct (Ha v eq_refl) as (A & _ & B & _). cbn in A, B.
      destruct v; [split; [reflexivity | exact B] | discriminate A]. }
    assert (Htf : (is_integer tf = true /\ timeframe_in_range now tf = true) /\
                  match tf with
                  | Some (Request.Integer v) =>
                      now - timedelta_days v <= Content.timestamp (fst r)
                  | _ => True
                  end).
    { destruct tf as [v|]; [|split; [split; reflexivity | exact I]].
      destruct (Ht v eq_refl) as (A & _ & _ & _ & B & _).
      cbn [Only.timeframe Request.author_id Request.timeframe Request.tag_id
           is_integer andb] in A, B.
      rewrite andb_true_r in A. apply andb_true_iff in A as [A1 A2].
      destruct v; [|discriminate A1]. split; [split; assumption | exact B]. }
    assert (Htid : is_integer tid = true /\
                   match tid with
                   | Some (Request.Integer v) =>
                       exists ct, In ct (contenttags s)
                                  /\ ContentTag.content_id ct = Content.id (fst r)
                                  /\ ContentTag.tag_id ct = v
                   | _ => True
                   end).
    { destruct tid as [v|]; [|split; [reflexivity | exact I]].
      destruct (Hg v eq_refl) as (A & _ & _ & _ & _ & B & _). cbn in A, B.
      destruct v; [split; [reflexivity | exact B] | discriminate A]. }
    destruct Haid as [-> Haid]. destruct Htf as [[-> ->] Htf].
    destruct Htid as [-> Htid].
    split; [reflexivity|].
    split; [exact Haid|]. split; [|split; [exact Htf|split; [exact Htid|]]].
    + destruct uname as [v|]; [|exact I].
      destruct (Hu v eq_refl) as (_ & _ & _ & B & _). exact B.
    + destruct ttl as [v|]; [|exact I].
      destruct (Hl v eq_refl) as (_ & _ & _ & _ & _ & _ & B). exact B.
  - intros (Hans & Ha & Hu & Ht & Hg & Hl).
    apply andb_true_iff in Hans as [Hans Htid].
    apply andb_true_iff in Hans as [Hans Hrange].
    apply andb_true_iff in Hans as [Haid Htf].
    split; [|split; [|split; [|split]]]; intros v ->;
      cbn [Only.author_id Only.author_username Only.timeframe Only.tag_id Only.title
           Request.author_id Request.author_username Request.timeframe
           Request.tag_id Request.title];
      (split; [|split; [exact Hin|]]).
    + rewrite Haid. reflexivity.
    + repeat split; try exact I. assumption.
    + reflexivity.
    + repeat split; try exact I. assumption.
    + rewrite Htf, Hrange. reflexivity.
    + repeat split; try exact I. assumption.
    + rewrite Htid. reflexivity.
    + repeat split; try exact I. assumption.
    + reflexivity.
    + repeat split; try exact I. assumption.
Qed.

(** C8: a request whose numeric parameters are integers, with a timeframe
    in range, selects the rows of the queryset that meet what each supplied
    parameter asks of the columns; the rows a request selects are those
    every supplied filter selects on its own; a request without parameters
    selects the whole queryset; [timeframe=n] in range selects the rows
    stamped at or after [now] minus [n] days; any other request raises
    [ValueError] or [OverflowError] and selects nothing. *)
Theorem C8_filters_conjunction (s : Store) (now : Z) (qs : list joined) :
  (forall request,
      answerable now request = true ->
      exists rows,
        ContentAPIView._build_filters s now qs request = Py.Ok rows
        /\ forall r, In r rows <-> In r qs /\ admits s now request r)
  /\ (forall request r,
         result_set s now qs request r <->
         In r qs /\ in_each_supplied s now qs request r)
  /\ ContentAPIView._build_filters s now qs Request.no_params = Py.Ok qs
  /\ (forall n r,
         answerable now (Only.timeframe (Request.Integer n)) = true ->
         (result_set s now qs (Only.timeframe (Request.Integer n)) r <->
          In r qs /\ now - timedelta_days n <= Content.timestamp (fst r)))
  /\ (forall request,
         answerable now request = false ->
         exists e,
           ContentAPIView._build_filters s now qs request = Py.Raise e
           /\ (e = Py.ValueError \/ e = Py.OverflowError)).
Proof.
  split; [|split; [|split; [|split]]].
  - intros request. apply build_filters_answered.
  - intros request r. rewrite result_set_iff. split.
    + intros (Ha & Hin & Hadm). split; [assumption|].
      apply in_each_supplied_iff; [assumption|]. split; assumption.
    + intros (Hin & Heach).
      apply in_each_supplied_iff in Heach as [Ha Hadm]; [|assumption].
      split; [assumption | split; assumption].
  - reflexivity.
  - intros n r Ha. rewrite result_set_iff. unfold admits.
    cbn [Only.timeframe Request.author_id Request.author_username Request.timeframe
         Request.tag_id Request.title].
    intuition.
  - intros request. apply build_filters_refused.
Qed.

(** C8 at a request: on the store of the week, seven days before the query
    is an instant of the calendar, and [timeframe=7] selects the rows
    stamped from then on. *)
Lemma C8_filters_conjunction_witness :
  answerable Week.query_time (Only.timeframe (Request.Integer 7)) = true
  /\ exists rows,
       ContentAPIView._build_filters Week.store Week.query_time
         (select_related_author Week.store) (Only.timeframe (Request.Integer 7))
       = Py.Ok rows
       /\ forall r,
            In r rows <->
            In r (select_related_author Week.store)
            /\ admits Week.store Week.query_time (Only.timeframe (Request.Integer 7)) r.
Proof.
  split; [reflexivity|].
  apply (proj1 (C8_filters_conjunction Week.store Week.query_time
                  (select_related_author Week.store))).
  reflexivity.
Defined.

(** Where C8 fails as the specification words it: on 4 November 2026 a
    timeframe of a million days reaches back before year 1; every content
    is stamped after that instant, and the builder raises [OverflowError]
    instead of selecting them all. *)
Lemma C8_timeframe_beyond_calendar :
  let rows := select_related_author Week.store in
  rows <> []
  /\ Forall (fun r => Week.query_time - timedelta_days 1000000
                      <= Content.timestamp (fst r)) rows
  /\ ContentAPIView._build_filters Week.store Week.query_time rows
       (Only.timeframe (Request.Integer 1000000))
     = Py.Raise Py.OverflowError
  /\ ContentAPIView.get Week.store Week.query_time
       (Only.timeframe (Request.Integer 1000000))
     = Py.Raise Py.OverflowError
  /\ ContentAPIView._build_filters Week.store Week.query_time rows
       (Only.timeframe Request.NotInteger)
     = Py.Raise Py.ValueError.
Proof.
  split; [vm_compute; discriminate|].
  split; [|split; [|split]]; try (vm_compute; reflexivity).
  vm_compute. repeat constructor; discriminate.
Qed.

(** [timeframe=7] leaves out the content ingested eight days ago and keeps
    the one ingested an hour ago. *)
Example timeframe_week :
  map (fun r => (Content.unique_id (fst r), Week.query_time - Content.timestamp (fst r)))
    (select_related_author Week.store)
  = [("c1", 8 * Week.day); ("c2", Week.hour)]
  /\ (let! rows := ContentAPIView._build_filters Week.store Week.query_time
                      (select_related_author Week.store)
                      (Only.timeframe (Request.Integer 7)) in
      Py.Ok (map (fun r => Content.unique_id (fst r)) rows))
     = Py.Ok ["c2"].
Proof. split; vm_compute; reflexivity. Qed.

(** ** Re-ingestion *)

(** When the content is already stored, [_get_or_create_content] hands the
    stored row back and writes nothing. *)
Lemma get_or_create_content_existing (s : Store) (now : Z) (content : Payload.t)
    (author_object : Author.row) (c : Content.row) :
  objects_get
    (fun c => String.eqb (Content.unique_id c) (Payload.unq_external_id content))
    (contents s) = Py.Ok c ->
  ContentAPIView._get_or_create_content s now content author_object = Py.Ok (s, c).
Proof.
  intros H. unfold ContentAPIView._get_or_create_content. rewrite H. reflexivity.
Qed.

(** C1: ingesting content [c1] again with counters 20/7/300/9 leaves one
    row for [c1], and that row still carries the counters 10/5/100/5 of the
    first ingestion. *)
Theorem C1_reingestion_keeps_first_counters :
  exists s2 c a,
    ContentAPIView.post 0 Scenario.one_content 200 Scenario.hello_again
    = Py.Ok (s2, (c, a))
    /\ contents s2 = [c]
    /\ Content.unique_id c = Payload.unq_external_id Scenario.hello_again
    /\ [Content.like_count c; Content.comment_count c;
        Content.view_count c; Content.share_count c] = [10; 5; 100; 5]
    /\ (let st := Payload.stats_of Scenario.hello_again in
        [Payload.likes st; Payload.comments st; Payload.views st; Payload.shares st])
       = [20; 7; 300; 9].
Proof.
  do 3 eexists. split; [vm_compute; reflexivity|].
  repeat split; reflexivity.
Qed.

(** ** Statistics *)

(** Sum of a field over the rows of a queryset. *)
Lemma Sum_nonempty (field : joined -> Z) (qs : list joined) :
  qs <> [] ->
  ContentStatsAPIView.Sum field qs = Some (fold_right (fun r acc => field r + acc) 0 qs).
Proof. destruct qs; [congruence | reflexivity]. Qed.

(** Over a set that is not empty the view answers with the sums of the
    per-row fields, their engagement and its rate. *)
Lemma stats_nonempty (s : Store) (request : Request.t) :
  let qs := ContentStatsAPIView.filtered s request in
  let sum := fun field => fold_right (fun r acc => field r + acc) 0 qs in
  let likes := sum (fun r => Content.like_count (fst r)) in
  let shares := sum (fun r => Content.share_count (fst r)) in
  let views := sum (fun r => Content.view_count (fst r)) in
  let comments := sum (fun r => Content.comment_count (fst r)) in
  qs <> [] ->
  exists rate,
    ContentStatsAPIView.get s request
    = Py.Ok {| ContentStatsAPIView.total_likes := Some likes;
               ContentStatsAPIView.total_shares := Some shares;
               ContentStatsAPIView.total_views := Some views;
               ContentStatsAPIView.total_comments := Some comments;
               ContentStatsAPIView.total_followers :=
                 Some (sum (fun r => Author.followers (snd r)));
               ContentStatsAPIView.total_contents := Z.of_nat (length qs);
               ContentStatsAPIView.total_engagement := Some (likes + shares + comments);
               ContentStatsAPIView.total_engagement_rate := rate |}
    /\ (views <> 0 ->
        rate = Py.Float (inject_Z (likes + shares + comments) / inject_Z views))
    /\ (views = 0 -> rate = Py.Int 0).
Proof.
  intros qs sum likes shares views comments Hne.
  unfold ContentStatsAPIView.get. fold qs.
  rewrite !Sum_nonempty by assumption. cbn [Py.add Py.bind].
  fold (sum (fun r => Content.view_count (fst r))). fold views.
  destruct (views =? 0) eqn:Hv.
  - eexists. split; [reflexivity|]. split; [lia | reflexivity].
  - unfold Py.truediv. rewrite Hv. eexists. split; [reflexivity|].
    split; [reflexivity | lia].
Qed.

(** Over the empty set every [Sum] is [None] and adding them raises. *)
Lemma stats_empty (s : Store) (request : Request.t) :
  ContentStatsAPIView.filtered s request = [] ->
  ContentStatsAPIView.get s request = Py.Raise Py.TypeError.
Proof. intros H. unfold ContentStatsAPIView.get. rewrite H. reflexivity. Qed.

(** C3: on a store without content the statistics view raises [TypeError]
    instead of answering with zero totals. *)
Theorem C3_stats_of_empty_set_raise :
  ContentStatsAPIView.filtered empty_store Request.no_params = []
  /\ ContentStatsAPIView.get empty_store Request.no_params = Py.Raise Py.TypeError.
Proof. split; reflexivity. Qed.

(** The statistics view reads [tag] and nothing else. *)
Lemma stats_read_tag_only (s : Store) (r1 r2 : Request.t) :
  Request.tag r1 = Request.tag r2 ->
  ContentStatsAPIView.get s r1 = ContentStatsAPIView.get s r2.
Proof.
  intros H. unfold ContentStatsAPIView.get, ContentStatsAPIView.filtered.
  rewrite H. reflexivity.
Qed.

(** C7: with two contents by two authors, [author_id=1] narrows the listing
    to one row, while the statistics are those of the unfiltered set and
    count two contents. *)
Theorem C7_stats_ignore_author_id :
  (exists rows,
      ContentAPIView._build_filters Scenario.two_contents 300
        (select_related_author Scenario.two_contents) (Scenario.by_author 1)
      = Py.Ok rows
      /\ length rows = 1%nat)
  /\ ContentStatsAPIView.get Scenario.two_contents (Scenario.by_author 1)
     = ContentStatsAPIView.get Scenario.two_contents Request.no_params
  /\ exists data,
       ContentStatsAPIView.get Scenario.two_contents (Scenario.by_author 1) = Py.Ok data
       /\ ContentStatsAPIView.total_contents data = 2.
Proof.
  split; [eexists; split; [vm_compute; reflexivity | reflexivity]|].
  split; [reflexivity|].
  eexists. split; [vm_compute; reflexivity | reflexivity].
Qed.

(** ** Ordering of the listing *)

(** C9: after ingesting at times 100 and 200 the listing yields the content
    stamped 100 before the one stamped 200, the order of the table; the
    explicit ordering of the comment task puts 200 first. *)
Theorem C9_listing_in_table_order :
  (exists page,
      ContentAPIView.get Scenario.two_contents 300 Request.no_params = Py.Ok page
      /\ map (fun e => Content.timestamp (ContentAPIView.content e)) page = [100; 200])
  /\ map (fun r => Content.timestamp (fst r))
       (Tasks.order_by_timestamp_desc (select_related_author Scenario.two_contents))
     = [200; 100].
Proof.
  split; [|reflexivity].
  eexists. split; [vm_compute; reflexivity | reflexivity].
Qed.

(** ** Pagination *)

Lemma get_page_size_cases (request : Request.t) :
  CustomPagination.get_page_size request
  = match Request.items_per_page request with
    | Some n => if n <=? 0 then 10 else Z.min n 100
    | None => 10
    end.
Proof.
  unfold CustomPagination.get_page_size, CustomPagination._positive_int,
    CustomPagination.max_page_size, CustomPagination.page_size.
  destruct (Request.items_per_page request) as [n|]; [|reflexivity].
  destruct (n <=? 0) eqn:Hn.
  - destruct (n <? 0) eqn:Hneg; cbn; [reflexivity|].
    assert (Hz : (n =? 0) = true) by lia. rewrite Hz. reflexivity.
  - assert (Hneg : (n <? 0) = false) by lia.
    assert (Hz : (n =? 0) = false) by lia.
    rewrite Hneg, Hz. reflexivity.
Qed.

Lemma get_page_size_range (request : Request.t) :
  1 <= CustomPagination.get_page_size request <= 100.
Proof.
  rewrite get_page_size_cases.
  destruct (Request.items_per_page request) as [n|]; [|lia].
  destruct (n <=? 0) eqn:Hn; lia.
Qed.

(** [num_pages] is the ceiling of [max 1 count / per_page]. *)
Lemma num_pages_ceil (count per_page : Z) :
  0 < per_page ->
  (CustomPagination.num_pages count per_page - 1) * per_page < Z.max 1 count
  /\ Z.max 1 count <= CustomPagination.num_pages count per_page * per_page.
Proof.
  intros Hp. unfold CustomPagination.num_pages.
  pose proof (Z.div_mod (- Z.max 1 count) per_page ltac:(lia)) as Hdm.
  pose proof (Z.mod_pos_bound (- Z.max 1 count) per_page Hp) as Hb.
  nia.
Qed.

(** A page is [per_page] rows from offset [(number - 1) * per_page] on. *)
Lemma page_slice {A : Type} (l : list A) (per_page number : Z) :
  0 <= per_page -> 1 <= number ->
  CustomPagination.page l per_page number
  = firstn (Z.to_nat per_page) (skipn (Z.to_nat ((number - 1) * per_page)) l).
Proof.
  intros Hp Hn. unfold CustomPagination.page, CustomPagination.slice.
  set (bottom := (number - 1) * per_page).
  assert (Hb : 0 <= bottom) by (unfold bottom; nia).
  destruct (bottom + per_page >=? Z.of_nat (length l)) eqn:Htop.
  - rewrite !take_ge; [reflexivity| |]; rewrite length_drop; lia.
  - f_equal. lia.
Qed.

(** C6 as the code has it: the page size is the requested one clamped to
    100, and the default 10 when the request gives none or one that is not
    positive; the number of pages is the ceiling of [max 1 T / size]; a page
    number from 1 to the number of pages yields the rows
    [(page-1)*size, page*size) of the queryset; any other page is
    [NotFound]. *)
Theorem C6_pagination {A : Type} (queryset : list A) (request : Request.t) :
  let size := CustomPagination.get_page_size request in
  let T := Z.of_nat (length queryset) in
  let pages := CustomPagination.num_pages T size in
  size = match Request.items_per_page request with
         | Some n => if n <=? 0 then 10 else Z.min n 100
         | None => 10
         end
  /\ ((pages - 1) * size < Z.max 1 T /\ Z.max 1 T <= pages * size)
  /\ CustomPagination.paginate_queryset queryset request
     = match Request.page request with
       | Request.PageText => Py.Raise Py.NotFound
       | p =>
           let number := match p with
                         | Request.PageNumber n => n
                         | Request.PageLast => pages
                         | _ => 1
                         end in
           if (1 <=? number) && (number <=? pages)
           then Py.Ok (Some (firstn (Z.to_nat size)
                               (skipn (Z.to_nat ((number - 1) * size)) queryset)))
           else Py.Raise Py.NotFound
       end.
Proof.
  intros size T pages.
  pose proof (get_page_size_range request) as Hsize. fold size in Hsize.
  split; [apply get_page_size_cases|].
  split; [apply num_pages_ceil; lia|].
  unfold CustomPagination.paginate_queryset. fold size T.
  assert (Hnz : (size =? 0) = false) by lia. rewrite Hnz.
  unfold CustomPagination.get_page_number. fold pages.
  assert (Hpage : forall number,
             (if number <? 1 then Py.Raise Py.NotFound
              else if number >? pages then Py.Raise Py.NotFound
              else Py.Ok (Some (CustomPagination.page queryset size number)))
             = (if (1 <=? number) && (number <=? pages)
                then Py.Ok (Some (firstn (Z.to_nat size)
                                    (skipn (Z.to_nat ((number - 1) * size)) queryset)))
                else Py.Raise Py.NotFound)).
  { intros number.
    destruct (number <? 1) eqn:H1.
    - assert (E : (1 <=? number) = false) by lia. rewrite E. reflexivity.
    - assert (E : (1 <=? number) = true) by lia. rewrite E. cbn [andb].
      destruct (number >? pages) eqn:H2.
      + assert (E2 : (number <=? pages) = false) by lia. rewrite E2. reflexivity.
      + assert (E2 : (number <=? pages) = true) by lia. rewrite E2.
        rewrite page_slice by lia. reflexivity. }
  destruct (Request.page request); cbn zeta; try apply Hpage; reflexivity.
Qed.

(** C6, as stated, fails: page 2 of a one-row listing is [NotFound], not an
    empty page, and [items_per_page=0] is answered with the default page
    size instead of being rejected. *)
Lemma C6_beyond_last_page_not_found :
  ContentAPIView.get Scenario.one_content 300
    (Scenario.page_request (Request.PageNumber 2) None) = Py.Raise Py.NotFound
  /\ ContentAPIView.get Scenario.one_content 300
       (Scenario.page_request Request.PageAbsent (Some 0))
     = ContentAPIView.get Scenario.one_content 300
         (Scenario.page_request Request.PageAbsent (Some 10))
  /\ exists e,
       ContentAPIView.get Scenario.one_content 300
         (Scenario.page_request Request.PageAbsent (Some 0)) = Py.Ok [e].
Proof.
  split; [reflexivity|]. split; [reflexivity|].
  eexists. vm_compute. reflexivity.
Qed.

(** ** Ingestion keeps one row per key *)

Section Keyed.

Context {A K : Type} (key : A -> K).

Lemma filter_none (cond : A -> bool) (l : list A) :
  (forall x, x ∈ l -> cond x = false) -> List.filter cond l = [].
Proof.
  induction l as [|x l IH]; intros H; [reflexivity|]. cbn.
  rewrite (H x) by (apply elem_of_cons; auto).
  apply IH. intros y Hy. apply H. apply elem_of_cons. auto.
Qed.

Lemma NoDup_key_inj (l : list A) (x y : A) :
  NoDup (key <$> l) -> x ∈ l -> y ∈ l -> key x = key y -> x = y.
Proof.
  induction l as [|z l IH]; intros Hnd Hx Hy Hk.
  - by apply elem_of_nil in Hx.
  - rewrite fmap_cons in Hnd. apply NoDup_cons in Hnd as [Hz Hnd].
    apply elem_of_cons in Hx as [->|Hx]; apply elem_of_cons in Hy as [->|Hy].
    + reflexivity.
    + exfalso. apply Hz. rewrite Hk. by apply list_elem_of_fmap_2.
    + exfalso. apply Hz. rewrite <- Hk. by apply list_elem_of_fmap_2.
    + by apply IH.
Qed.

(** With distinct keys, the rows selected by a key are the one row that
    has it. *)
Lemma filter_keyed_one (cond : A -> bool) (k : K) (l : list A) (a : A) :
  (forall x, x ∈ l -> cond x = true <-> key x = k) ->
  NoDup (key <$> l) -> a ∈ l -> key a = k -> List.filter cond l = [a].
Proof.
  induction l as [|x l IH]; intros Hc Hnd Hin Hk.
  - by apply elem_of_nil in Hin.
  - pose proof Hnd as Hnd0.
    rewrite fmap_cons in Hnd. apply NoDup_cons in Hnd as [Hx Hnd].
    assert (Hc' : forall y, y ∈ l -> cond y = true <-> key y = k).
    { intros y Hy. apply Hc. apply elem_of_cons. auto. }
    cbn [List.filter]. apply elem_of_cons in Hin as [->|Hin].
    + assert (Hcx : cond x = true) by (apply Hc; [apply elem_of_cons; auto | done]).
      rewrite Hcx. f_equal. apply filter_none. intros y Hy.
      destruct (cond y) eqn:Ey; [|reflexivity]. exfalso. apply Hx.
      apply Hc' in Ey; [|assumption]. rewrite Hk, <- Ey.
      by apply list_elem_of_fmap_2.
    + destruct (cond x) eqn:Ex.
      * exfalso. apply Hx. apply Hc in Ex; [|apply elem_of_cons; auto].
        rewrite Ex, <- Hk. by apply list_elem_of_fmap_2.
      * by apply IH.
Qed.

(** A lookup by key either finds no row or exactly one. *)
Lemma filter_keyed_cases (cond : A -> bool) (k : K) (l : list A) :
  (forall x, cond x = true <-> key x = k) ->
  NoDup (key <$> l) ->
  ((k ∉ (key <$> l)) /\ List.filter cond l = [])
  \/ (exists a, a ∈ l /\ key a = k /\ List.filter cond l = [a]).
Proof.
  intros Hc Hnd. destruct (List.filter cond l) as [|a rest] eqn:Hf.
  - left. split; [|reflexivity]. intros Hin.
    apply list_elem_of_fmap in Hin as (x & -> & Hx).
    assert (Hin : In x (List.filter cond l)).
    { apply filter_In. split; [by apply list_elem_of_In|].
      apply (proj2 (Hc x)). reflexivity. }
    rewrite Hf in Hin. destruct Hin.
  - right. assert (Hin : In a (List.filter cond l)) by (rewrite Hf; left; done).
    apply filter_In in Hin as [Hin Hca]. apply list_elem_of_In in Hin.
    pose proof (proj1 (Hc a) Hca) as Hka.
    exists a. split; [assumption|]. split; [assumption|].
    rewrite <- Hf. apply (filter_keyed_one cond k); try assumption.
    intros x _. apply Hc.
Qed.

End Keyed.

Lemma objects_get_one {A : Type} (cond : A -> bool) (l : list A) (a : A) :
  List.filter cond l = [a] -> objects_get cond l = Py.Ok a.
Proof. intros H. unfold objects_get. rewrite H. reflexivity. Qed.

Lemma objects_get_none {A : Type} (cond : A -> bool) (l : list A) :
  List.filter cond l = [] -> objects_get cond l = Py.Raise Py.DoesNotExist.
Proof. intros H. unfold objects_get. rewrite H. reflexivity. Qed.

(** Appending a row with a key no row has yet. *)
Lemma NoDup_fmap_snoc {A K : Type} (key : A -> K) (l : list A) (a : A) :
  NoDup (key <$> l) -> key a ∉ (key <$> l) -> NoDup (key <$> (l ++ [a])%list).
Proof.
  intros Hnd Hnew. rewrite fmap_app. apply NoDup_app. split; [assumption|].
  split; [|apply NoDup_singleton].
  intros x Hx Hx'. cbn in Hx'. apply list_elem_of_singleton in Hx'. subst. auto.
Qed.

Lemma fresh_id_not_in {A : Type} (id : A -> Z) (l : list A) (next : Z) :
  Forall (fun a => id a < next) l -> next ∉ (id <$> l).
Proof.
  intros Hall Hin. apply list_elem_of_fmap in Hin as (x & Hx & Hin).
  rewrite Forall_forall in Hall. specialize (Hall x Hin). lia.
Qed.

Lemma Forall_lt_snoc {A : Type} (id : A -> Z) (l : list A) (a : A) (next : Z) :
  Forall (fun a => id a < next) l -> id a = next ->
  Forall (fun a => id a < next + 1) (l ++ [a])%list.
Proof.
  intros Hall Ha. apply Forall_app. split.
  - eapply Forall_impl; [exact Hall|]. cbn. intros. lia.
  - apply Forall_singleton. lia.
Qed.

(** *** Authors *)

Lemma wf_create_author (d : Z) (s : Store) (au : Payload.author) :
  wf s ->
  Payload.unique_external_id au ∉ (Author.unique_id <$> authors s) ->
  wf (ContentAPIView.create_author d s au).
Proof.
  intros (Hapk & Haseq & Htpk & Htseq & Hfk & Hau & Hcu & Htu & Hlu) Hnew.
  unfold wf, ContentAPIView.create_author; cbn.
  repeat split; try assumption.
  - apply NoDup_fmap_snoc; [assumption|]. cbn. by apply fresh_id_not_in.
  - by apply Forall_lt_snoc.
  - eapply Forall_impl; [exact Hfk|]. cbn. intros c Hc.
    apply Exists_app. by left.
  - by apply NoDup_fmap_snoc.
Qed.

Lemma get_or_create_author_present (d : Z) (s : Store) (au : Payload.author)
    (ao : Author.row) :
  wf s -> ao ∈ authors s ->
  Author.unique_id ao = Payload.unique_external_id au ->
  ContentAPIView._get_or_create_author d s au = Py.Ok (s, ao).
Proof.
  intros (Hapk & Haseq & Htpk & Htseq & Hfk & Hau & Hcu & Htu & Hlu) Hin Hk.
  unfold ContentAPIView._get_or_create_author.
  rewrite (objects_get_one _ _ ao); [reflexivity|].
  apply (filter_keyed_one Author.unique_id _ (Payload.unique_external_id au));
    try assumption.
  intros x _. apply String.eqb_eq.
Qed.

(** The author stage succeeds, keeps the store well formed, and touches the
    author table only. *)
Lemma get_or_create_author_spec (d : Z) (s : Store) (au : Payload.author) :
  wf s ->
  exists s' ao,
    ContentAPIView._get_or_create_author d s au = Py.Ok (s', ao)
    /\ wf s'
    /\ ao ∈ authors s'
    /\ Author.unique_id ao = Payload.unique_external_id au
    /\ contents s' = contents s
    /\ tags s' = tags s
    /\ contenttags s' = contenttags s.
Proof.
  intros Hwf. pose proof Hwf as (Hapk & Haseq & Htpk & Htseq & Hfk & Hau & Hcu & Htu & Hlu).
  destruct (filter_keyed_cases Author.unique_id
              (fun a => String.eqb (Author.unique_id a) (Payload.unique_external_id au))
              (Payload.unique_external_id au) (authors s))
    as [[Hnew Hf] | (ao & Hin & Hk & Hf)]; try assumption.
  - intros x. apply String.eqb_eq.
  - unfold ContentAPIView._get_or_create_author.
    rewrite (objects_get_none _ _ Hf).
    eexists _, _. split.
    + erewrite objects_get_one; [reflexivity|].
      cbn. rewrite List.filter_app, Hf. cbn. rewrite String.eqb_refl. reflexivity.
    + split; [by apply wf_create_author|]. cbn.
      split; [apply elem_of_app; right; apply list_elem_of_singleton; reflexivity|].
      repeat split; reflexivity.
  - exists s, ao. split; [by apply get_or_create_author_present|].
    repeat split; assumption.
Qed.

(** *** Contents *)

Lemma wf_create_content (s : Store) (now : Z) (content : Payload.t) (ao : Author.row) :
  wf s -> ao ∈ authors s ->
  Payload.unq_external_id content ∉ (Content.unique_id <$> contents s) ->
  wf (ContentAPIView.create_content s now content ao).
Proof.
  intros (Hapk & Haseq & Htpk & Htseq & Hfk & Hau & Hcu & Htu & Hlu) Hao Hnew.
  unfold wf, ContentAPIView.create_content; cbn.
  repeat split; try assumption.
  - apply Forall_app. split; [assumption|]. apply Forall_singleton. cbn.
    apply Exists_exists. exists ao. split; [assumption | reflexivity].
  - by apply NoDup_fmap_snoc.
Qed.

Lemma get_or_create_content_present (s : Store) (now : Z) (content : Payload.t)
    (ao : Author.row) (c : Content.row) :
  wf s -> c ∈ contents s ->
  Content.unique_id c = Payload.unq_external_id content ->
  ContentAPIView._get_or_create_content s now content ao = Py.Ok (s, c).
Proof.
  intros (Hapk & Haseq & Htpk & Htseq & Hfk & Hau & Hcu & Htu & Hlu) Hin Hk.
  apply get_or_create_content_existing. apply objects_get_one.
  apply (filter_keyed_one Content.unique_id _ (Payload.unq_external_id content));
    try assumption.
  intros x _. apply String.eqb_eq.
Qed.

Lemma get_or_create_content_spec (s : Store) (now : Z) (content : Payload.t)
    (ao : Author.row) :
  wf s -> ao ∈ authors s ->
  exists s' c,
    ContentAPIView._get_or_create_content s now content ao = Py.Ok (s', c)
    /\ wf s'
    /\ c ∈ contents s'
    /\ Content.unique_id c = Payload.unq_external_id content
    /\ authors s' = authors s
    /\ tags s' = tags s
    /\ contenttags s' = contenttags s.
Proof.
  intros Hwf Hao.
  pose proof Hwf as (Hapk & Haseq & Htpk & Htseq & Hfk & Hau & Hcu & Htu & Hlu).
  destruct (filter_keyed_cases Content.unique_id
              (fun c => String.eqb (Content.unique_id c) (Payload.unq_external_id content))
              (Payload.unq_external_id content) (contents s))
    as [[Hnew Hf] | (c & Hin & Hk & Hf)]; try assumption.
  - intros x. apply String.eqb_eq.
  - unfold ContentAPIView._get_or_create_content.
    rewrite (objects_get_none _ _ Hf).
    eexists _, _. split.
    + erewrite objects_get_one; [reflexivity|].
      cbn. rewrite List.filter_app, Hf. cbn. rewrite String.eqb_refl. reflexivity.
    + split; [by apply wf_create_content|]. cbn.
      split; [apply elem_of_app; right; apply list_elem_of_singleton; reflexivity|].
      repeat split; reflexivity.
  - exists s, c. split; [by apply get_or_create_content_present|].
    repeat split; assumption.
Qed.

(** *** Tags and links *)

Lemma by_pair_spec (t : Tag.row) (c : Content.row) (ct : ContentTag.row) :
  (ContentTag.tag_id ct =? Tag.id t) && (ContentTag.content_id ct =? Content.id c) = true
  <-> link_pair ct = (Tag.id t, Content.id c).
Proof.
  unfold link_pair. rewrite andb_true_iff, !Z.eqb_eq. split.
  - intros [-> ->]. reflexivity.
  - intros [= -> ->]. auto.
Qed.

Lemma linked_grows (s s' : Store) (name : string) (cid : Z) :
  grows s s' -> linked s name cid -> linked s' name cid.
Proof.
  intros [Ht Hct] (t & ct & H1 & H2 & H3 & H4).
  exists t, ct. repeat split; auto.
Qed.

Lemma grows_refl (s : Store) : grows s s.
Proof. split; auto. Qed.

Lemma grows_trans (s1 s2 s3 : Store) : grows s1 s2 -> grows s2 s3 -> grows s1 s3.
Proof. intros [A1 B1] [A2 B2]. split; auto. Qed.

Lemma wf_create_tag (s : Store) (tag : string) :
  wf s -> tag ∉ (Tag.name <$> tags s) -> wf (ContentAPIView.create_tag s tag).
Proof.
  intros (Hapk & Haseq & Htpk & Htseq & Hfk & Hau & Hcu & Htu & Hlu) Hnew.
  unfold wf, ContentAPIView.create_tag; cbn.
  repeat split; try assumption.
  - apply NoDup_fmap_snoc; [assumption|]. cbn. by apply fresh_id_not_in.
  - by apply Forall_lt_snoc.
  - by apply NoDup_fmap_snoc.
Qed.

Lemma wf_create_contenttag (s : Store) (t : Tag.row) (c : Content.row) :
  wf s -> (Tag.id t, Content.id c) ∉ (link_pair <$> contenttags s) ->
  wf (ContentAPIView.create_contenttag s t c).
Proof.
  intros (Hapk & Haseq & Htpk & Htseq & Hfk & Hau & Hcu & Htu & Hlu) Hnew.
  unfold wf, ContentAPIView.create_contenttag; cbn.
  repeat split; try assumption.
  by apply NoDup_fmap_snoc.
Qed.

(** Looking the tag up by name, creating it on a miss. *)
Lemma get_or_create_tag_spec (s : Store) (tag : string) :
  wf s ->
  exists s' t,
    match objects_get (fun t => String.eqb (Tag.name t) tag) (tags s) with
    | Py.Ok tag_object => Py.Ok (s, tag_object)
    | Py.Raise Py.DoesNotExist =>
        let! tag_object :=
          objects_get (fun t => String.eqb (Tag.name t) tag)
            (tags (ContentAPIView.create_tag s tag)) in
        Py.Ok (ContentAPIView.create_tag s tag, tag_object)
    | Py.Raise e => Py.Raise e
    end = Py.Ok (s', t)
    /\ wf s' /\ t ∈ tags s' /\ Tag.name t = tag
    /\ authors s' = authors s /\ contents s' = contents s
    /\ contenttags s' = contenttags s
    /\ grows s s'.
Proof.
  intros Hwf.
  pose proof Hwf as (Hapk & Haseq & Htpk & Htseq & Hfk & Hau & Hcu & Htu & Hlu).
  destruct (filter_keyed_cases Tag.name
              (fun t => String.eqb (Tag.name t) tag) tag (tags s))
    as [[Hnew Hf] | (t & Hin & Hk & Hf)]; try assumption.
  - intros x. apply String.eqb_eq.
  - rewrite (objects_get_none _ _ Hf).
    eexists _, _. split.
    + erewrite objects_get_one; [reflexivity|].
      cbn. rewrite List.filter_app, Hf. cbn. rewrite String.eqb_refl. reflexivity.
    + split; [by apply wf_create_tag|]. cbn.
      split; [apply elem_of_app; right; apply list_elem_of_singleton; reflexivity|].
      repeat split; try reflexivity; cbn; auto.
      intros x Hx. apply elem_of_app. by left.
  - rewrite (objects_get_one _ _ _ Hf).
    exists s, t. repeat split; auto.
Qed.

(** Looking the link up by its pair, creating it on a miss. *)
Lemma get_or_create_link_spec (s : Store) (t : Tag.row) (c : Content.row) :
  wf s ->
  exists s',
    match objects_get
            (fun ct => (ContentTag.tag_id ct =? Tag.id t)
                       && (ContentTag.content_id ct =? Content.id c))
            (contenttags s) with
    | Py.Ok _ => Py.Ok s
    | Py.Raise Py.DoesNotExist => Py.Ok (ContentAPIView.create_contenttag s t c)
    | Py.Raise e => Py.Raise e
    end = Py.Ok s'
    /\ wf s'
    /\ authors s' = authors s /\ contents s' = contents s /\ tags s' = tags s
    /\ (exists ct, ct ∈ contenttags s' /\ link_pair ct = (Tag.id t, Content.id c))
    /\ grows s s'.
Proof.
  intros Hwf.
  pose proof Hwf as (Hapk & Haseq & Htpk & Htseq & Hfk & Hau & Hcu & Htu & Hlu).
  destruct (filter_keyed_cases link_pair
              (fun ct => (ContentTag.tag_id ct =? Tag.id t)
                         && (ContentTag.content_id ct =? Content.id c))
              (Tag.id t, Content.id c) (contenttags s))
    as [[Hnew Hf] | (ct & Hin & Hk & Hf)]; try assumption.
  - intros x. apply by_pair_spec.
  - rewrite (objects_get_none _ _ Hf).
    eexists. split; [reflexivity|].
    split; [by apply wf_create_contenttag|]. cbn.
    repeat split; auto.
    + eexists. split; [apply elem_of_app; right; apply list_elem_of_singleton; reflexivity|].
      reflexivity.
    + intros x Hx. apply elem_of_app. by left.
  - rewrite (objects_get_one _ _ _ Hf).
    exists s. repeat split; auto. exists ct. auto.
Qed.

Lemma update_tag_mapping_spec (s : Store) (tag : string) (c : Content.row) :
  wf s ->
  exists s',
    ContentAPIView.update_tag_mapping s tag c = Py.Ok s'
    /\ wf s'
    /\ authors s' = authors s /\ contents s' = contents s
    /\ linked s' tag (Content.id c)
    /\ grows s s'.
Proof.
  intros Hwf. unfold ContentAPIView.update_tag_mapping. cbv zeta.
  destruct (get_or_create_tag_spec s tag Hwf)
    as (s1 & t & -> & Hwf1 & Ht & Hname & Ha1 & Hc1 & Hl1 & Hg1).
  cbn [Py.bind].
  destruct (get_or_create_link_spec s1 t c Hwf1)
    as (s2 & -> & Hwf2 & Ha2 & Hc2 & Ht2 & (ct & Hct & Hpair) & Hg2).
  exists s2. split; [reflexivity|]. split; [assumption|].
  split; [congruence|]. split; [congruence|].
  split; [|by eapply grows_trans].
  exists t, ct. rewrite Ht2. auto.
Qed.

Lemma update_tag_mapping_present (s : Store) (tag : string) (c : Content.row) :
  wf s -> linked s tag (Content.id c) ->
  ContentAPIView.update_tag_mapping s tag c = Py.Ok s.
Proof.
  intros (Hapk & Haseq & Htpk & Htseq & Hfk & Hau & Hcu & Htu & Hlu)
         (t & ct & Ht & Hname & Hct & Hpair).
  unfold ContentAPIView.update_tag_mapping. cbv zeta.
  rewrite (objects_get_one _ _ t).
  2:{ apply (filter_keyed_one Tag.name _ tag); try assumption.
      intros x _. apply String.eqb_eq. }
  cbn [Py.bind].
  rewrite (objects_get_one _ _ ct); [reflexivity|].
  apply (filter_keyed_one link_pair _ (Tag.id t, Content.id c)); try assumption.
  intros x _. apply by_pair_spec.
Qed.

Lemma update_tags_mapping_spec (names : list string) (c : Content.row) (s : Store) :
  wf s ->
  exists s',
    ContentAPIView._update_tags_mapping s names c = Py.Ok s'
    /\ wf s'
    /\ authors s' = authors s /\ contents s' = contents s
    /\ (forall name, name ∈ names -> linked s' name (Content.id c))
    /\ grows s s'.
Proof.
  revert s. induction names as [|tag rest IH]; intros s Hwf.
  - exists s. cbn. split; [reflexivity|]. split; [assumption|].
    split; [reflexivity|]. split; [reflexivity|]. split; [|apply grows_refl].
    intros name Hn. by apply elem_of_nil in Hn.
  - cbn [ContentAPIView._update_tags_mapping].
    destruct (update_tag_mapping_spec s tag c Hwf)
      as (s1 & -> & Hwf1 & Ha1 & Hc1 & Hl1 & Hg1).
    cbn [Py.bind].
    destruct (IH s1 Hwf1) as (s2 & -> & Hwf2 & Ha2 & Hc2 & Hl2 & Hg2).
    exists s2. split; [reflexivity|]. split; [assumption|].
    split; [congruence|]. split; [congruence|].
    split; [|by eapply grows_trans].
    intros name Hn. apply elem_of_cons in Hn as [->|Hn]; [|by apply Hl2].
    by eapply linked_grows.
Qed.

Lemma update_tags_mapping_present (names : list string) (c : Content.row) (s : Store) :
  wf s ->
  (forall name, name ∈ names -> linked s name (Content.id c)) ->
  ContentAPIView._update_tags_mapping s names c = Py.Ok s.
Proof.
  intros Hwf. induction names as [|tag rest IH]; intros Hall; [reflexivity|].
  cbn [ContentAPIView._update_tags_mapping].
  rewrite update_tag_mapping_present; [|assumption|apply Hall, elem_of_cons; auto].
  cbn [Py.bind]. apply IH. intros name Hn. apply Hall, elem_of_cons. auto.
Qed.

(** *** Counting rows *)

Lemma rows_with_one {A K : Type} `{EqDecision K} (column : A -> K) (l : list A) (a : A) :
  NoDup (column <$> l) -> a ∈ l -> rows_with column (column a) l = [a].
Proof.
  intros Hnd Hin. unfold rows_with.
  apply (filter_keyed_one column _ (column a)); try assumption; [|reflexivity].
  intros x _. apply bool_decide_eq_true.
Qed.

(** In a well-formed store that links [name] to a content, one tag row has
    the name and one link row attaches it. *)
Lemma linked_once (s : Store) (name : string) (cid : Z) :
  wf s -> linked s name cid ->
  length (rows_with Tag.name name (tags s)) = 1%nat
  /\ length (links_by_name s cid name) = 1%nat.
Proof.
  intros (Hapk & Haseq & Htpk & Htseq & Hfk & Hau & Hcu & Htu & Hlu)
         (t & ct & Ht & Hname & Hct & Hpair).
  split.
  - rewrite <- Hname, rows_with_one by assumption. reflexivity.
  - unfold links_by_name.
    rewrite (filter_keyed_one link_pair _ (Tag.id t, cid) _ ct); try assumption;
      [reflexivity|].
    intros x _. rewrite andb_true_iff, Z.eqb_eq, existsb_exists. split.
    + intros (Hcid & t' & Ht' & Hb).
      apply andb_true_iff in Hb as (Hid & Hn).
      apply Z.eqb_eq in Hid. apply String.eqb_eq in Hn.
      assert (t' = t).
      { apply (NoDup_key_inj Tag.name (tags s)); try assumption.
        - by apply list_elem_of_In.
        - congruence. }
      subst t'. unfold link_pair. congruence.
    + unfold link_pair. intros [= Htid Hcid]. split; [assumption|].
      exists t. split; [by apply list_elem_of_In|].
      apply andb_true_iff. split; [apply Z.eqb_eq; congruence | by apply String.eqb_eq].
Qed.

(** [content_object.author]: the row the foreign key points at. *)
Lemma content_author_lookup (s : Store) (c : Content.row) :
  wf s -> c ∈ contents s ->
  exists a,
    objects_get (fun a => Author.id a =? Content.author_id c) (authors s) = Py.Ok a.
Proof.
  intros (Hapk & Haseq & Htpk & Htseq & Hfk & Hau & Hcu & Htu & Hlu) Hc.
  rewrite Forall_forall in Hfk. specialize (Hfk c Hc).
  apply Exists_exists in Hfk as (a & Ha & Hid).
  exists a. apply objects_get_one.
  apply (filter_keyed_one Author.id _ (Content.author_id c)); try assumption.
  intros x _. apply Z.eqb_eq.
Qed.

(** C5: from a well-formed store, ingesting a payload succeeds, and
    ingesting it again succeeds with the same answer and leaves the store as
    it is; the store is well formed again and has one Author row for the author's external id,
    one Content row for the content's external id and, for every tag name of
    the payload, repeated or not, one Tag row and one link row to the
    content. *)
Theorem C5_ingest_twice (d : Z) (s : Store) (now1 now2 : Z) (data : Payload.t) :
  wf s ->
  exists s1 envelope,
    ContentAPIView.post d s now1 data = Py.Ok (s1, envelope)
    /\ ContentAPIView.post d s1 now2 data = Py.Ok (s1, envelope)
    /\ wf s1
    /\ Content.unique_id (fst envelope) = Payload.unq_external_id data
    /\ length (rows_with Author.unique_id
                 (Payload.unique_external_id (Payload.author_of data)) (authors s1)) = 1%nat
    /\ length (rows_with Content.unique_id (Payload.unq_external_id data) (contents s1))
       = 1%nat
    /\ forall name, In name (Payload.hashtags data) ->
         length (rows_with Tag.name name (tags s1)) = 1%nat
         /\ length (links_by_name s1 (Content.id (fst envelope)) name) = 1%nat.
Proof.
  intros Hwf.
  destruct (get_or_create_author_spec d s (Payload.author_of data) Hwf)
    as (sa & ao & Epa & Hwfa & Hao & Hkao & _ & _ & _).
  destruct (get_or_create_content_spec sa now1 data ao Hwfa Hao)
    as (sc & c & Epc & Hwfc & Hc & Hkc & Hac & _ & _).
  destruct (update_tags_mapping_spec (Payload.hashtags data) c sc Hwfc)
    as (st & Ept & Hwft & Hat & Hct & Hlinked & _).
  assert (Hc' : c ∈ contents st) by (rewrite Hct; assumption).
  assert (Hao' : ao ∈ authors st) by (rewrite Hat, Hac; assumption).
  destruct (content_author_lookup st c Hwft Hc') as (a & Epk).
  exists st, (c, a).
  split.
  { unfold ContentAPIView.post. rewrite Epa. cbn [Py.bind].
    rewrite Epc. cbn [Py.bind]. rewrite Ept. cbn [Py.bind].
    rewrite Epk. reflexivity. }
  split.
  { unfold ContentAPIView.post.
    rewrite (get_or_create_author_present d st _ ao) by assumption. cbn [Py.bind].
    rewrite (get_or_create_content_present st now2 data ao c) by assumption.
    cbn [Py.bind].
    rewrite update_tags_mapping_present by assumption. cbn [Py.bind].
    rewrite Epk. reflexivity. }
  split; [assumption|].
  split; [assumption|].
  pose proof Hwft as (Hapk & Haseq & Htpk & Htseq & Hfk & Hau & Hcu & Htu & Hlu).
  split; [rewrite <- Hkao, rows_with_one by assumption; reflexivity|].
  split; [rewrite <- Hkc, rows_with_one by assumption; reflexivity|].
  intros name Hn. apply linked_once; [assumption|].
  apply Hlinked. by apply list_elem_of_In.
Qed.

Lemma C5_ingest_twice_witness :
  wf empty_store
  /\ exists s1 envelope,
       ContentAPIView.post 0 empty_store 100 Scenario.hello = Py.Ok (s1, envelope)
       /\ ContentAPIView.post 0 s1 200 Scenario.hello = Py.Ok (s1, envelope)
       /\ wf s1
       /\ Content.unique_id (fst envelope) = Payload.unq_external_id Scenario.hello
       /\ length (rows_with Author.unique_id
                    (Payload.unique_external_id (Payload.author_of Scenario.hello))
                    (authors s1)) = 1%nat
       /\ length (rows_with Content.unique_id
                    (Payload.unq_external_id Scenario.hello) (contents s1)) = 1%nat
       /\ forall name, In name (Payload.hashtags Scenario.hello) ->
            length (rows_with Tag.name name (tags s1)) = 1%nat
            /\ length (links_by_name s1 (Content.id (fst envelope)) name) = 1%nat.
Proof.
  split.
  - apply (bool_decide_unpack _). vm_compute. exact I.
  - apply (C5_ingest_twice 0 empty_store 100 200 Scenario.hello).
    apply (bool_decide_unpack _). vm_compute. exact I.
Defined.

(** ** The enrichment gate *)

Lemma key_inj (i j : Z) : Tasks.key i = Tasks.key j -> i = j.
Proof.
  unfold Tasks.key. intros H. cbn in H. simplify_eq. by apply (inj pretty).
Qed.

Lemma cache_get_ext (c1 c2 : gmap string Cache.entry) (now : Z) (k : string) :
  c1 !! k = c2 !! k -> Cache.get c1 now k = Cache.get c2 now k.
Proof. intros H. unfold Cache.get. rewrite H. reflexivity. Qed.

Lemma cache_set_other (c : gmap string Cache.entry) (now : Z) (k k' : string)
    (v : Py.json) (timeout : Z) :
  k <> k' -> Cache.set c now k v timeout !! k' = c !! k'.
Proof. intros H. unfold Cache.set. by rewrite lookup_insert_ne. Qed.

Lemma cache_set_same (c : gmap string Cache.entry) (now : Z) (k : string)
    (v : Py.json) (timeout : Z) :
  Cache.set c now k v timeout !! k
  = Some {| Cache.value := v; Cache.expires := now + timeout |}.
Proof. unfold Cache.set. by rewrite lookup_insert_eq. Qed.

Lemma calls_for_snoc_other (id : Z) (log : list Tasks.Body) (b : Tasks.Body) :
  Tasks.content_id b <> id ->
  Tasks.calls_for id (log ++ [b]) = Tasks.calls_for id log.
Proof.
  intros H. unfold Tasks.calls_for. rewrite List.filter_app. cbn.
  assert (E : (Tasks.content_id b =? id) = false) by lia.
  rewrite E. apply app_nil_r.
Qed.

Lemma calls_for_snoc_same (id : Z) (log : list Tasks.Body) (b : Tasks.Body) :
  Tasks.content_id b = id ->
  Tasks.calls_for id (log ++ [b]) = (Tasks.calls_for id log ++ [b])%list.
Proof.
  intros H. unfold Tasks.calls_for. rewrite List.filter_app. cbn.
  assert (E : (Tasks.content_id b =? id) = true) by lia.
  rewrite E. reflexivity.
Qed.

(** A run over a list that is used up continues on what follows it; a run
    that returns or crashes ends there. *)
Lemma loop_app (api : Tasks.collaborator) (time : Tasks.clock) (pre rest : list joined)
    (st : Tasks.state) :
  Tasks.loop api time (pre ++ rest) st
  = match Tasks.loop api time pre st with
    | (st', Tasks.Exhausted) => Tasks.loop api time rest st'
    | r => r
    end.
Proof.
  revert st. induction pre as [|c pre IH]; intros st; [reflexivity|].
  cbn [app Tasks.loop].
  destruct (Py.truthy _); [reflexivity|].
  destruct (api _ _) as [|code body]; [reflexivity|].
  destruct (code =? 200); [|apply IH].
  destruct body; [apply IH | reflexivity].
Qed.

(** The calls a run adds are calls for the contents it went through. *)
Lemma loop_calls_from (api : Tasks.collaborator) (time : Tasks.clock) (l : list joined)
    (st : Tasks.state) :
  exists new,
    Tasks.calls (fst (Tasks.loop api time l st)) = (Tasks.calls st ++ new)%list
    /\ forall b, b ∈ new -> exists r, r ∈ l /\ b = Tasks.body_of r.
Proof.
  revert st. induction l as [|c l IH]; intros st.
  - exists []. cbn. rewrite app_nil_r. split; [reflexivity|].
    intros b Hb. by apply elem_of_nil in Hb.
  - assert (Hone : forall b, b ∈ [Tasks.body_of c] ->
                     exists r, r ∈ c :: l /\ b = Tasks.body_of r).
    { intros b Hb. apply list_elem_of_singleton in Hb. exists c.
      split; [apply elem_of_cons; auto | assumption]. }
    assert (Hrec : forall s2, Tasks.calls s2 = (Tasks.calls st ++ [Tasks.body_of c])%list ->
              exists new,
                Tasks.calls (fst (Tasks.loop api time l s2)) = (Tasks.calls st ++ new)%list
                /\ forall b, b ∈ new -> exists r, r ∈ c :: l /\ b = Tasks.body_of r).
    { intros s2 Hs2. destruct (IH s2) as (new & E & Hnew).
      exists (Tasks.body_of c :: new). rewrite E, Hs2, <- app_assoc.
      split; [reflexivity|]. intros b Hb.
      apply elem_of_cons in Hb as [->|Hb].
      - exists c. split; [apply elem_of_cons; auto | reflexivity].
      - destruct (Hnew b Hb) as (r & Hr & Hbr). exists r.
        split; [apply elem_of_cons; auto | assumption]. }
    cbn [Tasks.loop].
    destruct (Py.truthy _).
    { exists []. cbn. rewrite app_nil_r. split; [reflexivity|].
      intros b Hb. by apply elem_of_nil in Hb. }
    destruct (api _ _) as [|code body].
    { exists [Tasks.body_of c]. split; [reflexivity | exact Hone]. }
    destruct (code =? 200); [|apply Hrec; reflexivity].
    destruct body as [v|]; [apply Hrec; reflexivity|].
    exists [Tasks.body_of c]. split; [reflexivity | exact Hone].
Qed.

(** On a steady clock the time read does not decrease as the log grows. *)
Lemma steady_call (time : Tasks.clock) (log : list Tasks.Body) (body : Tasks.Body) :
  Tasks.steady time ->
  Tasks.at_get time log <= Tasks.at_set time (log ++ [body])%list
  /\ Tasks.at_set time (log ++ [body])%list <= Tasks.at_get time (log ++ [body])%list.
Proof.
  intros Hs. split; [apply (Hs log body) | apply (Hs (log ++ [body])%list body)].
Qed.

Lemma steady_app (time : Tasks.clock) (log more : list Tasks.Body) :
  Tasks.steady time -> Tasks.at_get time log <= Tasks.at_get time (log ++ more)%list.
Proof.
  intros Hs. induction more as [|b more IH] using rev_ind.
  - rewrite app_nil_r. lia.
  - rewrite app_assoc. pose proof (steady_call time (log ++ more)%list b Hs). lia.
Qed.

(** A run ends no earlier than it begins. *)
Lemma loop_time_le (api : Tasks.collaborator) (time : Tasks.clock) (l : list joined)
    (st : Tasks.state) :
  Tasks.steady time ->
  Tasks.at_get time (Tasks.calls st)
  <= Tasks.at_get time (Tasks.calls (fst (Tasks.loop api time l st))).
Proof.
  intros Hs. destruct (loop_calls_from api time l st) as (new & -> & _).
  by apply steady_app.
Qed.

(** The calls made for a content only grow in number during a run. *)
Lemma loop_calls_for_grow (api : Tasks.collaborator) (time : Tasks.clock) (id : Z)
    (l : list joined) (st : Tasks.state) :
  (length (Tasks.calls_for id (Tasks.calls st))
   <= length (Tasks.calls_for id (Tasks.calls (fst (Tasks.loop api time l st)))))%nat.
Proof.
  destruct (loop_calls_from api time l st) as (new & -> & _).
  unfold Tasks.calls_for. rewrite List.filter_app, length_app. lia.
Qed.

(** An entry that is read before its expiry and holds a true value makes
    the content live. *)
Lemma live_entry (c : gmap string Cache.entry) (now id : Z) (e : Cache.entry) :
  c !! Tasks.key id = Some e ->
  Py.truthy (Cache.value e) = true ->
  now < Cache.expires e ->
  Tasks.live c now id = true.
Proof.
  intros He Hv Ht. unfold Tasks.live, Cache.get. rewrite He.
  assert (E : (now <? Cache.expires e) = true) by lia. rewrite E. exact Hv.
Qed.

(** A content that is not live stays so as time passes, while its entry
    is left alone. *)
Lemma dead_later (c : gmap string Cache.entry) (t t' id : Z) :
  t <= t' ->
  Tasks.live c t id = false ->
  Tasks.live c t' id = false.
Proof.
  unfold Tasks.live, Cache.get. intros Ht.
  destruct (c !! Tasks.key id) as [e|]; [|auto].
  destruct (t <? Cache.expires e) eqn:E1; destruct (t' <? Cache.expires e) eqn:E2;
    auto; lia.
Qed.

(** While a content has a true cached value that expires after the run has
    ended, the run makes no call for it and leaves its entry alone. *)
Lemma loop_skips_held (api : Tasks.collaborator) (time : Tasks.clock) (id : Z)
    (e : Cache.entry) (l : list joined) (st : Tasks.state) :
  Tasks.steady time ->
  Tasks.cache st !! Tasks.key id = Some e ->
  Py.truthy (Cache.value e) = true ->
  Tasks.at_get time (Tasks.calls (fst (Tasks.loop api time l st))) < Cache.expires e ->
  Tasks.calls_for id (Tasks.calls (fst (Tasks.loop api time l st)))
  = Tasks.calls_for id (Tasks.calls st)
  /\ Tasks.cache (fst (Tasks.loop api time l st)) !! Tasks.key id = Some e.
Proof.
  intros Hs. revert st. induction l as [|c l IH]; intros st He Hv Hend;
    [split; [reflexivity | exact He]|].
  pose proof (loop_time_le api time (c :: l) st Hs) as Hle.
  assert (Hlive : Tasks.live (Tasks.cache st) (Tasks.at_get time (Tasks.calls st)) id = true).
  { apply (live_entry _ _ _ e); [assumption | assumption | lia]. }
  clear Hle. cbn [Tasks.loop] in Hend |- *.
  destruct (Py.truthy (Cache.get (Tasks.cache st) (Tasks.at_get time (Tasks.calls st))
                         (Tasks.key (Content.id (fst c)))))
    eqn:Hc; [split; [reflexivity | exact He]|].
  assert (Hne : Content.id (fst c) <> id).
  { intros E. rewrite E in Hc. unfold Tasks.live in Hlive. congruence. }
  assert (Hk : Tasks.key (Content.id (fst c)) <> Tasks.key id).
  { intros E. by apply key_inj in E. }
  assert (Hcalls : Tasks.calls_for id (Tasks.calls st ++ [Tasks.body_of c])
                   = Tasks.calls_for id (Tasks.calls st)).
  { by apply calls_for_snoc_other. }
  destruct (api _ _) as [|code body]; [split; [exact Hcalls | exact He]|].
  destruct (code =? 200).
  - destruct body as [v|]; [|split; [exact Hcalls | exact He]].
    match goal with
    | |- context [Tasks.loop api time l ?s2] => destruct (IH s2) as [H1 H2]
    end.
    + cbn [Tasks.cache]. rewrite cache_set_other by assumption. exact He.
    + exact Hv.
    + exact Hend.
    + split; [rewrite H1; exact Hcalls | exact H2].
  - match goal with
    | |- context [Tasks.loop api time l ?s2] => destruct (IH s2) as [H1 H2]
    end; [exact He | exact Hv | exact Hend |].
    split; [rewrite H1; exact Hcalls | exact H2].
Qed.

(** When the service answers calls for a content with status 200 and a true
    body, a run that ends before [window], no more than 24 hours after it
    began, either leaves the content alone or calls once for it and leaves
    a true answer stored until [window] or later. *)
Lemma loop_calls_once (api : Tasks.collaborator) (time : Tasks.clock) (id window : Z)
    (l : list joined) (st : Tasks.state) :
  Tasks.steady time ->
  Tasks.answers_truthy api id ->
  window <= Tasks.at_get time (Tasks.calls st) + Tasks.timeout ->
  Tasks.at_get time (Tasks.calls (fst (Tasks.loop api time l st))) < window ->
  (Tasks.calls_for id (Tasks.calls (fst (Tasks.loop api time l st)))
   = Tasks.calls_for id (Tasks.calls st)
   /\ Tasks.cache (fst (Tasks.loop api time l st)) !! Tasks.key id
      = Tasks.cache st !! Tasks.key id)
  \/ (exists e,
         length (Tasks.calls_for id (Tasks.calls (fst (Tasks.loop api time l st))))
         = S (length (Tasks.calls_for id (Tasks.calls st)))
         /\ Tasks.cache (fst (Tasks.loop api time l st)) !! Tasks.key id = Some e
         /\ Py.truthy (Cache.value e) = true
         /\ window <= Cache.expires e).
Proof.
  intros Hs Hok. revert st. induction l as [|c l IH]; intros st Hwin Hend;
    [left; split; reflexivity|].
  pose proof (steady_call time (Tasks.calls st) (Tasks.body_of c) Hs) as Hstep.
  cbn [Tasks.loop] in Hend |- *.
  destruct (Py.truthy (Cache.get (Tasks.cache st) (Tasks.at_get time (Tasks.calls st))
                         (Tasks.key (Content.id (fst c)))))
    eqn:Hc; [left; split; reflexivity|].
  destruct (decide (Content.id (fst c) = id)) as [Heq|Hne].
  - destruct (Hok (Tasks.calls st) (Tasks.body_of c) Heq) as (v & Hv & Htrue).
    rewrite Hv in Hend |- *. cbn [Z.eqb Pos.eqb] in Hend |- *. right.
    match goal with
    | |- context [Tasks.loop api time l ?s2] =>
        destruct (loop_skips_held api time id
                    {| Cache.value := v;
                       Cache.expires :=
                         Tasks.at_set time (Tasks.calls st ++ [Tasks.body_of c])%list
                         + Tasks.timeout |}
                    l s2 Hs) as [H1 H2]
    end.
    + cbn [Tasks.cache Tasks.calls]. rewrite Heq. apply cache_set_same.
    + exact Htrue.
    + cbn [Cache.expires]. lia.
    + eexists. rewrite H1. cbn [Tasks.calls].
      rewrite calls_for_snoc_same by assumption. rewrite length_app. cbn [length].
      split; [lia|]. split; [exact H2|]. split; [exact Htrue|].
      cbn [Cache.expires]. lia.
  - assert (Hk : Tasks.key (Content.id (fst c)) <> Tasks.key id).
    { intros E. by apply key_inj in E. }
    assert (Hcalls : Tasks.calls_for id (Tasks.calls st ++ [Tasks.body_of c])
                     = Tasks.calls_for id (Tasks.calls st)).
    { by apply calls_for_snoc_other. }
    destruct (api _ _) as [|code body]; [left; split; [exact Hcalls | reflexivity]|].
    destruct (code =? 200).
    + destruct body as [v|]; [|left; split; [exact Hcalls | reflexivity]].
      match goal with
      | |- context [Tasks.loop api time l ?s2] =>
          destruct (IH s2) as [[H1 H2] | (w & H1 & H2 & H3)]
      end.
      * cbn [Tasks.calls]. lia.
      * exact Hend.
      * left. split; [rewrite H1; exact Hcalls|].
        rewrite H2. cbn [Tasks.cache]. by apply cache_set_other.
      * right. exists w. cbn [Tasks.calls] in H1. rewrite Hcalls in H1. auto.
    + match goal with
      | |- context [Tasks.loop api time l ?s2] =>
          destruct (IH s2) as [[H1 H2] | (w & H1 & H2 & H3)]
      end.
      * cbn [Tasks.calls]. lia.
      * exact Hend.
      * left. split; [rewrite H1; exact Hcalls | rewrite H2; reflexivity].
      * right. exists w. cbn [Tasks.calls] in H1. rewrite Hcalls in H1. auto.
Qed.

(** Two runs, the second begun after the first has ended and ended less
    than 24 hours after the first began, call the service at most once for
    a content it answers as above. *)
Lemma two_runs_call_once (api : Tasks.collaborator) (time1 time2 : Tasks.clock) (id : Z)
    (l1 l2 : list joined) (st0 : Tasks.state) :
  Tasks.steady time1 -> Tasks.steady time2 ->
  Tasks.answers_truthy api id ->
  let st1 := fst (Tasks.loop api time1 l1 st0) in
  let st2 := fst (Tasks.loop api time2 l2 st1) in
  Tasks.at_get time1 (Tasks.calls st1) <= Tasks.at_get time2 (Tasks.calls st1) ->
  Tasks.at_get time2 (Tasks.calls st2) < Tasks.at_get time1 (Tasks.calls st0) + Tasks.timeout ->
  (length (Tasks.calls_for id (Tasks.calls st2))
   <= S (length (Tasks.calls_for id (Tasks.calls st0))))%nat.
Proof.
  intros Hs1 Hs2 Hok st1 st2 Hbetween Hend.
  pose proof (loop_time_le api time1 l1 st0 Hs1) as Hle1. fold st1 in Hle1.
  pose proof (loop_time_le api time2 l2 st1 Hs2) as Hle2. fold st2 in Hle2.
  set (window := Tasks.at_get time1 (Tasks.calls st0) + Tasks.timeout) in *.
  destruct (loop_calls_once api time1 id window l1 st0 Hs1 Hok)
    as [[E1 _] | (e & E1 & He & Hv & Hexp)];
    [unfold window; lia | fold st1; lia | fold st1 in E1 | fold st1 in E1, He].
  - destruct (loop_calls_once api time2 id window l2 st1 Hs2 Hok)
      as [[E2 _] | (e & E2 & _)];
      [unfold window; lia | fold st2; lia | fold st2 in E2 | fold st2 in E2].
    + rewrite E2, E1. lia.
    + rewrite E2, E1. lia.
  - destruct (loop_skips_held api time2 id e l2 st1 Hs2 He Hv) as [E2 _];
      [fold st2; lia|].
    fold st2 in E2. rewrite E2, E1. lia.
Qed.

(** C4 as the code has it: a tick makes no call for a content whose cached
    value is true and expires after the tick has ended; a status-200 answer
    with a JSON body is stored under the content's key for 24 hours from
    the time read after the call, and any other status leaves the cache as
    it is; when the service answers calls for a content with status 200 and
    a true body, two ticks, the second begun after the first has ended and
    ended less than 24 hours after the first began, call it at most once
    for that content. *)
Theorem C4_gate_dedup :
  (forall api s (time : Tasks.clock) st id e,
      Tasks.steady time ->
      Tasks.cache st !! Tasks.key id = Some e ->
      Py.truthy (Cache.value e) = true ->
      Tasks.at_get time (Tasks.calls (fst (Tasks.generate_comment api s time st)))
      < Cache.expires e ->
      Tasks.calls_for id (Tasks.calls (fst (Tasks.generate_comment api s time st)))
      = Tasks.calls_for id (Tasks.calls st))
  /\ (forall api (time : Tasks.clock) c rest st v,
         Tasks.live (Tasks.cache st) (Tasks.at_get time (Tasks.calls st))
           (Content.id (fst c)) = false ->
         api (Tasks.calls st) (Tasks.body_of c) = Tasks.Response 200 (Some v) ->
         Tasks.loop api time (c :: rest) st
         = Tasks.loop api time rest
             {| Tasks.cache :=
                  <[ Tasks.key (Content.id (fst c))
                     := {| Cache.value := v;
                           Cache.expires :=
                             Tasks.at_set time (Tasks.calls st ++ [Tasks.body_of c])%list
                             + 86400 |} ]>
                  (Tasks.cache st);
                Tasks.calls := Tasks.calls st ++ [Tasks.body_of c] |})
  /\ (forall api (time : Tasks.clock) c rest st code body,
         Tasks.live (Tasks.cache st) (Tasks.at_get time (Tasks.calls st))
           (Content.id (fst c)) = false ->
         api (Tasks.calls st) (Tasks.body_of c) = Tasks.Response code body ->
         code <> 200 ->
         Tasks.loop api time (c :: rest) st
         = Tasks.loop api time rest
             {| Tasks.cache := Tasks.cache st;
                Tasks.calls := Tasks.calls st ++ [Tasks.body_of c] |})
  /\ (forall api id (time1 time2 : Tasks.clock) s1 s2 st0,
         Tasks.steady time1 -> Tasks.steady time2 ->
         Tasks.answers_truthy api id ->
         let st1 := fst (Tasks.generate_comment api s1 time1 st0) in
         let st2 := fst (Tasks.generate_comment api s2 time2 st1) in
         Tasks.at_get time1 (Tasks.calls st1) <= Tasks.at_get time2 (Tasks.calls st1) ->
         Tasks.at_get time2 (Tasks.calls st2) < Tasks.at_get time1 (Tasks.calls st0) + 86400 ->
         (length (Tasks.calls_for id (Tasks.calls st2))
          <= S (length (Tasks.calls_for id (Tasks.calls st0))))%nat).
Proof.
  split; [|split; [|split]].
  - intros api s time st id e Hs He Hv Hend. unfold Tasks.generate_comment in *.
    by apply (loop_skips_held api time id e).
  - intros api time c rest st v Hdead Hapi. cbn [Tasks.loop].
    unfold Tasks.live in Hdead. rewrite Hdead, Hapi. reflexivity.
  - intros api time c rest st code body Hdead Hapi Hcode. cbn [Tasks.loop].
    unfold Tasks.live in Hdead. rewrite Hdead, Hapi.
    assert (E : (code =? 200) = false) by lia. rewrite E. reflexivity.
  - intros api id time1 time2 s1 s2 st0 Hs1 Hs2 Hok. unfold Tasks.generate_comment.
    by apply two_runs_call_once.
Qed.

Lemma paced_steady (start : Z) (made : nat) (latency : Z) :
  0 <= latency -> Tasks.steady (Tasks.paced start made latency).
Proof.
  intros H log body. unfold Tasks.paced. cbn [Tasks.at_get Tasks.at_set].
  rewrite length_app. cbn [length]. nia.
Qed.

(** C4 at two ticks an hour apart, with calls that take ten seconds and a
    service that answers with a comment. *)
Lemma C4_gate_dedup_witness :
  Tasks.steady (Tasks.paced 0 0 10)
  /\ Tasks.steady (Tasks.paced 3600 2 10)
  /\ Tasks.answers_truthy Ticks.comment 1
  /\ (let st1 := fst (Tasks.generate_comment Ticks.comment Scenario.two_contents
                        (Tasks.paced 0 0 10) Ticks.fresh) in
      let st2 := fst (Tasks.generate_comment Ticks.comment Scenario.two_contents
                        (Tasks.paced 3600 2 10) st1) in
      map Tasks.content_id (Tasks.calls st1) = [2; 1]
      /\ (length (Tasks.calls_for 1 (Tasks.calls st2)) <= 1)%nat).
Proof.
  assert (Hs1 : Tasks.steady (Tasks.paced 0 0 10)) by (apply paced_steady; lia).
  assert (Hs2 : Tasks.steady (Tasks.paced 3600 2 10)) by (apply paced_steady; lia).
  assert (Hok : Tasks.answers_truthy Ticks.comment 1).
  { intros log body _. eexists. split; reflexivity. }
  split; [exact Hs1|]. split; [exact Hs2|]. split; [exact Hok|].
  split; [vm_compute; reflexivity|].
  apply (proj2 (proj2 (proj2 C4_gate_dedup))
           Ticks.comment 1 (Tasks.paced 0 0 10) (Tasks.paced 3600 2 10)
           Scenario.two_contents Scenario.two_contents Ticks.fresh Hs1 Hs2 Hok).
  - vm_compute. discriminate.
  - vm_compute. reflexivity.
Defined.

(** C4, as stated, fails.  With a service that answers 200 and the empty
    object, the cache holds the entry an hour later and the second tick
    calls for the same content again.  With a service that answers with a
    comment after ten or twenty seconds, the entry of content 2 is held and
    true when a tick begins one second before it expires; the tick first
    calls for a newer content, the entry expires meanwhile, and the tick
    calls for content 2 a second time in 24 hours. *)
Lemma C4_called_twice_within_a_day :
  Cache.holds
    (Tasks.cache (Ticks.after Ticks.empty_object Scenario.two_contents 0 Ticks.fresh))
    3600 (Tasks.key 1) = true
  /\ length (Tasks.calls_for 1
               (Tasks.calls
                  (Ticks.after Ticks.empty_object Scenario.two_contents 0 Ticks.fresh)))
     = 1%nat
  /\ length (Tasks.calls_for 1
               (Tasks.calls
                  (Ticks.after Ticks.empty_object Scenario.two_contents 3600
                     (Ticks.after Ticks.empty_object Scenario.two_contents 0 Ticks.fresh))))
     = 2%nat
  /\ Tasks.live (Tasks.cache Slow.first_tick) 86399 2 = true
  /\ map Tasks.content_id (Tasks.calls Slow.first_tick) = [2; 1]
  /\ map Tasks.content_id (Tasks.calls Slow.second_tick) = [2; 1; 3; 2; 1].
Proof. repeat split; vm_compute; reflexivity. Qed.

(** C10 as the code has it: when the tick reaches a content whose cached
    value is true it returns at once, in the state it reached that content
    in; the calls made are those for the contents before it, whatever
    follows it and whatever the cache says about what follows. *)
Theorem C10_returns_on_true_entry (api : Tasks.collaborator) (s : Store)
    (time : Tasks.clock) (st st' : Tasks.state) (pre : list joined) (c : joined)
    (post : list joined) :
  firstn 10 (Tasks.order_by_timestamp_desc (select_related_author s))
  = (pre ++ c :: post)%list ->
  Tasks.loop api time pre st = (st', Tasks.Exhausted) ->
  Tasks.live (Tasks.cache st') (Tasks.at_get time (Tasks.calls st'))
    (Content.id (fst c)) = true ->
  Tasks.generate_comment api s time st = (st', Tasks.Returned)
  /\ exists new,
       Tasks.calls st' = (Tasks.calls st ++ new)%list
       /\ forall b, b ∈ new -> exists r, r ∈ pre /\ b = Tasks.body_of r.
Proof.
  intros Hlist Hpre Hlive. split.
  - unfold Tasks.generate_comment. rewrite Hlist, loop_app, Hpre.
    cbn [Tasks.loop]. unfold Tasks.live in Hlive. rewrite Hlive. reflexivity.
  - pose proof (loop_calls_from api time pre st) as H. rewrite Hpre in H. exact H.
Qed.

Lemma C10_returns_on_true_entry_witness :
  exists c post,
    firstn 10 (Tasks.order_by_timestamp_desc (select_related_author Scenario.two_contents))
    = ([] ++ c :: post)%list
    /\ post <> []
    /\ Tasks.loop Ticks.failing (Tasks.at_time 500) [] Ticks.warm
       = (Ticks.warm, Tasks.Exhausted)
    /\ Tasks.live (Tasks.cache Ticks.warm) 500 (Content.id (fst c)) = true
    /\ Tasks.generate_comment Ticks.failing Scenario.two_contents (Tasks.at_time 500)
         Ticks.warm
       = (Ticks.warm, Tasks.Returned).
Proof.
  eexists _, _.
  split; [reflexivity|]. split; [discriminate|].
  split; [reflexivity|]. split; [vm_compute; reflexivity|].
  refine (proj1 (C10_returns_on_true_entry Ticks.failing Scenario.two_contents
                   (Tasks.at_time 500) Ticks.warm Ticks.warm [] _ _ _ _ _)).
  - reflexivity.
  - reflexivity.
  - vm_compute. reflexivity.
Defined.

(** C10, as stated, fails: the newest content has a cache entry that holds
    the empty object; the tick does not return there, it calls the service
    for that content and for the older one and runs to the end of the
    list. *)
Lemma C10_held_entry_not_returned :
  Cache.holds (Tasks.cache Ticks.stale) 500 (Tasks.key 2) = true
  /\ map (fun r => Content.id (fst r))
       (firstn 10 (Tasks.order_by_timestamp_desc
                     (select_related_author Scenario.two_contents))) = [2; 1]
  /\ snd (Tasks.generate_comment Ticks.failing Scenario.two_contents (Tasks.at_time 500)
            Ticks.stale)
     = Tasks.Exhausted
  /\ map Tasks.content_id
       (Tasks.calls (Ticks.after Ticks.failing Scenario.two_contents 500 Ticks.stale))
     = [2; 1].
Proof. repeat split; vm_compute; reflexivity. Qed.

(** * Further properties of the code *)

(** ** Joins on a well-formed store *)

Lemma existsb_filter {A : Type} (f : A -> bool) (l : list A) :
  existsb f l = match List.filter f l with [] => false | _ :: _ => true end.
Proof.
  induction l as [|x l IH]; [reflexivity|]. cbn.
  destruct (f x); [reflexivity | exact IH].
Qed.

(** With distinct keys, a condition that fixes the key selects at most one
    row. *)
Lemma filter_at_most_one {A K : Type} (key : A -> K) (cond : A -> bool) (k : K)
    (l : list A) :
  NoDup (key <$> l) ->
  (forall x, x ∈ l -> cond x = true -> key x = k) ->
  List.filter cond l = [] \/ exists a, List.filter cond l = [a].
Proof.
  induction l as [|x l IH]; intros Hnd Hc; [left; reflexivity|].
  rewrite fmap_cons in Hnd. apply NoDup_cons in Hnd as [Hx Hnd].
  assert (Hc' : forall y, y ∈ l -> cond y = true -> key y = k).
  { intros y Hy. apply Hc. apply elem_of_cons. auto. }
  cbn [List.filter]. destruct (cond x) eqn:Ex; [|by apply IH].
  right. exists x. f_equal. apply filter_none. intros y Hy.
  destruct (cond y) eqn:Ey; [|reflexivity]. exfalso. apply Hx.
  rewrite (Hc x) by (try apply elem_of_cons; auto).
  rewrite <- (Hc' y Hy Ey). by apply list_elem_of_fmap_2.
Qed.

(** The rows of the join on a well-formed store. *)
Lemma joined_rows (s : Store) :
  wf s ->
  map fst (select_related_author s) = contents s
  /\ Forall (fun r => snd r ∈ authors s
                      /\ Author.id (snd r) = Content.author_id (fst r))
       (select_related_author s).
Proof.
  intros (Hapk & Haseq & Htpk & Htseq & Hfk & Hau & Hcu & Htu & Hlu).
  unfold select_related_author. split.
  - clear Hcu. induction Hfk as [|c l Hc _ IH]; [reflexivity|].
    cbn [flat_map]. rewrite map_app, IH.
    apply Exists_exists in Hc as (a & Ha & Hid).
    rewrite (filter_keyed_one Author.id _ (Content.author_id c) _ a);
      [reflexivity | intros x _; apply Z.eqb_eq | assumption..].
  - apply Forall_forall. intros r Hr. apply list_elem_of_In in Hr.
    apply in_flat_map in Hr as (c & _ & Hr).
    apply in_map_iff in Hr as (a & <- & Ha).
    apply filter_In in Ha as [Ha Hid]. cbn.
    split; [by apply list_elem_of_In | lia].
Qed.

(** X1: on a well-formed store the join with the author table yields every
    content exactly once, in table order, each next to the author its
    foreign key names. *)
Theorem X1_every_content_joined_once (s : Store) :
  wf s ->
  map fst (select_related_author s) = contents s
  /\ Forall (fun r => snd r ∈ authors s
                      /\ Author.id (snd r) = Content.author_id (fst r))
       (select_related_author s).
Proof. apply joined_rows. Qed.

Lemma X1_every_content_joined_once_witness :
  wf Scenario.two_contents
  /\ map fst (select_related_author Scenario.two_contents)
     = contents Scenario.two_contents
  /\ Forall (fun r => snd r ∈ authors Scenario.two_contents
                      /\ Author.id (snd r) = Content.author_id (fst r))
       (select_related_author Scenario.two_contents).
Proof.
  assert (H : wf Scenario.two_contents).
  { apply (bool_decide_unpack _). vm_compute. exact I. }
  split; [exact H|]. exact (X1_every_content_joined_once Scenario.two_contents H).
Defined.

Lemma filter_filter_andb {A : Type} (p q : A -> bool) (l : list A) :
  List.filter p (List.filter q l) = List.filter (fun x => q x && p x) l.
Proof.
  induction l as [|x l IH]; [reflexivity|]. cbn.
  destruct (q x); cbn; [|exact IH]. destruct (p x); [f_equal|]; exact IH.
Qed.

(** On a well-formed store the join on the tag id is a plain selection. *)
Lemma filter_tag_id_selects (s : Store) (t : Z) (qs : list joined) :
  wf s ->
  filter_tag_id s t qs = List.filter (has_link s t) qs.
Proof.
  intros (Hapk & Haseq & Htpk & Htseq & Hfk & Hau & Hcu & Htu & Hlu).
  unfold filter_tag_id, has_link.
  induction qs as [|r qs IH]; [reflexivity|].
  cbn [flat_map List.filter]. rewrite IH, existsb_filter.
  destruct (filter_at_most_one link_pair
              (fun ct => (ContentTag.content_id ct =? Content.id (fst r))
                         && (ContentTag.tag_id ct =? t))
              (t, Content.id (fst r)) (contenttags s) Hlu) as [-> | [ct ->]];
    try reflexivity.
  intros x _ Hx. apply andb_true_iff in Hx as [H1 H2].
  unfold link_pair. f_equal; lia.
Qed.

Lemma filter_all_true {A : Type} (p : A -> bool) (l : list A) :
  (forall x, p x = true) -> List.filter p l = l.
Proof.
  intros H. induction l as [|x l IH]; [reflexivity|]. cbn. by rewrite H, IH.
Qed.

(** On a well-formed store a request the builder answers yields a plain
    selection of the queryset. *)
Lemma build_filters_selects (s : Store) (now : Z) (qs : list joined)
    (request : Request.t) :
  wf s ->
  answerable now request = true ->
  ContentAPIView._build_filters s now qs request
  = Py.Ok (List.filter (accepts s now request) qs).
Proof.
  intros Hwf. unfold answerable, ContentAPIView._build_filters, accepts.
  destruct request as [aid uname tf tid ttl tg pg ipp];
    cbn [Request.author_id Request.author_username Request.timeframe
         Request.tag_id Request.title].
  intros H.
  apply andb_true_iff in H as [H Htid]. apply andb_true_iff in H as [H Hrange].
  apply andb_true_iff in H as [Haid Htf].
  destruct aid as [[aid|]|]; try discriminate Haid;
    destruct tf as [[tf|]|]; try discriminate Htf;
    destruct tid as [[tid|]|]; try discriminate Htid;
    cbn [get_prep_value Request.int Py.bind];
    try (destruct (timeframe_since now tf Hrange) as [-> Hsub];
         cbn [Py.bind]; rewrite Hsub; cbn [Py.bind]);
    f_equal;
    destruct uname as [uname|], ttl as [ttl|];
    try destruct (nonempty uname) eqn:Eun; try destruct (nonempty ttl) eqn:Ettl;
    rewrite ?(filter_tag_id_selects s _ _ Hwf), ?filter_filter_andb;
    first [ apply List.filter_ext; intros r; cbv beta;
            rewrite ?andb_assoc, ?andb_true_r; reflexivity
          | symmetry; apply filter_all_true; intros r; reflexivity ].
Qed.

(** X2: on a well-formed store the filter builder is a plain selection: when
    the numeric parameters are integers and the timeframe is in range it
    keeps the rows of the queryset that pass every supplied filter, in the
    order of the queryset, none of them twice; otherwise it raises
    [ValueError] or [OverflowError]. *)
Theorem X2_filters_select (s : Store) (now : Z) (qs : list joined)
    (request : Request.t) :
  wf s ->
  match ContentAPIView._build_filters s now qs request with
  | Py.Ok rows =>
      answerable now request = true
      /\ rows = List.filter (accepts s now request) qs
  | Py.Raise e =>
      answerable now request = false
      /\ (e = Py.ValueError \/ e = Py.OverflowError)
  end.
Proof.
  intros Hwf. destruct (answerable now request) eqn:Ha.
  - rewrite (build_filters_selects s now qs request Hwf Ha). split; reflexivity.
  - destruct (build_filters_refused s now qs request Ha) as (e & -> & He).
    split; [reflexivity | exact He].
Qed.

Lemma X2_filters_select_witness :
  wf Scenario.two_contents
  /\ match ContentAPIView._build_filters Scenario.two_contents 300
             (select_related_author Scenario.two_contents)
             (Only.tag_id (Request.Integer 2)) with
     | Py.Ok rows =>
         answerable 300 (Only.tag_id (Request.Integer 2)) = true
         /\ rows = List.filter
                     (accepts Scenario.two_contents 300 (Only.tag_id (Request.Integer 2)))
                     (select_related_author Scenario.two_contents)
     | Py.Raise e =>
         answerable 300 (Only.tag_id (Request.Integer 2)) = false
         /\ (e = Py.ValueError \/ e = Py.OverflowError)
     end.
Proof.
  assert (H : wf Scenario.two_contents).
  { apply (bool_decide_unpack _). vm_compute. exact I. }
  split; [exact H|].
  exact (X2_filters_select Scenario.two_contents 300 _ (Only.tag_id (Request.Integer 2)) H).
Defined.

Lemma flat_map_copies {A B : Type} (p : A -> bool) (r : B) (l : list A) :
  flat_map (fun x => if p x then [r] else []) l = map (fun _ => r) (List.filter p l).
Proof.
  induction l as [|x l IH]; [reflexivity|]. cbn.
  destruct (p x); cbn; [f_equal|]; exact IH.
Qed.

(** On a well-formed store at most one link row attaches a tag of a given
    name to a content. *)
Lemma links_by_name_at_most_one (s : Store) (cid : Z) (name : string) :
  wf s ->
  links_by_name s cid name = [] \/ exists ct, links_by_name s cid name = [ct].
Proof.
  intros (Hapk & Haseq & Htpk & Htseq & Hfk & Hau & Hcu & Htu & Hlu).
  unfold links_by_name.
  destruct (filter_keyed_cases Tag.name
              (fun t => String.eqb (Tag.name t) name) name (tags s))
    as [[Hnew _] | (t & Ht & Hname & _)]; try assumption.
  - intros x. apply String.eqb_eq.
  - left. apply filter_none. intros ct _.
    destruct (_ && _) eqn:E; [|reflexivity]. exfalso.
    apply andb_true_iff in E as [_ E]. apply existsb_exists in E as (t & Ht & E).
    apply andb_true_iff in E as [_ E]. apply String.eqb_eq in E.
    apply Hnew. rewrite <- E. apply list_elem_of_fmap_2. by apply list_elem_of_In.
  - apply (filter_at_most_one link_pair _ (Tag.id t, cid)); [assumption|].
    intros ct _ E. apply andb_true_iff in E as [Hc E].
    apply existsb_exists in E as (t' & Ht' & E).
    apply andb_true_iff in E as [Hid E]. apply String.eqb_eq in E.
    assert (t' = t).
    { apply (NoDup_key_inj Tag.name (tags s)); try assumption.
      - by apply list_elem_of_In.
      - congruence. }
    subst t'. unfold link_pair. f_equal; lia.
Qed.

(** On a well-formed store the join on the tag name is a plain selection. *)
Lemma filter_tag_name_selects (s : Store) (name : string) (qs : list joined) :
  wf s ->
  filter_tag_name s name qs = List.filter (tagged s name) qs.
Proof.
  intros Hwf. pose proof Hwf as (Hapk & Haseq & Htpk & Htseq & Hfk & Hau & Hcu & Htu & Hlu).
  unfold filter_tag_name, tagged.
  induction qs as [|r qs IH]; [reflexivity|].
  cbn [flat_map List.filter]. rewrite IH. clear IH.
  assert (Hinner : forall ct,
             map (fun _ : Tag.row => r)
               (List.filter (fun t => (Tag.id t =? ContentTag.tag_id ct)
                                      && String.eqb (Tag.name t) name) (tags s))
             = if existsb (fun t => (Tag.id t =? ContentTag.tag_id ct)
                                    && String.eqb (Tag.name t) name) (tags s)
               then [r] else []).
  { intros ct. rewrite existsb_filter.
    destruct (filter_at_most_one Tag.id
                (fun t => (Tag.id t =? ContentTag.tag_id ct)
                          && String.eqb (Tag.name t) name)
                (ContentTag.tag_id ct) (tags s) Htpk) as [-> | [t ->]];
      try reflexivity.
    intros x _ Hx. apply andb_true_iff in Hx as [Hx _]. lia. }
  rewrite (flat_map_ext _ _ Hinner), flat_map_copies, filter_filter_andb.
  fold (links_by_name s (Content.id (fst r)) name).
  destruct (links_by_name_at_most_one s (Content.id (fst r)) name Hwf) as [-> | [ct ->]];
    reflexivity.
Qed.

(** X3: the statistics view raises exactly when no row is selected, and then
    it is a [TypeError]; otherwise it answers with the number of rows, the
    sums of their counters, the engagement, and as rate the integer 0 when
    the views sum to zero and the quotient otherwise. *)
Theorem X3_stats_answer (s : Store) (request : Request.t) :
  let qs := ContentStatsAPIView.filtered s request in
  let sum := fun field => fold_right (fun r acc => field r + acc) 0 qs in
  let likes := sum (fun r => Content.like_count (fst r)) in
  let shares := sum (fun r => Content.share_count (fst r)) in
  let views := sum (fun r => Content.view_count (fst r)) in
  let comments := sum (fun r => Content.comment_count (fst r)) in
  (qs = [] /\ ContentStatsAPIView.get s request = Py.Raise Py.TypeError)
  \/ (qs <> []
      /\ ContentStatsAPIView.get s request
         = Py.Ok {| ContentStatsAPIView.total_likes := Some likes;
                    ContentStatsAPIView.total_shares := Some shares;
                    ContentStatsAPIView.total_views := Some views;
                    ContentStatsAPIView.total_comments := Some comments;
                    ContentStatsAPIView.total_followers :=
                      Some (sum (fun r => Author.followers (snd r)));
                    ContentStatsAPIView.total_contents := Z.of_nat (length qs);
                    ContentStatsAPIView.total_engagement :=
                      Some (likes + shares + comments);
                    ContentStatsAPIView.total_engagement_rate :=
                      if views =? 0 then Py.Int 0
                      else Py.Float (inject_Z (likes + shares + comments)
                                     / inject_Z views) |}).
Proof.
  intros qs sum likes shares views comments.
  assert (Hcases : qs = [] \/ qs <> []).
  { unfold qs. destruct (ContentStatsAPIView.filtered s request);
      [left; reflexivity | right; discriminate]. }
  destruct Hcases as [He|Hne].
  - left. split; [exact He | by apply stats_empty].
  - right. split; [exact Hne|].
    destruct (stats_nonempty s request Hne) as (rate & Hget & Hnz & Hz).
    rewrite Hget. do 2 f_equal.
    destruct (views =? 0) eqn:Hv.
    + apply Hz. apply Z.eqb_eq in Hv. exact Hv.
    + apply Hnz. apply Z.eqb_neq in Hv. exact Hv.
Qed.

(** X4: on a well-formed store the statistics for [tag=name] run over the
    contents linked to a tag of that name, each counted once. *)
Theorem X4_stats_tag_counts_once (s : Store) (request : Request.t) (name : string) :
  wf s ->
  Request.tag request = Some name ->
  nonempty name = true ->
  ContentStatsAPIView.filtered s request
  = List.filter (tagged s name) (select_related_author s).
Proof.
  intros Hwf Htag Hne. unfold ContentStatsAPIView.filtered.
  rewrite Htag, Hne. by apply filter_tag_name_selects.
Qed.

Lemma X4_stats_tag_counts_once_witness :
  wf Scenario.two_contents
  /\ ContentStatsAPIView.filtered Scenario.two_contents (Asking.tag "y")
     = List.filter (tagged Scenario.two_contents "y")
         (select_related_author Scenario.two_contents).
Proof.
  assert (H : wf Scenario.two_contents).
  { apply (bool_decide_unpack _). vm_compute. exact I. }
  split; [exact H|].
  apply (X4_stats_tag_counts_once Scenario.two_contents (Asking.tag "y") "y" H);
    reflexivity.
Defined.

(** ** The listing *)

(** X5: widening the time frame of a request to one the builder still
    answers never loses a row. *)
Theorem X5_timeframe_monotone (s : Store) (now : Z) (qs : list joined)
    (request : Request.t) (n m : Z) (r : joined) :
  Request.timeframe request = Some (Request.Integer n) ->
  n <= m ->
  answerable now (with_timeframe request (Request.Integer m)) = true ->
  result_set s now qs request r ->
  result_set s now qs (with_timeframe request (Request.Integer m)) r.
Proof.
  rewrite !result_set_iff. unfold admits, timedelta_days.
  destruct request as [aid uname tf tid ttl tg pg ipp];
    cbn [with_timeframe Request.author_id Request.author_username Request.timeframe
         Request.tag_id Request.title].
  intros -> Hnm Hwide (_ & Hin & Ha & Hu & Ht & Hg & Hl).
  split; [exact Hwide|]. split; [exact Hin|].
  split; [exact Ha|]. split; [exact Hu|]. split; [lia|]. split; assumption.
Qed.

Lemma X5_timeframe_monotone_witness :
  exists r,
    Request.timeframe (Only.timeframe (Request.Integer 7)) = Some (Request.Integer 7)
    /\ 7 <= 30
    /\ answerable Week.query_time
         (with_timeframe (Only.timeframe (Request.Integer 7)) (Request.Integer 30)) = true
    /\ result_set Week.store Week.query_time (select_related_author Week.store)
         (Only.timeframe (Request.Integer 7)) r
    /\ result_set Week.store Week.query_time (select_related_author Week.store)
         (with_timeframe (Only.timeframe (Request.Integer 7)) (Request.Integer 30)) r.
Proof.
  assert (H : exists r,
             result_set Week.store Week.query_time (select_related_author Week.store)
               (Only.timeframe (Request.Integer 7)) r).
  { unfold result_set. eexists. eexists. split; [vm_compute; reflexivity|].
    left. reflexivity. }
  destruct H as [r Hr]. exists r.
  split; [reflexivity|]. split; [lia|]. split; [reflexivity|]. split; [exact Hr|].
  apply (X5_timeframe_monotone _ _ _ (Only.timeframe (Request.Integer 7)) 7 30 r);
    [reflexivity | lia | reflexivity | exact Hr].
Defined.

(** What [paginate_queryset] answers, by the page asked for. *)
Lemma paginate_queryset_cases {A : Type} (queryset : list A) (request : Request.t) :
  let size := CustomPagination.get_page_size request in
  let T := Z.of_nat (length queryset) in
  let pages := CustomPagination.num_pages T size in
  CustomPagination.paginate_queryset queryset request
  = match CustomPagination.get_page_number request T size with
    | Some number =>
        if (1 <=? number) && (number <=? pages)
        then Py.Ok (Some (firstn (Z.to_nat size)
                            (skipn (Z.to_nat ((number - 1) * size)) queryset)))
        else Py.Raise Py.NotFound
    | None => Py.Raise Py.NotFound
    end.
Proof.
  intros size T pages.
  pose proof (get_page_size_range request) as Hsize. fold size in Hsize.
  unfold CustomPagination.paginate_queryset. fold size T.
  assert (Hnz : (size =? 0) = false) by lia. rewrite Hnz.
  destruct (CustomPagination.get_page_number request T size) as [number|];
    [|reflexivity].
  fold pages.
  destruct (number <? 1) eqn:H1.
  - assert (E : (1 <=? number) = false) by lia. rewrite E. reflexivity.
  - assert (E : (1 <=? number) = true) by lia. rewrite E. cbn [andb].
    destruct (number >? pages) eqn:H2.
    + assert (E2 : (number <=? pages) = false) by lia. rewrite E2. reflexivity.
    + assert (E2 : (number <=? pages) = true) by lia. rewrite E2.
      rewrite page_slice by lia. reflexivity.
Qed.

(** Enriching keeps the rows and their order. *)
Lemma enrich_rows (s : Store) (data : list joined) :
  exists out,
    ContentAPIView._insert_additional_data_point s data = Py.Ok out
    /\ map envelope out = data.
Proof.
  induction data as [|d rest IH]; cbn [ContentAPIView._insert_additional_data_point].
  - exists []. split; reflexivity.
  - destruct IH as (es & Hes & Hrows).
    unfold ContentAPIView.insert_data_point.
    destruct (Content.view_count (fst d) >? 0) eqn:Hv.
    + unfold Py.truediv.
      assert (Hnz : (Content.view_count (fst d) =? 0) = false) by lia.
      rewrite Hnz. cbn [Py.bind]. rewrite Hes. cbn [Py.bind].
      eexists. split; [reflexivity|]. cbn [map]. rewrite Hrows.
      unfold envelope. cbn. by destruct d.
    + cbn [Py.bind]. rewrite Hes. cbn [Py.bind].
      eexists. split; [reflexivity|]. cbn [map]. rewrite Hrows.
      unfold envelope. cbn. by destruct d.
Qed.

(** X6: the listing raises [ValueError] or [OverflowError] when a numeric
    parameter is no integer or the timeframe is out of range, and the
    filters raise it; when they answer, it raises nothing but [NotFound],
    and that exactly when the page asked for is no integer or lies outside
    1..pages; otherwise it answers with at most 100 entries, built in order
    from the rows [(page-1)*size, page*size) of the filtered join. *)
Theorem X6_listing_answer (s : Store) (now : Z) (request : Request.t) :
  match ContentAPIView._build_filters s now (select_related_author s) request with
  | Py.Raise e =>
      answerable now request = false
      /\ (e = Py.ValueError \/ e = Py.OverflowError)
      /\ ContentAPIView.get s now request = Py.Raise e
  | Py.Ok rows =>
      answerable now request = true
      /\ let size := CustomPagination.get_page_size request in
         let T := Z.of_nat (length rows) in
         let pages := CustomPagination.num_pages T size in
         match CustomPagination.get_page_number request T size with
         | Some number =>
             if (1 <=? number) && (number <=? pages)
             then exists page,
                    ContentAPIView.get s now request = Py.Ok page
                    /\ map envelope page
                       = firstn (Z.to_nat size)
                           (skipn (Z.to_nat ((number - 1) * size)) rows)
                    /\ (length page <= 100)%nat
             else ContentAPIView.get s now request = Py.Raise Py.NotFound
         | None => ContentAPIView.get s now request = Py.Raise Py.NotFound
         end
  end.
Proof.
  unfold ContentAPIView.get.
  destruct (ContentAPIView._build_filters s now (select_related_author s) request)
    as [rows|e] eqn:Hrows.
  - split; [exact (build_filters_Ok_answerable _ _ _ _ _ Hrows)|].
    set (size := CustomPagination.get_page_size request).
    set (T := Z.of_nat (length rows)).
    set (pages := CustomPagination.num_pages T size).
    cbn [Py.bind].
    pose proof (paginate_queryset_cases rows request) as Hp. cbv zeta in Hp.
    fold size T pages in Hp. rewrite Hp.
    destruct (CustomPagination.get_page_number request T size) as [number|];
      [|reflexivity].
    destruct ((1 <=? number) && (number <=? pages)); [|reflexivity].
    cbn [Py.bind].
    destruct (enrich_rows s (firstn (Z.to_nat size)
                               (skipn (Z.to_nat ((number - 1) * size)) rows)))
      as (page & Hpage & Hmap).
    exists page. split; [exact Hpage|]. split; [exact Hmap|].
    rewrite <- (length_map envelope), Hmap, length_firstn.
    pose proof (get_page_size_range request) as Hsize. fold size in Hsize. lia.
  - destruct (answerable now request) eqn:Ha.
    + destruct (build_filters_answered s now (select_related_author s) request Ha)
        as (rows & Hok & _). congruence.
    + destruct (build_filters_refused s now (select_related_author s) request Ha)
        as (e' & He' & Hkind).
      assert (e' = e) by congruence. subst e'.
      split; [reflexivity|]. split; [exact Hkind | reflexivity].
Qed.



(** ** The tags of an entry *)

Lemma flat_map_bind {A B : Type} (f : A -> list B) (l : list A) :
  flat_map f l = l ≫= f.
Proof. induction l as [|x l IH]; [reflexivity|]. cbn. by rewrite IH. Qed.

Lemma NoDup_List_filter {A : Type} (p : A -> bool) (l : list A) :
  NoDup l -> NoDup (List.filter p l).
Proof.
  induction 1 as [|x l Hx Hl IH]; [constructor|]. cbn.
  destruct (p x); [|exact IH]. constructor; [|exact IH].
  intros Hin. apply Hx. apply list_elem_of_In in Hin.
  apply filter_In in Hin as [Hin _]. by apply list_elem_of_In.
Qed.

Lemma content_tag_names_linked (s : Store) (cid : Z) (name : string) :
  name ∈ ContentAPIView.content_tag_names s cid <-> linked s name cid.
Proof.
  unfold ContentAPIView.content_tag_names, linked.
  rewrite list_elem_of_In, in_flat_map. split.
  - intros (ct & Hct & Hn). apply filter_In in Hct as [Hct Hc].
    apply in_map_iff in Hn as (t & Hname & Ht).
    apply filter_In in Ht as [Ht Hid].
    exists t, ct. rewrite !list_elem_of_In. unfold link_pair.
    repeat split; try assumption. f_equal; lia.
  - intros (t & ct & Ht & Hname & Hct & Hpair).
    unfold link_pair in Hpair. injection Hpair as Htid Hcid.
    exists ct. split.
    + apply filter_In. split; [by apply list_elem_of_In | lia].
    + apply in_map_iff. exists t. split; [assumption|].
      apply filter_In. split; [by apply list_elem_of_In | lia].
Qed.

Lemma content_tag_names_NoDup (s : Store) (cid : Z) :
  wf s -> NoDup (ContentAPIView.content_tag_names s cid).
Proof.
  intros (Hapk & Haseq & Htpk & Htseq & Hfk & Hau & Hcu & Htu & Hlu).
  unfold ContentAPIView.content_tag_names. rewrite flat_map_bind.
  apply NoDup_bind.
  - intros ct1 ct2 name H1 H2 Hn1 Hn2.
    apply list_elem_of_In, filter_In in H1 as [H1 Hc1].
    apply list_elem_of_In, filter_In in H2 as [H2 Hc2].
    apply list_elem_of_In, in_map_iff in Hn1 as (t1 & Hname1 & Ht1).
    apply list_elem_of_In, in_map_iff in Hn2 as (t2 & Hname2 & Ht2).
    apply filter_In in Ht1 as [Ht1 Hid1]. apply filter_In in Ht2 as [Ht2 Hid2].
    assert (t1 = t2).
    { apply (NoDup_key_inj Tag.name (tags s)); try assumption;
        [by apply list_elem_of_In | by apply list_elem_of_In | congruence]. }
    subst t2.
    apply (NoDup_key_inj link_pair (contenttags s)); try assumption;
      [by apply list_elem_of_In | by apply list_elem_of_In |].
    unfold link_pair. f_equal; lia.
  - intros ct _.
    destruct (filter_at_most_one Tag.id
                (fun t => Tag.id t =? ContentTag.tag_id ct)
                (ContentTag.tag_id ct) (tags s) Htpk) as [-> | [t ->]].
    + intros x _ Hx. lia.
    + constructor.
    + apply NoDup_singleton.
  - apply NoDup_List_filter. by apply (NoDup_fmap_1 link_pair).
Qed.

(** X8: on a well-formed store the tag names attached to an entry are the
    names of the tags linked to its content, none of them twice. *)
Theorem X8_tag_names_distinct (s : Store) (cid : Z) :
  wf s ->
  NoDup (ContentAPIView.content_tag_names s cid)
  /\ forall name,
       name ∈ ContentAPIView.content_tag_names s cid <-> linked s name cid.
Proof.
  intros Hwf. split; [by apply content_tag_names_NoDup|].
  intros name. apply content_tag_names_linked.
Qed.

Lemma X8_tag_names_distinct_witness :
  wf Scenario.two_contents
  /\ NoDup (ContentAPIView.content_tag_names Scenario.two_contents 1)
  /\ forall name,
       name ∈ ContentAPIView.content_tag_names Scenario.two_contents 1
       <-> linked Scenario.two_contents name 1.
Proof.
  assert (H : wf Scenario.two_contents).
  { apply (bool_decide_unpack _). vm_compute. exact I. }
  split; [exact H|]. exact (X8_tag_names_distinct Scenario.two_contents 1 H).
Defined.

(** ** Ingestion: what a request adds and what it leaves *)

Lemma extends_refl (s : Store) : extends s s.
Proof. repeat split; exists []; by rewrite app_nil_r. Qed.

Lemma extends_trans (s1 s2 s3 : Store) : extends s1 s2 -> extends s2 s3 -> extends s1 s3.
Proof.
  intros ([a1 A1] & [c1 C1] & [t1 T1] & [l1 L1]) ([a2 A2] & [c2 C2] & [t2 T2] & [l2 L2]).
  repeat split.
  - exists (a1 ++ a2)%list. by rewrite A2, A1, app_assoc.
  - exists (c1 ++ c2)%list. by rewrite C2, C1, app_assoc.
  - exists (t1 ++ t2)%list. by rewrite T2, T1, app_assoc.
  - exists (l1 ++ l2)%list. by rewrite L2, L1, app_assoc.
Qed.

Lemma objects_get_ok_inv {A : Type} (cond : A -> bool) (l : list A) (a : A) :
  objects_get cond l = Py.Ok a -> a ∈ l /\ cond a = true.
Proof.
  unfold objects_get. destruct (List.filter cond l) as [|x [|y rest]] eqn:Hf;
    try discriminate.
  intros [= ->]. assert (Hin : In a (List.filter cond l)) by (rewrite Hf; by left).
  apply filter_In in Hin as [Hin Hc]. split; [by apply list_elem_of_In | exact Hc].
Qed.

Lemma get_or_create_author_extends (d : Z) (s s' : Store) (au : Payload.author)
    (ao : Author.row) :
  ContentAPIView._get_or_create_author d s au = Py.Ok (s', ao) -> extends s s'.
Proof.
  unfold ContentAPIView._get_or_create_author.
  destruct (objects_get _ (authors s)) as [a|[]]; try discriminate.
  - intros [= <- _]. apply extends_refl.
  - destruct (objects_get _ _); cbn; [|discriminate]. intros [= <- _].
    repeat split; cbn; [eexists; reflexivity | exists []; by rewrite app_nil_r..].
Qed.

Lemma get_or_create_content_extends (s s' : Store) (now : Z) (content : Payload.t)
    (ao : Author.row) (c : Content.row) :
  ContentAPIView._get_or_create_content s now content ao = Py.Ok (s', c) ->
  extends s s'.
Proof.
  unfold ContentAPIView._get_or_create_content.
  destruct (objects_get _ (contents s)) as [a|[]]; try discriminate.
  - intros [= <- _]. apply extends_refl.
  - destruct (objects_get _ _); cbn; [|discriminate]. intros [= <- _].
    repeat split; cbn; [exists []; by rewrite app_nil_r | eexists; reflexivity
                       | exists []; by rewrite app_nil_r..].
Qed.

Lemma update_tag_mapping_extends (s s' : Store) (tag : string) (c : Content.row) :
  ContentAPIView.update_tag_mapping s tag c = Py.Ok s' -> extends s s'.
Proof.
  unfold ContentAPIView.update_tag_mapping. cbv zeta.
  assert (Hlink : forall s1 t,
             match objects_get
                     (fun ct => (ContentTag.tag_id ct =? Tag.id t)
                                && (ContentTag.content_id ct =? Content.id c))
                     (contenttags s1) with
             | Py.Ok _ => Py.Ok s1
             | Py.Raise Py.DoesNotExist =>
                 Py.Ok (ContentAPIView.create_contenttag s1 t c)
             | Py.Raise e => Py.Raise e
             end = Py.Ok s' -> extends s1 s').
  { intros s1 t. destruct (objects_get _ _) as [ct|[]]; try discriminate.
    - intros [= <-]. apply extends_refl.
    - intros [= <-]. repeat split; cbn;
        [exists []; by rewrite app_nil_r.. | eexists; reflexivity]. }
  destruct (objects_get _ (tags s)) as [t|[]]; cbn [Py.bind]; try discriminate.
  - apply Hlink.
  - destruct (objects_get _ _) as [t|]; cbn [Py.bind]; [|discriminate].
    intros H. apply Hlink in H. eapply extends_trans; [|exact H].
    repeat split; cbn;
      [exists []; by rewrite app_nil_r.. | eexists; reflexivity
      | exists []; by rewrite app_nil_r].
Qed.

Lemma update_tags_mapping_extends (names : list string) (c : Content.row) (s s' : Store) :
  ContentAPIView._update_tags_mapping s names c = Py.Ok s' -> extends s s'.
Proof.
  revert s. induction names as [|tag rest IH]; intros s; cbn.
  - intros [= <-]. apply extends_refl.
  - destruct (ContentAPIView.update_tag_mapping s tag c) as [s1|] eqn:E;
      cbn; [|discriminate].
    intros H. eapply extends_trans; [by eapply update_tag_mapping_extends | by apply IH].
Qed.

(** X9: a request that is answered leaves every row that was there where it
    was and as it was; each table of the new store is the old table with
    rows added at the end. *)
Theorem X9_post_only_appends (d : Z) (s s' : Store) (now : Z) (data : Payload.t)
    (answer : joined) :
  ContentAPIView.post d s now data = Py.Ok (s', answer) ->
  extends s s'.
Proof.
  unfold ContentAPIView.post.
  destruct (ContentAPIView._get_or_create_author d s _) as [[sa ao]|] eqn:Ea;
    cbn [Py.bind]; [|discriminate].
  destruct (ContentAPIView._get_or_create_content sa now data ao) as [[sc c]|] eqn:Ec;
    cbn [Py.bind]; [|discriminate].
  destruct (ContentAPIView._update_tags_mapping sc _ c) as [st|] eqn:Et;
    cbn [Py.bind]; [|discriminate].
  destruct (objects_get _ _); cbn [Py.bind]; [|discriminate].
  intros [= <- _].
  eapply extends_trans; [by eapply get_or_create_author_extends|].
  eapply extends_trans; [by eapply get_or_create_content_extends|].
  by eapply update_tags_mapping_extends.
Qed.

Lemma X9_post_only_appends_witness :
  exists answer,
    ContentAPIView.post 0 Scenario.one_content 200 Scenario.world
    = Py.Ok (Scenario.two_contents, answer)
    /\ extends Scenario.one_content Scenario.two_contents.
Proof.
  assert (H : exists answer,
             ContentAPIView.post 0 Scenario.one_content 200 Scenario.world
             = Py.Ok (Scenario.two_contents, answer)).
  { eexists. vm_compute. reflexivity. }
  destruct H as [answer H]. exists answer. split; [exact H|].
  exact (X9_post_only_appends 0 _ _ 200 Scenario.world answer H).
Defined.

(** The external ids the content stage leaves in the table. *)
Lemma get_or_create_content_ids (s s' : Store) (now : Z) (content : Payload.t)
    (ao : Author.row) (c : Content.row) :
  ContentAPIView._get_or_create_content s now content ao = Py.Ok (s', c) ->
  forall x,
    x ∈ (Content.unique_id <$> contents s')
    <-> x ∈ (Content.unique_id <$> contents s) \/ x = Payload.unq_external_id content.
Proof.
  unfold ContentAPIView._get_or_create_content.
  destruct (objects_get _ (contents s)) as [a|[]] eqn:E; try (intros H; discriminate H).
  - intros [= <- _] x. apply objects_get_ok_inv in E as [Hin Hc].
    apply String.eqb_eq in Hc. split; [auto|]. intros [H| ->]; [exact H|].
    rewrite <- Hc. by apply list_elem_of_fmap_2.
  - clear E. destruct (objects_get _ _); cbn; [|intros H; discriminate H]. intros [= <- _] x.
    cbn. rewrite fmap_app, elem_of_app. cbn. rewrite list_elem_of_singleton.
    reflexivity.
Qed.

Lemma get_or_create_author_ids (d : Z) (s s' : Store) (au : Payload.author)
    (ao : Author.row) :
  ContentAPIView._get_or_create_author d s au = Py.Ok (s', ao) ->
  forall x,
    x ∈ (Author.unique_id <$> authors s')
    <-> x ∈ (Author.unique_id <$> authors s) \/ x = Payload.unique_external_id au.
Proof.
  unfold ContentAPIView._get_or_create_author.
  destruct (objects_get _ (authors s)) as [a|[]] eqn:E; try (intros H; discriminate H).
  - intros [= <- _] x. apply objects_get_ok_inv in E as [Hin Hc].
    apply String.eqb_eq in Hc. split; [auto|]. intros [H| ->]; [exact H|].
    rewrite <- Hc. by apply list_elem_of_fmap_2.
  - clear E. destruct (objects_get _ _); cbn; [|intros H; discriminate H]. intros [= <- _] x.
    cbn. rewrite fmap_app, elem_of_app. cbn. rewrite list_elem_of_singleton.
    reflexivity.
Qed.

(** On a well-formed store a request is answered, the store stays well
    formed, and the answer is the content of the payload's external id with
    the author its foreign key names. *)
Lemma post_ok (d : Z) (s : Store) (now : Z) (data : Payload.t) :
  wf s ->
  exists s' c a,
    ContentAPIView.post d s now data = Py.Ok (s', (c, a))
    /\ wf s'
    /\ c ∈ contents s'
    /\ Content.unique_id c = Payload.unq_external_id data
    /\ a ∈ authors s'
    /\ Author.id a = Content.author_id c
    /\ (forall name, name ∈ Payload.hashtags data -> linked s' name (Content.id c))
    /\ (forall x, x ∈ (Content.unique_id <$> contents s')
                  <-> x ∈ (Content.unique_id <$> contents s)
                      \/ x = Payload.unq_external_id data)
    /\ (forall x, x ∈ (Author.unique_id <$> authors s')
                  <-> x ∈ (Author.unique_id <$> authors s)
                      \/ x = Payload.unique_external_id (Payload.author_of data)).
Proof.
  intros Hwf.
  destruct (get_or_create_author_spec d s (Payload.author_of data) Hwf)
    as (sa & ao & Epa & Hwfa & Hao & Hkao & Hca & _ & _).
  destruct (get_or_create_content_spec sa now data ao Hwfa Hao)
    as (sc & c & Epc & Hwfc & Hc & Hkc & Hac & _ & _).
  destruct (update_tags_mapping_spec (Payload.hashtags data) c sc Hwfc)
    as (st & Ept & Hwft & Hat & Hct & Hlinked & _).
  assert (Hc' : c ∈ contents st) by (rewrite Hct; assumption).
  destruct (content_author_lookup st c Hwft Hc') as (a & Epk).
  exists st, c, a. split.
  { unfold ContentAPIView.post. rewrite Epa. cbn [Py.bind].
    rewrite Epc. cbn [Py.bind]. rewrite Ept. cbn [Py.bind].
    rewrite Epk. reflexivity. }
  apply objects_get_ok_inv in Epk as [Ha Hid]. apply Z.eqb_eq in Hid.
  split; [exact Hwft|]. split; [exact Hc'|]. split; [exact Hkc|].
  split; [exact Ha|]. split; [exact Hid|]. split; [exact Hlinked|]. split.
  - intros x. rewrite Hct, <- Hca.
    apply (get_or_create_content_ids _ _ _ _ _ _ Epc).
  - intros x. rewrite Hat, Hac.
    apply (get_or_create_author_ids _ _ _ _ _ Epa).
Qed.

(** X10: any run of requests, started on the empty store, is answered to
    the end; the store it leaves is well formed and holds a content for
    exactly the external ids the payloads carried, and an author for exactly
    the author ids they carried. *)
Theorem X10_any_feed_is_ingested (d : Z) (requests : list (Z * Payload.t)) :
  exists s,
    post_all d empty_store requests = Py.Ok s
    /\ wf s
    /\ (forall x, x ∈ (Content.unique_id <$> contents s)
                  <-> x ∈ ((fun q => Payload.unq_external_id (snd q)) <$> requests))
    /\ (forall x, x ∈ (Author.unique_id <$> authors s)
                  <-> x ∈ ((fun q => Payload.unique_external_id
                                       (Payload.author_of (snd q))) <$> requests)).
Proof.
  assert (Hgen : forall s0, wf s0 ->
            exists s,
              post_all d s0 requests = Py.Ok s
              /\ wf s
              /\ (forall x, x ∈ (Content.unique_id <$> contents s)
                            <-> x ∈ (Content.unique_id <$> contents s0)
                                \/ x ∈ ((fun q => Payload.unq_external_id (snd q))
                                          <$> requests))
              /\ (forall x, x ∈ (Author.unique_id <$> authors s)
                            <-> x ∈ (Author.unique_id <$> authors s0)
                                \/ x ∈ ((fun q => Payload.unique_external_id
                                                    (Payload.author_of (snd q)))
                                          <$> requests))).
  { induction requests as [|[now data] rest IH]; intros s0 Hwf.
    - exists s0. cbn. split; [reflexivity|]. split; [assumption|].
      split; intros x; rewrite elem_of_nil; tauto.
    - destruct (post_ok d s0 now data Hwf)
        as (s1 & c & a & Hpost & Hwf1 & _ & _ & _ & _ & _ & Hcids & Haids).
      destruct (IH s1 Hwf1) as (s & Hall & Hwfs & Hc & Ha).
      exists s. cbn [post_all]. rewrite Hpost. cbn [Py.bind].
      split; [exact Hall|]. split; [exact Hwfs|].
      split; intros x; rewrite fmap_cons, elem_of_cons; cbn [snd].
      + rewrite Hc, Hcids. tauto.
      + rewrite Ha, Haids. tauto. }
  destruct (Hgen empty_store) as (s & Hall & Hwfs & Hc & Ha).
  { apply (bool_decide_unpack _). vm_compute. exact I. }
  exists s. split; [exact Hall|]. split; [exact Hwfs|].
  split; intros x; [rewrite Hc | rewrite Ha]; cbn; rewrite elem_of_nil; tauto.
Qed.

(** X11: a payload whose content id the store does not know yet is stored
    as sent: the answer carries the payload's url, title, thumbnail and four
    counters, is stamped with the time of the request, and belongs to the
    author with the payload's author id. *)
Theorem X11_new_content_as_sent (d : Z) (s : Store) (now : Z) (data : Payload.t) :
  wf s ->
  Payload.unq_external_id data ∉ (Content.unique_id <$> contents s) ->
  exists s' c a,
    ContentAPIView.post d s now data = Py.Ok (s', (c, a))
    /\ Content.unique_id c = Payload.unq_external_id data
    /\ Content.url c = Payload.url data
    /\ Content.title c = Payload.title data
    /\ Content.thumbnail_url c = Payload.thumbnail_url data
    /\ Content.like_count c = Payload.likes (Payload.stats_of data)
    /\ Content.comment_count c = Payload.comments (Payload.stats_of data)
    /\ Content.view_count c = Payload.views (Payload.stats_of data)
    /\ Content.share_count c = Payload.shares (Payload.stats_of data)
    /\ Content.timestamp c = now
    /\ Author.unique_id a = Payload.unique_external_id (Payload.author_of data).
Proof.
  intros Hwf Hnew.
  destruct (get_or_create_author_spec d s (Payload.author_of data) Hwf)
    as (sa & ao & Epa & Hwfa & Hao & Hkao & Hca & _ & _).
  assert (Hnone : List.filter
                    (fun c => String.eqb (Content.unique_id c)
                                (Payload.unq_external_id data)) (contents sa) = []).
  { apply filter_none. intros x Hx. destruct (String.eqb _ _) eqn:E; [|reflexivity].
    exfalso. apply Hnew. apply String.eqb_eq in E. rewrite <- E, <- Hca.
    by apply list_elem_of_fmap_2. }
  set (c := {| Content.id := next_content sa;
               Content.author_id := Author.id ao;
               Content.unique_id := Payload.unq_external_id data;
               Content.url := Payload.url data;
               Content.title := Payload.title data;
               Content.like_count := Payload.likes (Payload.stats_of data);
               Content.comment_count := Payload.comments (Payload.stats_of data);
               Content.view_count := Payload.views (Payload.stats_of data);
               Content.share_count := Payload.shares (Payload.stats_of data);
               Content.thumbnail_url := Payload.thumbnail_url data;
               Content.timestamp := now;
               Content.big_metadata := Payload.big_metadata data;
               Content.secret_value := Payload.secret_value data |}).
  assert (Epc : ContentAPIView._get_or_create_content sa now data ao
                = Py.Ok (ContentAPIView.create_content sa now data ao, c)).
  { unfold ContentAPIView._get_or_create_content.
    rewrite (objects_get_none _ _ Hnone).
    erewrite objects_get_one; [reflexivity|].
    cbn. rewrite List.filter_app, Hnone. cbn. rewrite String.eqb_refl. reflexivity. }
  destruct (get_or_create_content_spec sa now data ao Hwfa Hao)
    as (sc & c' & Epc' & Hwfc & Hc & _ & Hac & _ & _).
  rewrite Epc in Epc'. injection Epc' as <- <-.
  destruct (update_tags_mapping_spec (Payload.hashtags data) c _ Hwfc)
    as (st & Ept & Hwft & Hat & Hct & _ & _).
  assert (Hc' : c ∈ contents st) by (rewrite Hct; assumption).
  destruct (content_author_lookup st c Hwft Hc') as (a & Epk).
  exists st, c, a. split.
  { unfold ContentAPIView.post. rewrite Epa. cbn [Py.bind].
    rewrite Epc. cbn [Py.bind]. rewrite Ept. cbn [Py.bind].
    rewrite Epk. reflexivity. }
  do 9 (split; [reflexivity|]).
  apply objects_get_ok_inv in Epk as [Ha Hid]. apply Z.eqb_eq in Hid.
  pose proof Hwft as (Hapk & _).
  assert (a = ao); [|congruence].
  apply (NoDup_key_inj Author.id (authors st)); try assumption.
  rewrite Hat, Hac. assumption.
Qed.

Lemma X11_new_content_as_sent_witness :
  wf Scenario.one_content
  /\ (Payload.unq_external_id Scenario.world
        ∉ (Content.unique_id <$> contents Scenario.one_content))
  /\ exists s' c a,
       ContentAPIView.post 0 Scenario.one_content 200 Scenario.world = Py.Ok (s', (c, a))
       /\ Content.unique_id c = Payload.unq_external_id Scenario.world
       /\ Content.url c = Payload.url Scenario.world
       /\ Content.title c = Payload.title Scenario.world
       /\ Content.thumbnail_url c = Payload.thumbnail_url Scenario.world
       /\ Content.like_count c = Payload.likes (Payload.stats_of Scenario.world)
       /\ Content.comment_count c = Payload.comments (Payload.stats_of Scenario.world)
       /\ Content.view_count c = Payload.views (Payload.stats_of Scenario.world)
       /\ Content.share_count c = Payload.shares (Payload.stats_of Scenario.world)
       /\ Content.timestamp c = 200
       /\ Author.unique_id a
          = Payload.unique_external_id (Payload.author_of Scenario.world).
Proof.
  assert (H1 : wf Scenario.one_content).
  { apply (bool_decide_unpack _). vm_compute. exact I. }
  assert (H2 : Payload.unq_external_id Scenario.world
                 ∉ (Content.unique_id <$> contents Scenario.one_content)).
  { apply (bool_decide_unpack _). vm_compute. exact I. }
  split; [exact H1|]. split; [exact H2|].
  exact (X11_new_content_as_sent 0 Scenario.one_content 200 Scenario.world H1 H2).
Defined.

(** X12: a payload whose content id is stored already changes no content
    row, whatever it carries: the answer is the stored row with the author
    that row points at, not the author of the payload. *)
Theorem X12_known_content_untouched (d : Z) (s : Store) (now : Z) (data : Payload.t)
    (c : Content.row) :
  wf s ->
  c ∈ contents s ->
  Content.unique_id c = Payload.unq_external_id data ->
  exists s' a,
    ContentAPIView.post d s now data = Py.Ok (s', (c, a))
    /\ contents s' = contents s
    /\ Author.id a = Content.author_id c.
Proof.
  intros Hwf Hc Hk.
  destruct (get_or_create_author_spec d s (Payload.author_of data) Hwf)
    as (sa & ao & Epa & Hwfa & Hao & Hkao & Hca & _ & _).
  assert (Hca' : c ∈ contents sa) by (rewrite Hca; assumption).
  pose proof (get_or_create_content_present sa now data ao c Hwfa Hca' Hk) as Epc.
  destruct (update_tags_mapping_spec (Payload.hashtags data) c sa Hwfa)
    as (st & Ept & Hwft & Hat & Hct & _ & _).
  assert (Hc' : c ∈ contents st) by (rewrite Hct; assumption).
  destruct (content_author_lookup st c Hwft Hc') as (a & Epk).
  exists st, a. split.
  { unfold ContentAPIView.post. rewrite Epa. cbn [Py.bind].
    rewrite Epc. cbn [Py.bind]. rewrite Ept. cbn [Py.bind].
    rewrite Epk. reflexivity. }
  split; [congruence|].
  apply objects_get_ok_inv in Epk as [_ Hid]. by apply Z.eqb_eq in Hid.
Qed.

Lemma X12_known_content_untouched_witness :
  wf Scenario.one_content
  /\ More.hello_row ∈ contents Scenario.one_content
  /\ Content.unique_id More.hello_row = Payload.unq_external_id More.hello_by_eve
  /\ exists s' a,
       ContentAPIView.post 0 Scenario.one_content 200 More.hello_by_eve
       = Py.Ok (s', (More.hello_row, a))
       /\ contents s' = contents Scenario.one_content
       /\ Author.id a = Content.author_id More.hello_row.
Proof.
  assert (H1 : wf Scenario.one_content).
  { apply (bool_decide_unpack _). vm_compute. exact I. }
  assert (H2 : More.hello_row ∈ contents Scenario.one_content).
  { vm_compute. apply list_elem_of_here. }
  split; [exact H1|]. split; [exact H2|]. split; [reflexivity|].
  exact (X12_known_content_untouched 0 Scenario.one_content 200 More.hello_by_eve
           More.hello_row H1 H2 eq_refl).
Defined.

(** X13: a payload whose author id is stored already changes no author
    row: a new username, name, url or title in the payload is not kept. *)
Theorem X13_known_author_untouched (d : Z) (s : Store) (now : Z) (data : Payload.t)
    (ao : Author.row) :
  wf s ->
  ao ∈ authors s ->
  Author.unique_id ao = Payload.unique_external_id (Payload.author_of data) ->
  exists s' answer,
    ContentAPIView.post d s now data = Py.Ok (s', answer)
    /\ authors s' = authors s.
Proof.
  intros Hwf Hao Hk.
  pose proof (get_or_create_author_present d s (Payload.author_of data) ao Hwf Hao Hk)
    as Epa.
  destruct (get_or_create_content_spec s now data ao Hwf Hao)
    as (sc & c & Epc & Hwfc & Hc & _ & Hac & _ & _).
  destruct (update_tags_mapping_spec (Payload.hashtags data) c sc Hwfc)
    as (st & Ept & Hwft & Hat & Hct & _ & _).
  assert (Hc' : c ∈ contents st) by (rewrite Hct; assumption).
  destruct (content_author_lookup st c Hwft Hc') as (a & Epk).
  exists st, (c, a). split; [|congruence].
  unfold ContentAPIView.post. rewrite Epa. cbn [Py.bind].
  rewrite Epc. cbn [Py.bind]. rewrite Ept. cbn [Py.bind].
  rewrite Epk. reflexivity.
Qed.

Lemma X13_known_author_untouched_witness :
  wf Scenario.one_content
  /\ More.bob_row ∈ authors Scenario.one_content
  /\ Author.unique_id More.bob_row
     = Payload.unique_external_id (Payload.author_of More.third_by_renamed_bob)
  /\ Author.username More.bob_row
     <> Payload.unique_name (Payload.author_of More.third_by_renamed_bob)
  /\ exists s' answer,
       ContentAPIView.post 0 Scenario.one_content 200 More.third_by_renamed_bob
       = Py.Ok (s', answer)
       /\ authors s' = authors Scenario.one_content.
Proof.
  assert (H1 : wf Scenario.one_content).
  { apply (bool_decide_unpack _). vm_compute. exact I. }
  assert (H2 : More.bob_row ∈ authors Scenario.one_content).
  { vm_compute. apply list_elem_of_here. }
  split; [exact H1|]. split; [exact H2|]. split; [reflexivity|].
  split; [discriminate|].
  exact (X13_known_author_untouched 0 Scenario.one_content 200
           More.third_by_renamed_bob More.bob_row H1 H2 eq_refl).
Defined.

(** The tag loop over two lists is the loop over the first, then over the
    second. *)
Lemma update_tags_mapping_app (l1 l2 : list string) (c : Content.row) (s : Store) :
  ContentAPIView._update_tags_mapping s (l1 ++ l2) c
  = let! s' := ContentAPIView._update_tags_mapping s l1 c in
    ContentAPIView._update_tags_mapping s' l2 c.
Proof.
  revert s. induction l1 as [|tag rest IH]; intros s; [reflexivity|].
  cbn [app ContentAPIView._update_tags_mapping].
  destruct (ContentAPIView.update_tag_mapping s tag c); cbn [Py.bind];
    [apply IH | reflexivity].
Qed.

(** X14: on a well-formed store, naming a tag again later in the list adds
    nothing: the store after the longer list is the store after the list
    without the repetitions at its end. *)
Theorem X14_repeated_tags_add_nothing (s : Store) (l1 l2 : list string)
    (c : Content.row) :
  wf s ->
  (forall name, name ∈ l2 -> name ∈ l1) ->
  ContentAPIView._update_tags_mapping s (l1 ++ l2) c
  = ContentAPIView._update_tags_mapping s l1 c.
Proof.
  intros Hwf Hsub. rewrite update_tags_mapping_app.
  destruct (update_tags_mapping_spec l1 c s Hwf)
    as (s1 & -> & Hwf1 & _ & _ & Hlinked & _).
  cbn [Py.bind]. apply update_tags_mapping_present; [assumption|].
  intros name Hn. apply Hlinked, Hsub, Hn.
Qed.

Lemma X14_repeated_tags_add_nothing_witness :
  wf empty_store
  /\ (forall name, name ∈ ["x"] -> name ∈ ["x"; "y"])
  /\ ContentAPIView._update_tags_mapping empty_store (["x"; "y"] ++ ["x"]) More.hello_row
     = ContentAPIView._update_tags_mapping empty_store ["x"; "y"] More.hello_row.
Proof.
  assert (H1 : wf empty_store).
  { apply (bool_decide_unpack _). vm_compute. exact I. }
  assert (H2 : forall name : string, name ∈ ["x"] -> name ∈ ["x"; "y"]).
  { intros name Hn. apply list_elem_of_singleton in Hn. subst.
    apply list_elem_of_here. }
  split; [exact H1|]. split; [exact H2|].
  exact (X14_repeated_tags_add_nothing empty_store ["x"; "y"] ["x"] More.hello_row H1 H2).
Defined.

(** ** The tick: which contents, in which order *)

Lemma insert_desc_perm (r : joined) (l : list joined) :
  Tasks.insert_desc r l ≡ₚ r :: l.
Proof.
  induction l as [|x xs IH]; [reflexivity|]. cbn.
  destruct (_ <=? _); [reflexivity|]. rewrite IH. apply perm_swap.
Qed.

Lemma insert_desc_sorted (r : joined) (l : list joined) :
  newest_first l -> newest_first (Tasks.insert_desc r l).
Proof.
  unfold newest_first. induction l as [|x xs IH]; intros Hl; cbn.
  - constructor; constructor.
  - apply StronglySorted_cons in Hl as [Hx Hxs].
    destruct (Content.timestamp (fst x) <=? Content.timestamp (fst r)) eqn:E.
    + constructor; [by constructor|]. constructor; [lia|].
      eapply Forall_impl; [exact Hx|]. cbn. intros. lia.
    + constructor; [by apply IH|].
      rewrite insert_desc_perm. constructor; [lia | assumption].
Qed.

Lemma order_by_perm (l : list joined) : Tasks.order_by_timestamp_desc l ≡ₚ l.
Proof.
  unfold Tasks.order_by_timestamp_desc. induction l as [|x xs IH]; [reflexivity|].
  cbn. rewrite insert_desc_perm. by constructor.
Qed.

Lemma order_by_sorted (l : list joined) : newest_first (Tasks.order_by_timestamp_desc l).
Proof.
  unfold Tasks.order_by_timestamp_desc. induction l as [|x xs IH]; cbn.
  - constructor.
  - by apply insert_desc_sorted.
Qed.

(** X15: the contents a tick goes through are at most ten rows of the
    join, newest first, and no row left out is newer than one of them; with
    the rows left out they make up the join. *)
Theorem X15_tick_takes_ten_newest (s : Store) :
  let ordered := Tasks.order_by_timestamp_desc (select_related_author s) in
  let taken := firstn 10 ordered in
  let left_out := skipn 10 ordered in
  (length taken <= 10)%nat
  /\ newest_first taken
  /\ (taken ++ left_out)%list ≡ₚ select_related_author s
  /\ forall x y, x ∈ taken -> y ∈ left_out ->
                 Content.timestamp (fst y) <= Content.timestamp (fst x).
Proof.
  intros ordered taken left_out.
  pose proof (order_by_sorted (select_related_author s)) as Hs.
  fold ordered in Hs. unfold newest_first in Hs.
  rewrite <- (firstn_skipn 10 ordered) in Hs. fold taken left_out in Hs.
  apply StronglySorted_app in Hs as (Hcross & Ht & _).
  split; [unfold taken; rewrite length_firstn; lia|].
  split; [exact Ht|]. split; [|exact Hcross].
  unfold taken, left_out. rewrite firstn_skipn. apply order_by_perm.
Qed.

(** The calls a run adds are no more than the contents it went through. *)
Lemma loop_calls_bound (api : Tasks.collaborator) (time : Tasks.clock) (l : list joined)
    (st : Tasks.state) :
  exists new,
    Tasks.calls (fst (Tasks.loop api time l st)) = (Tasks.calls st ++ new)%list
    /\ (length new <= length l)%nat.
Proof.
  revert st. induction l as [|c l IH]; intros st.
  - exists []. cbn. rewrite app_nil_r. split; [reflexivity | lia].
  - assert (Hrec : forall s2,
              Tasks.calls s2 = (Tasks.calls st ++ [Tasks.body_of c])%list ->
              exists new,
                Tasks.calls (fst (Tasks.loop api time l s2)) = (Tasks.calls st ++ new)%list
                /\ (length new <= length (c :: l))%nat).
    { intros s2 Hs2. destruct (IH s2) as (new & E & Hlen).
      exists (Tasks.body_of c :: new). rewrite E, Hs2, <- app_assoc.
      split; [reflexivity | cbn; lia]. }
    cbn [Tasks.loop].
    destruct (Py.truthy _).
    { exists []. cbn. rewrite app_nil_r. split; [reflexivity | lia]. }
    destruct (api _ _) as [|code body].
    { exists [Tasks.body_of c]. split; [reflexivity | cbn; lia]. }
    destruct (code =? 200); [|apply Hrec; reflexivity].
    destruct body as [v|]; [apply Hrec; reflexivity|].
    exists [Tasks.body_of c]. split; [reflexivity | cbn; lia].
Qed.

(** X16: a tick keeps the calls made before it and adds at most ten, each
    with the id, title, url and author name of a row of the join. *)
Theorem X16_tick_calls_at_most_ten (api : Tasks.collaborator) (s : Store)
    (time : Tasks.clock) (st : Tasks.state) :
  exists new,
    Tasks.calls (fst (Tasks.generate_comment api s time st)) = (Tasks.calls st ++ new)%list
    /\ (length new <= 10)%nat
    /\ forall b, b ∈ new ->
         exists r, r ∈ select_related_author s /\ b = Tasks.body_of r.
Proof.
  unfold Tasks.generate_comment.
  set (l := firstn 10 (Tasks.order_by_timestamp_desc (select_related_author s))).
  destruct (loop_calls_from api time l st) as (new & E & Hfrom).
  destruct (loop_calls_bound api time l st) as (new' & E' & Hlen).
  rewrite E in E'. apply app_inv_head in E'. subst new'.
  exists new. split; [exact E|]. split.
  - etrans; [exact Hlen|]. unfold l. rewrite length_firstn. lia.
  - intros b Hb. destruct (Hfrom b Hb) as (r & Hr & ->). exists r.
    split; [|reflexivity]. rewrite <- order_by_perm.
    unfold l in Hr. by apply subseteq_take in Hr.
Qed.

(** ** The tick and the cache *)

(** A run neither drops an entry nor touches the key of a content it does
    not go through. *)
Lemma loop_cache_local (api : Tasks.collaborator) (time : Tasks.clock) (l : list joined)
    (st : Tasks.state) (k : string) :
  (is_Some (Tasks.cache st !! k) ->
   is_Some (Tasks.cache (fst (Tasks.loop api time l st)) !! k))
  /\ ((forall r, r ∈ l -> Tasks.key (Content.id (fst r)) <> k) ->
      Tasks.cache (fst (Tasks.loop api time l st)) !! k = Tasks.cache st !! k).
Proof.
  revert st. induction l as [|c l IH]; intros st; [split; auto|].
  cbn [Tasks.loop].
  destruct (Py.truthy _); [split; auto|].
  destruct (api _ _) as [|code body]; [split; auto|].
  assert (Hrest : forall P : joined -> Prop,
             (forall r, r ∈ c :: l -> P r) -> forall r, r ∈ l -> P r).
  { intros P H r Hr. apply H. apply elem_of_cons. auto. }
  destruct (code =? 200).
  - destruct body as [v|]; [|split; auto].
    match goal with
    | |- context [Tasks.loop api time l ?s2] => destruct (IH s2) as [H1 H2]
    end.
    split.
    + intros Hk. apply H1. cbn [Tasks.cache]. unfold Cache.set.
      destruct (decide (Tasks.key (Content.id (fst c)) = k)) as [->|Hne].
      * rewrite lookup_insert_eq. eauto.
      * by rewrite lookup_insert_ne.
    + intros Hk. rewrite H2 by (apply (Hrest _ Hk)). cbn [Tasks.cache].
      apply cache_set_other. apply Hk. apply elem_of_cons. auto.
  - match goal with
    | |- context [Tasks.loop api time l ?s2] => destruct (IH s2) as [H1 H2]
    end.
    split; [exact H1|]. intros Hk. apply H2. apply (Hrest _ Hk).
Qed.

(** X17: a tick never drops a cache entry, and it leaves alone every key
    that is not the key of a row of the join. *)
Theorem X17_tick_keeps_entries (api : Tasks.collaborator) (s : Store)
    (time : Tasks.clock) (st : Tasks.state) (k : string) :
  (is_Some (Tasks.cache st !! k) ->
   is_Some (Tasks.cache (fst (Tasks.generate_comment api s time st)) !! k))
  /\ ((forall r, r ∈ select_related_author s -> Tasks.key (Content.id (fst r)) <> k) ->
      Tasks.cache (fst (Tasks.generate_comment api s time st)) !! k
      = Tasks.cache st !! k).
Proof.
  unfold Tasks.generate_comment.
  set (l := firstn 10 (Tasks.order_by_timestamp_desc (select_related_author s))).
  destruct (loop_cache_local api time l st k) as [H1 H2].
  split; [exact H1|]. intros Hk. apply H2. intros r Hr. apply Hk.
  rewrite <- order_by_perm. unfold l in Hr. by apply subseteq_take in Hr.
Qed.

(** X18: when the service answers no call with status 200, a tick leaves
    the cache as it found it. *)
Theorem X18_no_success_no_write (api : Tasks.collaborator) (s : Store)
    (time : Tasks.clock) (st : Tasks.state) :
  never_ok api ->
  Tasks.cache (fst (Tasks.generate_comment api s time st)) = Tasks.cache st.
Proof.
  intros Hnever. unfold Tasks.generate_comment.
  generalize (firstn 10 (Tasks.order_by_timestamp_desc (select_related_author s))).
  intros l. revert st. induction l as [|c l IH]; intros st; [reflexivity|].
  cbn [Tasks.loop].
  destruct (Py.truthy _); [reflexivity|].
  pose proof (Hnever (Tasks.calls st) (Tasks.body_of c)) as Hc.
  destruct (api _ _) as [|code body]; [reflexivity|].
  assert (E : (code =? 200) = false) by lia. rewrite E.
  rewrite IH. reflexivity.
Qed.

Lemma X18_no_success_no_write_witness :
  never_ok Ticks.failing
  /\ Tasks.cache (fst (Tasks.generate_comment Ticks.failing Scenario.two_contents
                         (Tasks.at_time 500) Ticks.stale))
     = Tasks.cache Ticks.stale.
Proof.
  assert (H : never_ok Ticks.failing).
  { intros log body. cbn. lia. }
  split; [exact H|].
  exact (X18_no_success_no_write Ticks.failing Scenario.two_contents (Tasks.at_time 500)
           Ticks.stale H).
Defined.

(** An entry a run leaves under a key is one it found there or one it
    wrote, and what it wrote expires no later than 24 hours after its
    end. *)
Lemma loop_entries_bound (api : Tasks.collaborator) (time : Tasks.clock) (k : string)
    (bound : Z) (l : list joined) (st : Tasks.state) :
  Tasks.steady time ->
  (forall e, Tasks.cache st !! k = Some e -> Cache.expires e <= bound) ->
  Tasks.at_get time (Tasks.calls (fst (Tasks.loop api time l st))) + Tasks.timeout <= bound ->
  forall e,
    Tasks.cache (fst (Tasks.loop api time l st)) !! k = Some e ->
    Cache.expires e <= bound.
Proof.
  intros Hs. revert st. induction l as [|c l IH]; intros st Hst Hend; [exact Hst|].
  cbn [Tasks.loop] in Hend |- *.
  destruct (Py.truthy _); [exact Hst|].
  destruct (api _ _) as [|code body]; [exact Hst|].
  destruct (code =? 200).
  - destruct body as [v|]; [|exact Hst].
    match goal with
    | |- context [Tasks.loop api time l ?s2] =>
        pose proof (loop_time_le api time l s2 Hs) as Hle; apply (IH s2)
    end; [|exact Hend].
    cbn [Tasks.cache Tasks.calls] in Hle, Hend |- *. intros e.
    destruct (decide (Tasks.key (Content.id (fst c)) = k)) as [<-|Hne].
    + rewrite cache_set_same. intros [= <-]. cbn [Cache.expires].
      pose proof (steady_call time (Tasks.calls st) (Tasks.body_of c) Hs). lia.
    + rewrite cache_set_other by assumption. apply Hst.
  - match goal with
    | |- context [Tasks.loop api time l ?s2] => apply (IH s2)
    end; [exact Hst | exact Hend].
Qed.

(** X19: the answer for a content is kept no longer than 24 hours after
    the tick that stored it has ended: when the newest content is called in
    one tick and the next tick begins 24 hours or more after that tick
    ended, the next tick calls for it again. *)
Theorem X19_called_again_after_a_day (api : Tasks.collaborator) (s : Store)
    (time1 time2 : Tasks.clock) (st : Tasks.state) (c : joined) (rest : list joined) :
  firstn 10 (Tasks.order_by_timestamp_desc (select_related_author s)) = c :: rest ->
  Tasks.steady time1 ->
  Tasks.answers_truthy api (Content.id (fst c)) ->
  Tasks.live (Tasks.cache st) (Tasks.at_get time1 (Tasks.calls st))
    (Content.id (fst c)) = false ->
  let st1 := fst (Tasks.generate_comment api s time1 st) in
  let st2 := fst (Tasks.generate_comment api s time2 st1) in
  Tasks.at_get time1 (Tasks.calls st1) + 86400 <= Tasks.at_get time2 (Tasks.calls st1) ->
  (S (length (Tasks.calls_for (Content.id (fst c)) (Tasks.calls st)))
   <= length (Tasks.calls_for (Content.id (fst c)) (Tasks.calls st1)))%nat
  /\ (S (length (Tasks.calls_for (Content.id (fst c)) (Tasks.calls st1)))
      <= length (Tasks.calls_for (Content.id (fst c)) (Tasks.calls st2)))%nat.
Proof.
  intros Hlist Hs Hok Hdead st1 st2 Hlate. subst st1 st2.
  unfold Tasks.generate_comment in *. rewrite Hlist in *.
  set (st1 := fst (Tasks.loop api time1 (c :: rest) st)) in *.
  assert (Hhead : forall time st0,
             Tasks.live (Tasks.cache st0) (Tasks.at_get time (Tasks.calls st0))
               (Content.id (fst c)) = false ->
             exists v,
               Tasks.loop api time (c :: rest) st0
               = Tasks.loop api time rest
                   {| Tasks.cache :=
                        Cache.set (Tasks.cache st0)
                          (Tasks.at_set time (Tasks.calls st0 ++ [Tasks.body_of c])%list)
                          (Tasks.key (Content.id (fst c))) v Tasks.timeout;
                      Tasks.calls := Tasks.calls st0 ++ [Tasks.body_of c] |}).
  { intros time st0 Hd. cbn [Tasks.loop]. unfold Tasks.live in Hd. rewrite Hd.
    destruct (Hok (Tasks.calls st0) (Tasks.body_of c) eq_refl) as (v & -> & _).
    exists v. reflexivity. }
  assert (Hgrow : forall time st0,
             Tasks.live (Tasks.cache st0) (Tasks.at_get time (Tasks.calls st0))
               (Content.id (fst c)) = false ->
             (S (length (Tasks.calls_for (Content.id (fst c)) (Tasks.calls st0)))
              <= length (Tasks.calls_for (Content.id (fst c))
                           (Tasks.calls (fst (Tasks.loop api time (c :: rest) st0)))))%nat).
  { intros time st0 Hd. destruct (Hhead time st0 Hd) as (v & ->).
    etrans; [|apply loop_calls_for_grow]. cbn [Tasks.calls].
    rewrite calls_for_snoc_same by reflexivity. rewrite length_app. cbn. lia. }
  split; [exact (Hgrow time1 st Hdead)|].
  apply (Hgrow time2 st1).
  assert (Hbound : forall e,
             Tasks.cache st1 !! Tasks.key (Content.id (fst c)) = Some e ->
             Cache.expires e <= Tasks.at_get time1 (Tasks.calls st1) + Tasks.timeout).
  { unfold st1. destruct (Hhead time1 st Hdead) as (v & E). rewrite E.
    match goal with
    | |- context [Tasks.loop api time1 rest ?s2] =>
        pose proof (loop_time_le api time1 rest s2 Hs) as Hle;
        apply (loop_entries_bound api time1 _ _ rest s2 Hs); [|lia]
    end.
    cbn [Tasks.cache Tasks.calls] in Hle |- *. intros e.
    rewrite cache_set_same. intros [= <-]. cbn [Cache.expires].
    pose proof (steady_call time1 (Tasks.calls st) (Tasks.body_of c) Hs). lia. }
  unfold Tasks.live, Cache.get.
  destruct (Tasks.cache st1 !! Tasks.key (Content.id (fst c))) as [e|] eqn:He;
    [|reflexivity].
  specialize (Hbound e eq_refl).
  assert (E : (Tasks.at_get time2 (Tasks.calls st1) <? Cache.expires e) = false)
    by (unfold Tasks.timeout in Hbound; lia).
  rewrite E. reflexivity.
Qed.

Lemma X19_called_again_after_a_day_witness :
  exists c rest,
    firstn 10 (Tasks.order_by_timestamp_desc (select_related_author Scenario.two_contents))
    = c :: rest
    /\ Tasks.steady (Tasks.paced 0 0 10)
    /\ Tasks.answers_truthy Ticks.comment (Content.id (fst c))
    /\ Tasks.live (Tasks.cache Ticks.fresh)
         (Tasks.at_get (Tasks.paced 0 0 10) (Tasks.calls Ticks.fresh))
         (Content.id (fst c)) = false
    /\ (let st1 := fst (Tasks.generate_comment Ticks.comment Scenario.two_contents
                          (Tasks.paced 0 0 10) Ticks.fresh) in
        let st2 := fst (Tasks.generate_comment Ticks.comment Scenario.two_contents
                          (Tasks.paced 86420 2 10) st1) in
        Tasks.at_get (Tasks.paced 0 0 10) (Tasks.calls st1) + 86400
        <= Tasks.at_get (Tasks.paced 86420 2 10) (Tasks.calls st1)
        /\ (S (length (Tasks.calls_for (Content.id (fst c)) (Tasks.calls Ticks.fresh)))
            <= length (Tasks.calls_for (Content.id (fst c)) (Tasks.calls st1)))%nat
        /\ (S (length (Tasks.calls_for (Content.id (fst c)) (Tasks.calls st1)))
            <= length (Tasks.calls_for (Content.id (fst c)) (Tasks.calls st2)))%nat).
Proof.
  assert (H : exists c rest,
             firstn 10 (Tasks.order_by_timestamp_desc
                          (select_related_author Scenario.two_contents)) = c :: rest).
  { eexists _, _. reflexivity. }
  destruct H as (c & rest & Hlist). exists c, rest.
  assert (Hs : Tasks.steady (Tasks.paced 0 0 10)) by (apply paced_steady; lia).
  assert (Hok : Tasks.answers_truthy Ticks.comment (Content.id (fst c))).
  { intros log body _. eexists. split; reflexivity. }
  assert (Hdead : Tasks.live (Tasks.cache Ticks.fresh)
                    (Tasks.at_get (Tasks.paced 0 0 10) (Tasks.calls Ticks.fresh))
                    (Content.id (fst c)) = false).
  { reflexivity. }
  split; [exact Hlist|]. split; [exact Hs|]. split; [exact Hok|]. split; [exact Hdead|].
  assert (Hlate : Tasks.at_get (Tasks.paced 0 0 10)
                    (Tasks.calls
                       (fst (Tasks.generate_comment Ticks.comment Scenario.two_contents
                               (Tasks.paced 0 0 10) Ticks.fresh))) + 86400
                  <= Tasks.at_get (Tasks.paced 86420 2 10)
                       (Tasks.calls
                          (fst (Tasks.generate_comment Ticks.comment Scenario.two_contents
                                  (Tasks.paced 0 0 10) Ticks.fresh)))).
  { vm_compute. discriminate. }
  split; [exact Hlate|].
  exact (X19_called_again_after_a_day Ticks.comment Scenario.two_contents
           (Tasks.paced 0 0 10) (Tasks.paced 86420 2 10) Ticks.fresh c rest
           Hlist Hs Hok Hdead Hlate).
Defined.

(** A run over contents with distinct ids, none cached with a true value,
    against a service that answers every call with status 200 and a true
    body: it goes to the end, calls once for each content in order, and
    stores each answer for 24 hours or more from its beginning. *)
Lemma loop_all_called (api : Tasks.collaborator) (time : Tasks.clock) (l : list joined)
    (st : Tasks.state) :
  Tasks.steady time ->
  (forall id, Tasks.answers_truthy api id) ->
  NoDup ((fun r => Content.id (fst r)) <$> l) ->
  Forall (fun r => Tasks.live (Tasks.cache st) (Tasks.at_get time (Tasks.calls st))
                     (Content.id (fst r)) = false) l ->
  exists st',
    Tasks.loop api time l st = (st', Tasks.Exhausted)
    /\ Tasks.calls st' = (Tasks.calls st ++ map Tasks.body_of l)%list
    /\ forall r, r ∈ l ->
         exists e,
           Tasks.cache st' !! Tasks.key (Content.id (fst r)) = Some e
           /\ Py.truthy (Cache.value e) = true
           /\ Tasks.at_get time (Tasks.calls st) + Tasks.timeout <= Cache.expires e.
Proof.
  intros Hs Hok. revert st. induction l as [|c l IH]; intros st Hnd Hdead.
  - exists st. cbn. rewrite app_nil_r. split; [reflexivity|]. split; [reflexivity|].
    intros r Hr. by apply elem_of_nil in Hr.
  - rewrite fmap_cons in Hnd. apply NoDup_cons in Hnd as [Hc Hnd].
    apply Forall_cons in Hdead as [Hdc Hdl].
    assert (Hkeys : forall r, r ∈ l ->
                      Tasks.key (Content.id (fst r)) <> Tasks.key (Content.id (fst c))).
    { intros r Hr E. apply key_inj in E. apply Hc. rewrite <- E.
      by apply (list_elem_of_fmap_2 (fun r => Content.id (fst r))). }
    pose proof (steady_call time (Tasks.calls st) (Tasks.body_of c) Hs) as Hstep.
    cbn [Tasks.loop]. unfold Tasks.live in Hdc. rewrite Hdc.
    destruct (Hok _ (Tasks.calls st) (Tasks.body_of c) eq_refl) as (v & -> & Hv).
    cbn [Z.eqb Pos.eqb].
    match goal with
    | |- context [Tasks.loop api time l ?s2] =>
        destruct (IH s2 Hnd) as (st' & Hloop & Hcalls & Hlive);
        [|pose proof (proj2 (loop_cache_local api time l s2
                               (Tasks.key (Content.id (fst c)))) Hkeys) as Hkeep]
    end.
    + apply Forall_forall. intros r Hr. rewrite Forall_forall in Hdl.
      cbn [Tasks.cache Tasks.calls].
      apply (dead_later _ (Tasks.at_get time (Tasks.calls st))); [lia|].
      rewrite <- (Hdl r Hr). unfold Tasks.live.
      apply f_equal, cache_get_ext, cache_set_other.
      intros E. by apply (Hkeys r Hr).
    + rewrite Hloop in Hkeep. cbn [fst Tasks.cache Tasks.calls] in Hkeep.
      rewrite cache_set_same in Hkeep.
      exists st'. split; [exact Hloop|]. split.
      * rewrite Hcalls. cbn [Tasks.calls map]. by rewrite <- app_assoc.
      * intros r Hr. apply elem_of_cons in Hr as [->|Hr].
        -- eexists. split; [exact Hkeep|]. split; [exact Hv|].
           cbn [Cache.expires]. lia.
        -- destruct (Hlive r Hr) as (e & He & Hev & Hexp).
           exists e. split; [exact He|]. split; [exact Hev|].
           cbn [Tasks.calls] in Hexp. lia.
Qed.

(** X20: when none of the contents of a tick is cached with a true value,
    their ids are distinct and the service answers every call with status
    200 and a true body, the tick runs to the end, calls once for each
    content, newest first, and until 24 hours have passed since it began a
    tick over the same store returns at once without a call. *)
Theorem X20_successful_tick (api : Tasks.collaborator) (s : Store) (time : Tasks.clock)
    (st : Tasks.state) :
  let l := firstn 10 (Tasks.order_by_timestamp_desc (select_related_author s)) in
  let now := Tasks.at_get time (Tasks.calls st) in
  Tasks.steady time ->
  (forall id, Tasks.answers_truthy api id) ->
  NoDup ((fun r => Content.id (fst r)) <$> l) ->
  Forall (fun r => Tasks.live (Tasks.cache st) now (Content.id (fst r)) = false) l ->
  exists st',
    Tasks.generate_comment api s time st = (st', Tasks.Exhausted)
    /\ Tasks.calls st' = (Tasks.calls st ++ map Tasks.body_of l)%list
    /\ forall later : Tasks.clock,
         now <= Tasks.at_get later (Tasks.calls st') < now + 86400 ->
         l <> [] ->
         Tasks.generate_comment api s later st' = (st', Tasks.Returned).
Proof.
  intros l now Hs Hok Hnd Hdead.
  destruct (loop_all_called api time l st Hs Hok Hnd Hdead)
    as (st' & Hloop & Hcalls & Hlive).
  exists st'. split; [exact Hloop|]. split; [exact Hcalls|].
  intros later Hlater Hne. unfold Tasks.generate_comment. fold l.
  destruct l as [|c rest] eqn:El; [congruence|].
  destruct (Hlive c) as (e & Hc & Hv & Hexp); [apply list_elem_of_here|].
  cbn [Tasks.loop]. unfold Cache.get. rewrite Hc.
  assert (E : (Tasks.at_get later (Tasks.calls st') <? Cache.expires e) = true)
    by (fold now in Hexp; unfold Tasks.timeout in Hexp; lia).
  rewrite E, Hv. reflexivity.
Qed.

Lemma X20_successful_tick_witness :
  Tasks.steady (Tasks.paced 0 0 10)
  /\ (forall id, Tasks.answers_truthy Ticks.comment id)
  /\ NoDup ((fun r => Content.id (fst r)) <$>
              firstn 10 (Tasks.order_by_timestamp_desc
                           (select_related_author Scenario.two_contents)))
  /\ Forall (fun r => Tasks.live (Tasks.cache Ticks.fresh)
                        (Tasks.at_get (Tasks.paced 0 0 10) (Tasks.calls Ticks.fresh))
                        (Content.id (fst r)) = false)
       (firstn 10 (Tasks.order_by_timestamp_desc
                     (select_related_author Scenario.two_contents)))
  /\ exists st',
       Tasks.generate_comment Ticks.comment Scenario.two_contents (Tasks.paced 0 0 10)
         Ticks.fresh
       = (st', Tasks.Exhausted)
       /\ Tasks.calls st'
          = (Tasks.calls Ticks.fresh
             ++ map Tasks.body_of
                  (firstn 10 (Tasks.order_by_timestamp_desc
                                (select_related_author Scenario.two_contents))))%list
       /\ forall later : Tasks.clock,
            Tasks.at_get (Tasks.paced 0 0 10) (Tasks.calls Ticks.fresh)
            <= Tasks.at_get later (Tasks.calls st')
            < Tasks.at_get (Tasks.paced 0 0 10) (Tasks.calls Ticks.fresh) + 86400 ->
            firstn 10 (Tasks.order_by_timestamp_desc
                         (select_related_author Scenario.two_contents)) <> [] ->
            Tasks.generate_comment Ticks.comment Scenario.two_contents later st'
            = (st', Tasks.Returned).
Proof.
  assert (H0 : Tasks.steady (Tasks.paced 0 0 10)) by (apply paced_steady; lia).
  assert (H1 : forall id, Tasks.answers_truthy Ticks.comment id).
  { intros id log body _. eexists. split; reflexivity. }
  assert (H2 : NoDup ((fun r => Content.id (fst r)) <$>
                        firstn 10 (Tasks.order_by_timestamp_desc
                                     (select_related_author Scenario.two_contents)))).
  { apply (bool_decide_unpack _). vm_compute. exact I. }
  assert (H3 : Forall (fun r => Tasks.live (Tasks.cache Ticks.fresh)
                                  (Tasks.at_get (Tasks.paced 0 0 10) (Tasks.calls Ticks.fresh))
                                  (Content.id (fst r)) = false)
                 (firstn 10 (Tasks.order_by_timestamp_desc
                               (select_related_author Scenario.two_contents)))).
  { apply Forall_forall. intros r _. reflexivity. }
  split; [exact H0|]. split; [exact H1|]. split; [exact H2|]. split; [exact H3|].
  exact (X20_successful_tick Ticks.comment Scenario.two_contents (Tasks.paced 0 0 10)
           Ticks.fresh H0 H1 H2 H3).
Defined.

(** X21: two contents share a cache key only when they are the same
    content. *)
Theorem X21_cache_keys_distinct (i j : Z) :
  Tasks.key i = Tasks.key j <-> i = j.
Proof. split; [apply key_inj | by intros ->]. Qed.

(** ** The beat schedule *)

(** The last item of a dict display decides the value of its key, and
    leaves the other keys as the items before it set them. *)
Lemma dict_display_snoc {V : Type} (items : list (string * V)) (k : string) (v : V) :
  Celery.dict_display (items ++ [(k, v)]) !! k = Some v
  /\ forall k', k' <> k ->
       Celery.dict_display (items ++ [(k, v)]) !! k' = Celery.dict_display items !! k'.
Proof.
  unfold Celery.dict_display. rewrite fold_left_app. cbn.
  split; [apply lookup_insert_eq|]. intros k' Hk. by apply lookup_insert_ne.
Qed.

(** X22: the schedule has two entries, because the key [task2] is written
    twice: [task2] runs [post_comment] every 30 seconds, and no entry runs
    [generate_comment]. *)
Theorem X22_generate_comment_not_scheduled :
  size Celery.beat_schedule = 2%nat
  /\ Celery.beat_schedule !! "task2"
     = Some {| Celery.task := "contents.tasks.post_comment"; Celery.schedule := 30 |}
  /\ forall name e,
       Celery.beat_schedule !! name = Some e ->
       Celery.task e <> "contents.tasks.generate_comment".
Proof.
  destruct (dict_display_snoc
              [("task1", {| Celery.task := "contents.tasks.pull_and_store_content";
                            Celery.schedule := 5 |});
               ("task2", {| Celery.task := "contents.tasks.generate_comment";
                            Celery.schedule := 5 |})]
              "task2"
              {| Celery.task := "contents.tasks.post_comment"; Celery.schedule := 30 |})
    as [Hlast Hother].
  split; [vm_compute; reflexivity|].
  split; [exact Hlast|].
  intros name e.
  destruct (decide (name = "task2")) as [->|Hne].
  - unfold Celery.beat_schedule. cbn [app] in Hlast. rewrite Hlast.
    intros [= <-]. discriminate.
  - unfold Celery.beat_schedule. cbn [app] in Hother. rewrite (Hother name Hne).
    unfold Celery.dict_display. cbn [fold_left fst snd].
    rewrite lookup_insert_ne by congruence.
    destruct (decide (name = "task1")) as [->|Hne1].
    + rewrite lookup_insert_eq. intros [= <-]. discriminate.
    + rewrite lookup_insert_ne by congruence. rewrite lookup_empty. discriminate.
Qed.

(** ** From ingestion to the answers *)

(** X23: on a well-formed store a request is answered, and the tags then
    listed for its content hold every tag name of the payload, each name
    once, also when the payload repeats it. *)
Theorem X23_sent_tags_are_listed (d : Z) (s : Store) (now : Z) (data : Payload.t) :
  wf s ->
  exists s' c a,
    ContentAPIView.post d s now data = Py.Ok (s', (c, a))
    /\ NoDup (ContentAPIView.content_tag_names s' (Content.id c))
    /\ forall name,
         In name (Payload.hashtags data) ->
         name ∈ ContentAPIView.content_tag_names s' (Content.id c).
Proof.
  intros Hwf.
  destruct (post_ok d s now data Hwf)
    as (s' & c & a & Hpost & Hwf' & _ & _ & _ & _ & Hlinked & _).
  exists s', c, a. split; [exact Hpost|].
  split; [by apply content_tag_names_NoDup|].
  intros name Hn. apply content_tag_names_linked, Hlinked. by apply list_elem_of_In.
Qed.

Lemma X23_sent_tags_are_listed_witness :
  wf empty_store
  /\ exists s' c a,
       ContentAPIView.post 0 empty_store 100 Scenario.hello = Py.Ok (s', (c, a))
       /\ NoDup (ContentAPIView.content_tag_names s' (Content.id c))
       /\ forall name,
            In name (Payload.hashtags Scenario.hello) ->
            name ∈ ContentAPIView.content_tag_names s' (Content.id c).
Proof.
  assert (H : wf empty_store).
  { apply (bool_decide_unpack _). vm_compute. exact I. }
  split; [exact H|].
  exact (X23_sent_tags_are_listed 0 empty_store 100 Scenario.hello H).
Defined.

(** X24: on a well-formed store that holds a content, the statistics asked
    for without [tag] run over every stored content once, whatever else the
    request carries: they count the rows of the content table and sum their
    likes. *)
Theorem X24_stats_over_all_contents (s : Store) (request : Request.t) :
  wf s ->
  contents s <> [] ->
  Request.tag request = None ->
  exists data,
    ContentStatsAPIView.get s request = Py.Ok data
    /\ ContentStatsAPIView.total_contents data = Z.of_nat (length (contents s))
    /\ ContentStatsAPIView.total_likes data
       = Some (fold_right (fun c acc => Content.like_count c + acc) 0 (contents s)).
Proof.
  intros Hwf Hne Htag.
  destruct (joined_rows s Hwf) as [Hfst _].
  assert (Hqs : ContentStatsAPIView.filtered s request = select_related_author s).
  { unfold ContentStatsAPIView.filtered. by rewrite Htag. }
  assert (Hne' : ContentStatsAPIView.filtered s request <> []).
  { rewrite Hqs. intros E. apply Hne. by rewrite <- Hfst, E. }
  destruct (stats_nonempty s request Hne') as (rate & Hget & _).
  eexists. split; [exact Hget|]. cbn. rewrite Hqs. split.
  - by rewrite <- Hfst, length_map.
  - f_equal. rewrite <- Hfst. clear.
    induction (select_related_author s) as [|r l IH]; [reflexivity|].
    cbn. by rewrite IH.
Qed.

Lemma X24_stats_over_all_contents_witness :
  wf Scenario.two_contents
  /\ contents Scenario.two_contents <> []
  /\ Request.tag (Scenario.by_author 1) = None
  /\ exists data,
       ContentStatsAPIView.get Scenario.two_contents (Scenario.by_author 1) = Py.Ok data
       /\ ContentStatsAPIView.total_contents data
          = Z.of_nat (length (contents Scenario.two_contents))
       /\ ContentStatsAPIView.total_likes data
          = Some (fold_right (fun c acc => Content.like_count c + acc) 0
                    (contents Scenario.two_contents)).
Proof.
  assert (H1 : wf Scenario.two_contents).
  { apply (bool_decide_unpack _). vm_compute. exact I. }
  assert (H2 : contents Scenario.two_contents <> []).
  { vm_compute. discriminate. }
  split; [exact H1|]. split; [exact H2|]. split; [reflexivity|].
  exact (X24_stats_over_all_contents Scenario.two_contents (Scenario.by_author 1)
           H1 H2 eq_refl).
Defined.
